(** * GREEN-DR: the cross-validation training orchestrator of [train.py]

    A shallow embedding of [main] of [src/train.py]: the dataset composer
    (lines 290-365), the fold loop with its resume-skip (lines 380-390), the
    epoch loop with the two best trackers (lines 477-552) and the run summary
    (lines 564-598, 640-641).

    Metrics are Python floats, embedded as Rocq's binary64 primitive floats.
    The file system is a finite map from paths to contents; every effect of
    the program is also appended to a trace of events.  The numerical
    collaborators ([train], [validate], [StratifiedKFold], [preprocess], the
    CSV inputs) are fields of an environment record: in [main] the two
    drivers stand for what they return in each epoch.  The drivers
    themselves (lines 129-208) are embedded on their own, over a record of
    the tensor operations they call, with the ways in which they raise. *)

From Stdlib Require Import ZArith List String Ascii Bool Lia Floats.
From stdpp Require Import base option list strings pretty gmap.

Local Open Scope string_scope.
Local Open Scope list_scope.

(** ** Python floats *)

Module PyFloat.

Definition py_inf : float := infinity.
Definition py_zero : float := zero.

(** [a > b], [a >= b] and [math.isnan]. *)
Definition gt (a b : float) : bool := PrimFloat.ltb b a.
Definition ge (a b : float) : bool := PrimFloat.leb b a.
Definition isnan (a : float) : bool := negb (PrimFloat.eqb a a).

(** [float(n)] for a list length. *)
Definition of_nat (n : nat) : float :=
  PrimFloat.of_uint63 (Uint63.of_Z (Z.of_nat n)).

(** The order of the specification floats, case by case. *)
Definition sf_rank (x : spec_float) : Z * Z * Z :=
  match x with
  | S754_nan => (0, 0, 0)%Z
  | S754_infinity true => (-2, 0, 0)%Z
  | S754_infinity false => (2, 0, 0)%Z
  | S754_zero _ => (0, 0, 0)%Z
  | S754_finite true m e => (-1, - e, Z.neg m)%Z
  | S754_finite false m e => (1, e, Z.pos m)%Z
  end.

Definition lex3 (a b : Z * Z * Z) : comparison :=
  let '(a1, a2, a3) := a in
  let '(b1, b2, b3) := b in
  match Z.compare a1 b1 with
  | Eq => match Z.compare a2 b2 with
          | Eq => Z.compare a3 b3
          | c => c
          end
  | c => c
  end.

Definition sf_nan (x : spec_float) : bool :=
  match x with S754_nan => true | _ => false end.

End PyFloat.


(** ** Exceptions, tables and the file system *)

Inductive exn : Type :=
| NotImplementedError
| UnboundLocalError (var : string)
| NameError (var : string)
| ValueError
| KeyError (key : string)
| TypeError
| IndexError
| FileNotFoundError (path : string)
| ParserError (path : string).

Inductive outcome (A : Type) : Type :=
| Ok (a : A)
| Raise (e : exn).
Arguments Ok {A} a.
Arguments Raise {A} e.

(** A cell of a data frame: the metric columns hold floats, the epoch columns
    integers, the [fold] column strings (and [best_epoch] ends with ['']). *)
Inductive cell : Type :=
| CFloat (x : float)
| CInt (n : Z)
| CStr (s : string).

(** A data frame is the ordered dictionary of its columns. *)
Definition frame : Type := list (string * list cell).

(** The auxiliary output of the model: [adj.data.cpu().numpy()]. *)
Definition adjacency : Type := list (list float).

Inductive content : Type :=
| Csv (f : frame)
| Pickle (a : adjacency)
| Blob.

Inductive event : Type :=
| EvMakedirs (path : string)
| EvExists (path : string)
| EvRead (path : string)
| EvWrite (path : string)
| EvPreprocess (dataset : string)
| EvFold (number : nat)
| EvDataset (img_paths : list string) (labels : list Z)
| EvDataLoader
| EvModel (arch : string) (num_outputs : Z)
| EvLoadStateDict (path : string)
| EvOptimizer (name : string)
| EvScheduler (name : string)
| EvTrain (fold epoch : nat)
| EvValidate (fold epoch : nat)
| EvSchedulerStep
| EvEmptyCache.

Record world : Type := World {
  disk : gmap string content;
  trace : list event
}.

(** ** The monad of the program: a world is threaded through, an exception
    stops the computation and keeps what was written before it. *)

Definition M (A : Type) : Type := world -> outcome A * world.

Definition ret {A} (a : A) : M A := fun w => (Ok a, w).

Definition raise {A} (e : exn) : M A := fun w => (Raise e, w).

Definition bind {A B} (c : M A) (k : A -> M B) : M B :=
  fun w =>
    match c w with
    | (Ok a, w') => k a w'
    | (Raise e, w') => (Raise e, w')
    end.

Notation "'let*' x ':=' c 'in' k" := (bind c (fun x => k))
  (at level 10, x pattern, c at level 100, k at level 200).
Notation "c ';;' k" := (bind c (fun _ => k))
  (at level 100, k at level 200, right associativity).

Definition lift {A} (o : outcome A) : M A :=
  match o with
  | Ok a => ret a
  | Raise e => raise e
  end.

Definition emit (e : event) : M unit :=
  fun w => (Ok tt, World (disk w) (trace w ++ [e])).

(** [os.path.exists(path)] *)
Definition path_exists (path : string) : M bool :=
  fun w => (Ok (bool_decide (is_Some (disk w !! path))),
            World (disk w) (trace w ++ [EvExists path])).

(** Any write of [c] to [path]: [to_csv], [pickle.dump], [joblib.dump]. *)
Definition write_file (path : string) (c : content) : M unit :=
  fun w => (Ok tt, World (<[path := c]> (disk w)) (trace w ++ [EvWrite path])).

(** [pd.read_csv(path)] *)
Definition read_csv (path : string) : M frame :=
  fun w =>
    let w' := World (disk w) (trace w ++ [EvRead path]) in
    match disk w !! path with
    | None => (Raise (FileNotFoundError path), w')
    | Some (Csv f) => (Ok f, w')
    | Some _ => (Raise (ParserError path), w')
    end.

(** [torch.load(path)]: the file must exist; what it holds is not read by the
    model of the program. *)
Definition torch_load (path : string) : M unit :=
  fun w =>
    let w' := World (disk w) (trace w ++ [EvRead path]) in
    match disk w !! path with
    | None => (Raise (FileNotFoundError path), w')
    | Some _ => (Ok tt, w')
    end.

(** A loop [for x in xs: st = body(st, x)]. *)
Fixpoint foldM {A S} (body : S -> A -> M S) (xs : list A) (st : S) : M S :=
  match xs with
  | [] => ret st
  | x :: xs' => let* st' := body st x in foldM body xs' st'
  end.

(** ** pandas and numpy *)

Module Pandas.
Import PyFloat.

(** [len(df)] of a frame: the length of its first column. *)
Definition nrows (f : frame) : nat :=
  match f with
  | [] => 0
  | (_, c) :: _ => length c
  end.

Definition header (f : frame) : list string := map fst f.

(** [pd.DataFrame(dict)]: all columns must have one length. *)
Definition DataFrame (cols : list (string * list cell)) : outcome frame :=
  if forallb (fun c => Nat.eqb (length (snd c)) (nrows cols)) cols
  then Ok cols
  else Raise ValueError.

(** [df[name]] *)
Fixpoint column (f : frame) (name : string) : outcome (list cell) :=
  match f with
  | [] => Raise (KeyError name)
  | (n, c) :: f' => if String.eqb n name then Ok c else column f' name
  end.

(** [.values] of a metric column, as float64. *)
Fixpoint float_values (c : list cell) : outcome (list float) :=
  match c with
  | [] => Ok []
  | CFloat x :: c' =>
      match float_values c' with
      | Ok xs => Ok (x :: xs)
      | Raise e => Raise e
      end
  | _ :: _ => Raise TypeError
  end.

(** numpy's [argmin] on float64: the first NaN if there is one, else the
    first least element.  The scan keeps the least value [mp] seen so far
    and its index, and replaces them at [i] when [not (a[i] >= mp)]. *)
Fixpoint argmin_from (mp : float) (best i : nat) (a : list float) : nat :=
  match a with
  | [] => best
  | x :: a' =>
      if ge x mp then argmin_from mp best (S i) a'
      else if isnan x then i
      else argmin_from x i (S i) a'
  end.

Definition argmin (a : list float) : outcome nat :=
  match a with
  | [] => Raise ValueError
  | x :: a' => Ok (if isnan x then 0 else argmin_from x 0 1 a')
  end.

(** [a[i]] *)
Definition item {A} (a : list A) (i : nat) : outcome A :=
  match a !! i with
  | Some x => Ok x
  | None => Raise IndexError
  end.

(** [a[idx]] for an array of indices. *)
Fixpoint take {A} (a : list A) (idx : list nat) : outcome (list A) :=
  match idx with
  | [] => Ok []
  | i :: idx' =>
      match item a i, take a idx' with
      | Ok x, Ok xs => Ok (x :: xs)
      | Raise e, _ => Raise e
      | _, Raise e => Raise e
      end
  end.

(** [np.mean(xs)]: the sum of the elements over their number (NaN for the
    empty list).  The sum is taken from left to right; the order in which
    numpy's pairwise summation rounds is not modelled. *)
Definition mean (xs : list float) : float :=
  PrimFloat.div (fold_left PrimFloat.add xs py_zero) (of_nat (length xs)).

End Pandas.

(** ** The run configuration ([parse_args]) and the collaborators *)

Record Args : Type := {
  name : option string;
  arch : string;
  loss : string;
  epochs : Z;
  optimizer : string;
  pred_type : string;
  scheduler : string;
  train_dataset : string;
  cv : bool;
  n_splits : Z;
  remove_duplicate : bool;
  class_aware : bool;
  pretrained_model : option string;
  pseudo_labels : option string
}.

(** What [train] returns for one epoch. *)
Record train_out : Type := {
  train_loss : float;
  train_score : float;
  train_ac_score : float;
  train_f1_score : float
}.

(** What [validate] returns for one epoch. *)
Record val_out : Type := {
  val_loss : float;
  val_score : float;
  val_ac_score : float;
  val_f1_score : float;
  adj : adjacency
}.

(** The collaborators of [main]: each is a function of what the program
    hands to it.  [train] and [validate] are indexed by the fold and the
    epoch they are called in, and give what the call returns: an [Env]
    describes a run in which both drivers return in every epoch.  How the
    two drivers themselves run, and how they raise, is the subject of
    [train_epoch] and [validate_epoch] below. *)
Record Env : Type := {
  preprocess : string -> string;
  train_csv : list (string * Z);
  trainLabels_csv : list (string * Z);
  probs_csv : string -> list (string * Z);
  strMd5_duplicates : list string;
  skf_split : Z -> list string -> list Z -> list (list nat * list nat);
  train : nat -> nat -> train_out;
  validate : nat -> nat -> val_out
}.

(** ** Paths of the run directory *)

Module Paths.

(** [str(n)] and ['%d' % n] *)
Definition str (n : nat) : string := pretty n.

Definition run_dir (nm : string) : string := "models/" +:+ nm.
Definition args_txt (nm : string) : string := "models/" +:+ nm +:+ "/args.txt".
Definition args_pkl (nm : string) : string := "models/" +:+ nm +:+ "/args.pkl".
Definition model_pth (nm : string) (k : nat) : string :=
  "models/" +:+ nm +:+ "/model_" +:+ str k +:+ ".pth".
Definition log_csv (nm : string) (k : nat) : string :=
  "models/" +:+ nm +:+ "/log_" +:+ str k +:+ ".csv".
Definition adj_pkl (nm : string) (k : nat) : string :=
  "./models/" +:+ nm +:+ "/adj_" +:+ str k +:+ ".pkl".
Definition results_csv (nm : string) : string :=
  "models/" +:+ nm +:+ "/results.csv".
Definition results_1_csv (nm : string) : string :=
  "models/" +:+ nm +:+ "/results_1.csv".

End Paths.

(** ** Python strings and truth values *)

(** [needle in hay] *)
Fixpoint contains (needle hay : string) : bool :=
  String.prefix needle hay
  || match hay with
     | EmptyString => false
     | String _ hay' => contains needle hay'
     end.

(** [if s:] for an optional string: [None] and [''] are false. *)
Definition truthy (s : option string) : bool :=
  match s with
  | None => false
  | Some s => negb (String.eqb s "")
  end.

(** The use of a local variable that an earlier branch may not have bound. *)
Definition use {A} (var : string) (v : option A) : M A :=
  match v with
  | Some a => ret a
  | None => raise (UnboundLocalError var)
  end.

(** ** The head of [main]: lines 213-253 *)

Definition run_name (args : Args) : string :=
  match name args with
  | Some nm => nm
  | None => "gcn_" +:+ arch args +:+ "_" +:+ train_dataset args
  end.

Inductive criterion_kind : Type :=
| CrossEntropyLoss
| FocalLoss
| MSELoss
| MultitaskLoss.

Definition select_criterion (args : Args) : outcome criterion_kind :=
  if String.eqb (loss args) "CrossEntropyLoss" then Ok CrossEntropyLoss
  else if String.eqb (loss args) "FocalLoss" then Ok FocalLoss
  else if String.eqb (loss args) "MSELoss" then Ok MSELoss
  else if String.eqb (loss args) "multitask" then Ok MultitaskLoss
  else Raise NotImplementedError.

Definition select_num_outputs (args : Args) : outcome Z :=
  if String.eqb (pred_type args) "classification" then Ok 5%Z
  else if String.eqb (pred_type args) "regression" then Ok 1%Z
  else if String.eqb (loss args) "multitask" then Ok 6%Z
  else Raise NotImplementedError.

Definition save_args (args : Args) : M unit :=
  let nm := run_name args in
  let* ex := path_exists (Paths.run_dir nm) in
  (if ex then ret tt else emit (EvMakedirs (Paths.run_dir nm)));;
  write_file (Paths.args_txt nm) Blob;;
  write_file (Paths.args_pkl nm) Blob.

(** ** The dataset composer: lines 290-365 *)

(** One fold of [img_paths] (resp. [labels]): the train and the validation
    part. *)
Definition path_split : Type := list string * list string.
Definition label_split : Type := list Z * list Z.

(** A loaded dataset: its directory, image paths and labels. *)
Record dataset : Type := {
  ds_dir : string;
  ds_img_paths : list string;
  ds_labels : list Z
}.

(** [dir + '/' + ids + ext] for a column of ids. *)
Definition table_img_paths (dir : string) (table : list (string * Z))
    (ext : string) : list string :=
  map (fun r => dir +:+ "/" +:+ fst r +:+ ext) table.

Definition load_dataset (env : Env) (nm : string) (table : list (string * Z))
    (ext : string) : M dataset :=
  emit (EvPreprocess nm);;
  let dir := preprocess env nm in
  ret {| ds_dir := dir;
         ds_img_paths := table_img_paths dir table ext;
         ds_labels := map snd table |}.

(** Lines 291-314: each dataset is loaded when its name occurs in the
    selection string; otherwise its variables stay unbound. *)
Definition load_datasets (args : Args) (env : Env)
    : M (option dataset * option dataset) :=
  let* dr :=
    if contains "diabetic_retinopathy" (train_dataset args)
    then let* d := load_dataset env "diabetic_retinopathy"
                     (trainLabels_csv env) ".jpeg" in ret (Some d)
    else ret None in
  let* aptos :=
    if contains "aptos2019" (train_dataset args)
    then let* d := load_dataset env "aptos2019" (train_csv env) ".png" in
         ret (Some d)
    else ret None in
  ret (dr, aptos).

(** The body of the three [for fold, (train_idx, val_idx) in
    enumerate(skf.split(...))] loops: the primary dataset indexed by the
    fold's indices, with [extra] stacked after the train part. *)
Fixpoint split_folds {A} (primary extra : list A)
    (idx : list (list nat * list nat)) : outcome (list (list A * list A)) :=
  match idx with
  | [] => Ok []
  | (train_idx, val_idx) :: idx' =>
      match Pandas.take primary train_idx, Pandas.take primary val_idx,
            split_folds primary extra idx' with
      | Ok tr, Ok va, Ok rest => Ok ((tr ++ extra, va) :: rest)
      | Raise e, _, _ => Raise e
      | _, Raise e, _ => Raise e
      | _, _, Raise e => Raise e
      end
  end.

Definition stratified (args : Args) (env : Env) (primary : dataset)
    (extra_paths : list string) (extra_labels : list Z)
    : M (list path_split * list label_split) :=
  let idx := skf_split env (n_splits args) (ds_img_paths primary)
               (ds_labels primary) in
  let* img_paths := lift (split_folds (ds_img_paths primary) extra_paths idx) in
  let* labels := lift (split_folds (ds_labels primary) extra_labels idx) in
  ret (img_paths, labels).

(** Lines 316-340.  No branch binds [img_paths] and [labels] for another
    selection string: the final [else: raise NotImplementedError] is commented
    out in the source. *)
Definition compose_folds (args : Args) (env : Env)
    (dr aptos : option dataset)
    : M (option (list path_split * list label_split)) :=
  if String.eqb (train_dataset args) "aptos2019" then
    let* a := use "aptos2019_img_paths" aptos in
    let* r := stratified args env a [] [] in ret (Some r)
  else if String.eqb (train_dataset args) "diabetic_retinopathy" then
    let* d := use "diabetic_retinopathy_img_paths" dr in
    let* r := stratified args env d [] [] in ret (Some r)
  else if contains "diabetic_retinopathy" (train_dataset args)
          && contains "aptos2019" (train_dataset args) then
    let* a := use "aptos2019_img_paths" aptos in
    let* d := use "diabetic_retinopathy_img_paths" dr in
    let* r := stratified args env a (ds_img_paths d) (ds_labels d) in
    ret (Some r)
  else ret None.

(** Lines 342-355: the pseudo-labelled test set is stacked after the train
    part of every fold. *)
Definition add_pseudo_labels (args : Args) (env : Env)
    (splits : option (list path_split * list label_split))
    : M (option (list path_split * list label_split)) :=
  if truthy (pseudo_labels args) then
    let test_df := probs_csv env (default "" (pseudo_labels args)) in
    emit (EvPreprocess "test");;
    let test_dir := preprocess env "test" in
    let test_img_paths := table_img_paths test_dir test_df ".png" in
    let test_labels := map snd test_df in
    let* f := use "img_paths" splits in
    ret (Some (map (fun p => (fst p ++ test_img_paths, snd p)) (fst f),
               map (fun l => (fst l ++ test_labels, snd l)) (snd f)))
  else ret splits.

(** Lines 290-365 together. *)
Definition compose (args : Args) (env : Env)
    : M (option dataset * option (list path_split * list label_split)) :=
  let* (dr, aptos) := load_datasets args env in
  let* splits := compose_folds args env dr aptos in
  let* splits := add_pseudo_labels args env splits in
  (if contains "messidor" (train_dataset args)
   then emit (EvPreprocess "messidor") else ret tt);;
  ret (aptos, splits).

(** ** The fold controller: lines 380-562 *)

(** One best snapshot.  The primary one is the source's [best_loss],
    [best_score], [best_ac_score], [best_f1_score], [best_epoch]; the
    secondary one is the same five variables with the suffix [_1]. *)
Record tracker : Type := {
  best_loss : float;
  best_score : float;
  best_ac_score : float;
  best_f1_score : float;
  best_epoch : nat
}.

(** Lines 492-502. *)
Definition tracker_init : tracker :=
  {| best_loss := PyFloat.py_inf;
     best_score := PyFloat.py_zero;
     best_ac_score := PyFloat.py_zero;
     best_f1_score := PyFloat.py_zero;
     best_epoch := 0 |}.

Definition snapshot (v : val_out) (epoch : nat) : tracker :=
  {| best_loss := val_loss v;
     best_score := val_score v;
     best_ac_score := val_ac_score v;
     best_f1_score := val_f1_score v;
     best_epoch := epoch |}.

Record fold_state : Type := {
  log : frame;
  primary : tracker;
  secondary : tracker
}.

(** Lines 480-490: the dictionary [log] of nine empty lists. *)
Definition log_columns : list string :=
  ["epoch"; "loss"; "score"; "ac_score"; "f1_score";
   "val_loss"; "val_score"; "val_ac_score"; "val_f1_score"].

Definition log_init : frame := map (fun c => (c, [])) log_columns.

Definition fold_state_init : fold_state :=
  {| log := log_init; primary := tracker_init; secondary := tracker_init |}.

(** [log[key].append(v)] *)
Fixpoint log_append (l : frame) (key : string) (v : cell) : outcome frame :=
  match l with
  | [] => Raise (KeyError key)
  | (k, c) :: l' =>
      if String.eqb k key then Ok ((k, c ++ [v]) :: l')
      else match log_append l' key v with
           | Ok r => Ok ((k, c) :: r)
           | Raise e => Raise e
           end
  end.

(** Lines 524-532. *)
Definition log_append_epoch (l : frame) (epoch : nat) (t : train_out)
    (v : val_out) : outcome frame :=
  fold_left
    (fun acc kv =>
       match acc with
       | Ok l' => log_append l' (fst kv) (snd kv)
       | Raise e => Raise e
       end)
    [("epoch", CInt (Z.of_nat epoch));
     ("loss", CFloat (train_loss t));
     ("score", CFloat (train_score t));
     ("ac_score", CFloat (train_ac_score t));
     ("f1_score", CFloat (train_f1_score t));
     ("val_loss", CFloat (val_loss v));
     ("val_score", CFloat (val_score v));
     ("val_ac_score", CFloat (val_ac_score v));
     ("val_f1_score", CFloat (val_f1_score v))]
    (Ok l).

(** Lines 516-519. *)
Definition scheduler_step (args : Args) : M unit :=
  if String.eqb (scheduler args) "CosineAnnealingLR" then emit EvSchedulerStep
  else if String.eqb (scheduler args) "ReduceLROnPlateau"
       then emit EvSchedulerStep
       else ret tt.

(** The body of [for epoch in range(args.epochs)]: lines 505-552.  The
    variable [fold] is the 0-based index of the enumeration. *)
Definition epoch_body (args : Args) (env : Env) (fold : nat)
    (st : fold_state) (epoch : nat) : M fold_state :=
  let nm := run_name args in
  emit (EvTrain fold epoch);;
  let t := train env fold epoch in
  emit (EvValidate fold epoch);;
  let v := validate env fold epoch in
  scheduler_step args;;
  let* log' := lift (log_append_epoch (log st) epoch t v) in
  let* df := lift (Pandas.DataFrame log') in
  write_file (Paths.log_csv nm (fold + 1)) (Csv df);;
  let* primary' :=
    if PyFloat.gt (val_score v) (best_score (primary st)) then
      write_file (Paths.adj_pkl nm (fold + 1)) (Pickle (adj v));;
      ret (snapshot v epoch)
    else ret (primary st) in
  let secondary' :=
    if PyFloat.gt (val_ac_score v) (best_ac_score (secondary st))
    then snapshot v epoch
    else secondary st in
  ret {| log := log'; primary := primary'; secondary := secondary' |}.

(** [range(n)] for a Python int. *)
Definition range (n : Z) : list nat := seq 0 (Z.to_nat n).

(** Lines 477-552: the trackers and the log are initialised, then the epoch
    loop runs. *)
Definition run_epochs (args : Args) (env : Env) (fold : nat) : M fold_state :=
  foldM (epoch_body args env fold) (range (epochs args)) fold_state_init.

(** ** The run summary: lines 366-377 and 564-598 *)

Record summary : Type := {
  folds : list string;
  best_losses : list float;
  best_scores : list float;
  best_ac_scores : list float;
  best_f1_scores : list float;
  best_epochs : list nat;
  best_losses_1 : list float;
  best_scores_1 : list float;
  best_ac_scores_1 : list float;
  best_f1_scores_1 : list float;
  best_epochs_1 : list nat
}.

Definition summary_init : summary :=
  {| folds := []; best_losses := []; best_scores := []; best_ac_scores := [];
     best_f1_scores := []; best_epochs := [];
     best_losses_1 := []; best_scores_1 := []; best_ac_scores_1 := [];
     best_f1_scores_1 := []; best_epochs_1 := [] |}.

(** Lines 564-575. *)
Definition summary_append (s : summary) (fold : nat) (st : fold_state)
    : summary :=
  {| folds := folds s ++ [Paths.str (fold + 1)];
     best_losses := best_losses s ++ [best_loss (primary st)];
     best_scores := best_scores s ++ [best_score (primary st)];
     best_ac_scores := best_ac_scores s ++ [best_ac_score (primary st)];
     best_f1_scores := best_f1_scores s ++ [best_f1_score (primary st)];
     best_epochs := best_epochs s ++ [best_epoch (primary st)];
     best_losses_1 := best_losses_1 s ++ [best_loss (secondary st)];
     best_scores_1 := best_scores_1 s ++ [best_score (secondary st)];
     best_ac_scores_1 := best_ac_scores_1 s ++ [best_ac_score (secondary st)];
     best_f1_scores_1 := best_f1_scores_1 s ++ [best_f1_score (secondary st)];
     best_epochs_1 := best_epochs_1 s ++ [best_epoch (secondary st)] |}.

(** A metric column with its mean, and an epoch column with its ['']. *)
Definition with_mean (xs : list float) : list cell :=
  map CFloat (xs ++ [Pandas.mean xs]).

Definition with_blank (ns : list nat) : list cell :=
  map (fun n => CInt (Z.of_nat n)) ns ++ [CStr ""].

(** Lines 577-584. *)
Definition results_frame (s : summary) : outcome frame :=
  Pandas.DataFrame
    [("fold", map CStr (folds s ++ ["mean"]));
     ("best_loss", with_mean (best_losses s));
     ("best_score", with_mean (best_scores s));
     ("best_ac_score", with_mean (best_ac_scores s));
     ("best_f1_score", with_mean (best_f1_scores s));
     ("best_epoch", with_blank (best_epochs s))].

(** Lines 586-593. *)
Definition results_1_frame (s : summary) : outcome frame :=
  Pandas.DataFrame
    [("fold", map CStr (folds s ++ ["mean"]));
     ("best_loss_1", with_mean (best_losses_1 s));
     ("best_score_1", with_mean (best_scores_1 s));
     ("best_ac_score_1", with_mean (best_ac_scores_1 s));
     ("best_f1_score_1", with_mean (best_f1_scores_1 s));
     ("best_epoch", with_blank (best_epochs_1 s))].

(** Lines 577-598: both frames are built, then both are written. *)
Definition write_results (args : Args) (s : summary) : M unit :=
  let nm := run_name args in
  let* results := lift (results_frame s) in
  let* results_1 := lift (results_1_frame s) in
  write_file (Paths.results_csv nm) (Csv results);;
  write_file (Paths.results_1_csv nm) (Csv results_1).

(** ** One fold: lines 380-641 *)

(** How the body of the fold loop ends: it falls through or executes
    [continue] ([Next]), or executes [break]. *)
Inductive flow : Type :=
| Next
| Break.

(** Lines 383-390: the best row of the persisted log, by least [val_loss]. *)
Definition best_row (f : frame) : outcome (float * float * float) :=
  match Pandas.column f "val_loss" with
  | Raise e => Raise e
  | Ok c =>
      match Pandas.float_values c with
      | Raise e => Raise e
      | Ok losses =>
          match Pandas.argmin losses with
          | Raise e => Raise e
          | Ok i =>
              let cell_at (key : string) : outcome float :=
                match Pandas.column f key with
                | Raise e => Raise e
                | Ok c =>
                    match Pandas.float_values c with
                    | Raise e => Raise e
                    | Ok xs => Pandas.item xs i
                    end
                end in
              match cell_at "val_loss", cell_at "val_score",
                    cell_at "val_ac_score" with
              | Ok l, Ok s, Ok a => Ok (l, s, a)
              | Raise e, _, _ => Raise e
              | _, Raise e, _ => Raise e
              | _, _, Raise e => Raise e
              end
          end
      end
  end.

Definition resume_skip (args : Args) (fold : nat) (s : summary) : M summary :=
  let* f := read_csv (Paths.log_csv (run_name args) (fold + 1)) in
  let* (l, sc, ac) := lift (best_row f) in
  ret {| folds := folds s ++ [Paths.str (fold + 1)];
         best_losses := best_losses s ++ [l];
         best_scores := best_scores s ++ [sc];
         best_ac_scores := best_ac_scores s ++ [ac];
         best_f1_scores := best_f1_scores s;
         best_epochs := best_epochs s;
         best_losses_1 := best_losses_1 s;
         best_scores_1 := best_scores_1 s;
         best_ac_scores_1 := best_ac_scores_1 s;
         best_f1_scores_1 := best_f1_scores_1 s;
         best_epochs_1 := best_epochs_1 s |}.

(** [xs[mask]] for a boolean mask. *)
Fixpoint mask_select {A} (mask : list bool) (xs : list A) : outcome (list A) :=
  match mask, xs with
  | [], [] => Ok []
  | b :: mask', x :: xs' =>
      match mask_select mask' xs' with
      | Ok r => Ok (if b then x :: r else r)
      | Raise e => Raise e
      end
  | _, _ => Raise IndexError
  end.

(** Lines 396-400, for one duplicate path. *)
Definition drop_duplicate (sp : path_split * label_split) (dup : string)
    : outcome (path_split * label_split) :=
  let '((train_img_paths, val_img_paths), (train_labels, val_labels)) := sp in
  let keep := map (fun p => negb (String.eqb p dup)) in
  match mask_select (keep train_img_paths) train_labels,
        mask_select (keep train_img_paths) train_img_paths,
        mask_select (keep val_img_paths) val_labels,
        mask_select (keep val_img_paths) val_img_paths with
  | Ok tl, Ok tp, Ok vl, Ok vp => Ok ((tp, vp), (tl, vl))
  | Raise e, _, _, _ => Raise e
  | _, Raise e, _, _ => Raise e
  | _, _, Raise e, _ => Raise e
  | _, _, _, Raise e => Raise e
  end.

(** Lines 392-400. *)
Definition remove_duplicates (args : Args) (env : Env) (aptos : option dataset)
    (sp : path_split * label_split) : M (path_split * label_split) :=
  if remove_duplicate args then
    let* a := use "aptos2019_dir" aptos in
    let dups := map (fun i => ds_dir a +:+ "/" +:+ i +:+ ".png")
                  (strMd5_duplicates env) in
    lift (fold_left
            (fun acc dup =>
               match acc with
               | Ok sp' => drop_duplicate sp' dup
               | Raise e => Raise e
               end)
            dups (Ok sp))
  else ret sp.

(** Lines 403-436: the two datasets and their loaders.  [sampler] is bound
    nowhere, so asking for class-aware sampling raises. *)
Definition make_loaders (args : Args) (sp : path_split * label_split)
    : M unit :=
  let '((train_img_paths, val_img_paths), (train_labels, val_labels)) := sp in
  emit (EvDataset train_img_paths train_labels);;
  (if class_aware args then raise (NameError "sampler") else ret tt);;
  emit EvDataLoader;;
  emit (EvDataset val_img_paths val_labels);;
  emit EvDataLoader.

(** Lines 440-449. *)
Definition make_model (args : Args) (num_outputs : Z) (fold : nat) : M unit :=
  emit (EvModel (arch args) num_outputs);;
  match pretrained_model args with
  | None => ret tt
  | Some pm =>
      let path := Paths.model_pth pm (fold + 1) in
      torch_load path;;
      emit (EvLoadStateDict path)
  end.

(** Lines 453-472: an optimizer is bound for four names only, and both
    schedulers use it. *)
Definition make_optimizer (args : Args) : M (option string) :=
  if String.eqb (optimizer args) "Adam"
     || String.eqb (optimizer args) "AdamW"
     || String.eqb (optimizer args) "RAdam"
     || String.eqb (optimizer args) "SGD"
  then emit (EvOptimizer (optimizer args));; ret (Some (optimizer args))
  else ret None.

Definition make_scheduler (args : Args) (opt : option string) : M unit :=
  if String.eqb (scheduler args) "CosineAnnealingLR"
     || String.eqb (scheduler args) "ReduceLROnPlateau"
  then use "optimizer" opt;; emit (EvScheduler (scheduler args))
  else ret tt.

(** Lines 392-641: a fold that is not skipped. *)
Definition train_fold (args : Args) (env : Env) (num_outputs : Z)
    (aptos : option dataset) (fold : nat) (sp : path_split * label_split)
    (s : summary) : M (summary * flow) :=
  let* sp' := remove_duplicates args env aptos sp in
  make_loaders args sp';;
  make_model args num_outputs fold;;
  let* opt := make_optimizer args in
  make_scheduler args opt;;
  let* st := run_epochs args env fold in
  let s' := summary_append s fold st in
  write_results args s';;
  emit EvEmptyCache;;
  ret (s', if cv args then Next else Break).

(** The body of the fold loop: lines 381-641. *)
Definition fold_body (args : Args) (env : Env) (num_outputs : Z)
    (aptos : option dataset) (fold : nat) (sp : path_split * label_split)
    (s : summary) : M (summary * flow) :=
  emit (EvFold (fold + 1));;
  let* done := path_exists (Paths.model_pth (run_name args) (fold + 1)) in
  if done then
    let* s' := resume_skip args fold s in ret (s', Next)
  else train_fold args env num_outputs aptos fold sp s.

(** [for fold, sp in enumerate(zip(img_paths, labels))], from index [fold]. *)
Fixpoint fold_loop (body : nat -> path_split * label_split -> summary ->
                           M (summary * flow))
    (fold : nat) (splits : list (path_split * label_split)) (s : summary)
    : M summary :=
  match splits with
  | [] => ret s
  | sp :: splits' =>
      let* r := body fold sp s in
      match snd r with
      | Break => ret (fst r)
      | Next => fold_loop body (S fold) splits' (fst r)
      end
  end.

(** ** [main] *)

Definition main (args : Args) (env : Env) : M summary :=
  save_args args;;
  let* _ := lift (select_criterion args) in
  let* num_outputs := lift (select_num_outputs args) in
  let* (aptos, splits) := compose args env in
  let* sp := use "img_paths" splits in
  fold_loop (fold_body args env num_outputs aptos) 0
    (combine (fst sp) (snd sp)) summary_init.

(** ** The epoch driver: [train] and [validate] (lines 129-208) *)

(** What the epoch driver does to its model and optimizer, in order. *)
Inductive driver_event : Type :=
| EvModelTrain
| EvModelEval
| EvForward
| EvZeroGrad
| EvBackward
| EvStep.

(** [args.reg_coef] and [args.cls_coef]. *)
Record LossCoef : Type := {
  reg_coef : float;
  cls_coef : float
}.

(** The numerical collaborators of the epoch driver, over the type of
    tensors: the model, the tensor operations the driver applies, the
    callable criteria, the three metrics, and [AverageMeter] as the average
    it reports after a sequence of [update(val, n)].  A criterion is called
    on whatever output and target the driver hands to it, and raises when
    it cannot take them (shapes or types that do not fit): [loss_item] is
    the call followed by [.item()]. *)
Record Torch (tensor : Type) : Type := {
  forward : tensor -> tensor * adjacency * tensor;
  size0 : tensor -> Z;
  view_flat : tensor -> tensor;
  to_float : tensor -> tensor;
  channel0 : tensor -> tensor;
  channels_from1 : tensor -> tensor;
  unsqueeze1 : tensor -> tensor;
  loss_item : criterion_kind -> tensor -> tensor -> outcome float;
  quadratic_weighted_kappa : tensor -> tensor -> float;
  compute_accuracy : tensor -> tensor -> float;
  compute_f1 : tensor -> tensor -> float;
  meter_avg : list (float * Z) -> float
}.
Arguments forward {tensor}.
Arguments size0 {tensor}.
Arguments view_flat {tensor}.
Arguments to_float {tensor}.
Arguments channel0 {tensor}.
Arguments channels_from1 {tensor}.
Arguments unsqueeze1 {tensor}.
Arguments loss_item {tensor}.
Arguments quadratic_weighted_kappa {tensor}.
Arguments compute_accuracy {tensor}.
Arguments compute_f1 {tensor}.
Arguments meter_avg {tensor}.

(** The four [AverageMeter]s, as the updates they received. *)
Record meters : Type := {
  losses : list (float * Z);
  scores : list (float * Z);
  ac_scores : list (float * Z);
  f1_scores : list (float * Z)
}.

Definition meters_init : meters :=
  {| losses := []; scores := []; ac_scores := []; f1_scores := [] |}.

(** Lines 142-149 and 188-195: the loss of a batch and the output the
    metrics see.  A dictionary of criteria cannot be called and a single
    criterion cannot be subscripted; a criterion that is called may raise;
    for a prediction kind that is none of the three, [loss] stays
    unbound. *)
Definition batch_loss {tensor} (tc : Torch tensor) (args : Args)
    (co : LossCoef) (criterion : criterion_kind) (output target : tensor)
    : outcome (option float * tensor) :=
  if String.eqb (pred_type args) "classification" then
    match criterion with
    | MultitaskLoss => Raise TypeError
    | c =>
        match loss_item tc c output target with
        | Ok l => Ok (Some l, output)
        | Raise e => Raise e
        end
    end
  else if String.eqb (pred_type args) "regression" then
    match criterion with
    | MultitaskLoss => Raise TypeError
    | c =>
        match loss_item tc c (view_flat tc output) (to_float tc target) with
        | Ok l => Ok (Some l, output)
        | Raise e => Raise e
        end
    end
  else if String.eqb (pred_type args) "multitask" then
    match criterion with
    | MultitaskLoss =>
        match loss_item tc MSELoss (channel0 tc output)
                (to_float tc target) with
        | Raise e => Raise e
        | Ok reg =>
            match loss_item tc CrossEntropyLoss (channels_from1 tc output)
                    target with
            | Raise e => Raise e
            | Ok cls =>
                Ok (Some (PrimFloat.add (PrimFloat.mul (reg_coef co) reg)
                                        (PrimFloat.mul (cls_coef co) cls)),
                    unsqueeze1 tc (channel0 tc output))
            end
        end
    | _ => Raise TypeError
    end
  else Ok (None, output).

(** Lines 156-166 and 197-206: the metrics of a batch enter the meters. *)
Definition update_meters {tensor} (tc : Torch tensor) (m : meters)
    (loss : float) (input output target : tensor) : meters :=
  {| losses := losses m ++ [(loss, size0 tc input)];
     scores := scores m
               ++ [(quadratic_weighted_kappa tc output target, size0 tc input)];
     ac_scores := ac_scores m
                  ++ [(compute_accuracy tc output target, size0 tc input)];
     f1_scores := f1_scores m
                  ++ [(compute_f1 tc output target, size0 tc input)] |}.

(** The loop of lines 137-166 from the batch it is at: the meters so far,
    the [adj_weight] of the last batch if there was one, the events so
    far. *)
Fixpoint train_loop {tensor} (tc : Torch tensor) (args : Args) (co : LossCoef)
    (criterion : criterion_kind) (loader : list (tensor * tensor))
    (m : meters) (adj_weight : option adjacency) (evs : list driver_event)
    : outcome (meters * option adjacency) * list driver_event :=
  match loader with
  | [] => (Ok (m, adj_weight), evs)
  | (input, target) :: loader' =>
      let '(output, adj_weight', _) := forward tc input in
      let evs := evs ++ [EvForward] in
      match batch_loss tc args co criterion output target with
      | Raise e => (Raise e, evs)
      | Ok (loss, output') =>
          let evs := evs ++ [EvZeroGrad] in
          match loss with
          | None => (Raise (UnboundLocalError "loss"), evs)
          | Some l =>
              train_loop tc args co criterion loader'
                (update_meters tc m l input output' target)
                (Some adj_weight') (evs ++ [EvBackward; EvStep])
          end
      end
  end.

(** [train], lines 129-170. *)
Definition train_epoch {tensor} (tc : Torch tensor) (args : Args)
    (co : LossCoef) (criterion : criterion_kind)
    (train_loader : list (tensor * tensor))
    : outcome (float * float * float * float) * list driver_event :=
  match train_loop tc args co criterion train_loader meters_init None
          [EvModelTrain] with
  | (Raise e, evs) => (Raise e, evs)
  | (Ok (m, None), evs) => (Raise (UnboundLocalError "adj_weight"), evs)
  | (Ok (m, Some _), evs) =>
      (Ok (meter_avg tc (losses m), meter_avg tc (scores m),
           meter_avg tc (ac_scores m), meter_avg tc (f1_scores m)), evs)
  end.

(** The loop of lines 182-206. *)
Fixpoint validate_loop {tensor} (tc : Torch tensor) (args : Args)
    (co : LossCoef) (criterion : criterion_kind)
    (loader : list (tensor * tensor)) (m : meters) (adj : option adjacency)
    (evs : list driver_event)
    : outcome (meters * option adjacency) * list driver_event :=
  match loader with
  | [] => (Ok (m, adj), evs)
  | (input, target) :: loader' =>
      let '(output, adj', _) := forward tc input in
      let evs := evs ++ [EvForward] in
      match batch_loss tc args co criterion output target with
      | Raise e => (Raise e, evs)
      | Ok (None, _) => (Raise (UnboundLocalError "loss"), evs)
      | Ok (Some l, output') =>
          validate_loop tc args co criterion loader'
            (update_meters tc m l input output' target) (Some adj') evs
      end
  end.

(** [validate], lines 172-208. *)
Definition validate_epoch {tensor} (tc : Torch tensor) (args : Args)
    (co : LossCoef) (criterion : criterion_kind)
    (val_loader : list (tensor * tensor))
    : outcome (float * float * float * float * adjacency)
      * list driver_event :=
  match validate_loop tc args co criterion val_loader meters_init None
          [EvModelEval] with
  | (Raise e, evs) => (Raise e, evs)
  | (Ok (m, None), evs) => (Raise (UnboundLocalError "adj"), evs)
  | (Ok (m, Some a), evs) =>
      (Ok (meter_avg tc (losses m), meter_avg tc (scores m),
           meter_avg tc (ac_scores m), meter_avg tc (f1_scores m), a), evs)
  end.

(** * Definitions used in the statements

    Closed forms of the loops, the predicates of the statements, and
    sample runs. *)

(** ** The log and the trackers in closed form *)

(** The nine values epoch [epoch] appends to the log, in column order. *)
Definition epoch_row (epoch : nat) (t : train_out) (v : val_out) : list cell :=
  [CInt (Z.of_nat epoch);
   CFloat (train_loss t); CFloat (train_score t);
   CFloat (train_ac_score t); CFloat (train_f1_score t);
   CFloat (val_loss v); CFloat (val_score v);
   CFloat (val_ac_score v); CFloat (val_f1_score v)].

(** Row [j] of a frame. *)
Definition frame_row (f : frame) (j : nat) : option (list cell) :=
  mapM (fun c => snd c !! j) f.

(** The log after the epochs [0 .. n-1] of fold [fold]: column [c] holds
    entry [c] of each epoch's row. *)
Definition log_table (env : Env) (fold n : nat) : frame :=
  imap (fun c key =>
          (key, map (fun e => nth c (epoch_row e (train env fold e)
                                                (validate env fold e))
                                   (CStr ""))
                    (seq 0 n)))
       log_columns.

(** The two update rules of lines 536-552, as functions of the tracker they
    read and write. *)
Definition improve_primary (env : Env) (fold : nat) (p : tracker) (e : nat)
    : tracker :=
  let v := validate env fold e in
  if PyFloat.gt (val_score v) (best_score p) then snapshot v e else p.

Definition improve_secondary (env : Env) (fold : nat) (p : tracker) (e : nat)
    : tracker :=
  let v := validate env fold e in
  if PyFloat.gt (val_ac_score v) (best_ac_score p) then snapshot v e else p.

Definition primary_after (env : Env) (fold k : nat) : tracker :=
  fold_left (improve_primary env fold) (seq 0 k) tracker_init.

Definition secondary_after (env : Env) (fold k : nat) : tracker :=
  fold_left (improve_secondary env fold) (seq 0 k) tracker_init.

Definition state_after (env : Env) (fold k : nat) : fold_state :=
  {| log := log_table env fold k;
     primary := primary_after env fold k;
     secondary := secondary_after env fold k |}.

Definition scheduler_events (args : Args) : list event :=
  if String.eqb (scheduler args) "CosineAnnealingLR"
     || String.eqb (scheduler args) "ReduceLROnPlateau"
  then [EvSchedulerStep] else [].

(** Whether epoch [e] of fold [fold] improves the primary best score. *)
Definition improves (env : Env) (fold e : nat) : bool :=
  PyFloat.gt (val_score (validate env fold e))
             (best_score (primary_after env fold e)).

(** The events of epoch [e], and what it leaves on the disk. *)
Definition epoch_events (args : Args) (env : Env) (fold e : nat) : list event :=
  [EvTrain fold e; EvValidate fold e] ++ scheduler_events args
  ++ [EvWrite (Paths.log_csv (run_name args) (fold + 1))]
  ++ (if improves env fold e
      then [EvWrite (Paths.adj_pkl (run_name args) (fold + 1))] else []).

Definition epoch_disk (args : Args) (env : Env) (fold e : nat)
    (d : gmap string content) : gmap string content :=
  let d' := <[Paths.log_csv (run_name args) (fold + 1) :=
                Csv (log_table env fold (S e))]> d in
  if improves env fold e
  then <[Paths.adj_pkl (run_name args) (fold + 1) :=
           Pickle (adj (validate env fold e))]> d'
  else d'.

Definition epoch_world (args : Args) (env : Env) (fold : nat) (w : world)
    (e : nat) : world :=
  World (epoch_disk args env fold e (disk w))
        (trace w ++ epoch_events args env fold e).

Definition world_after (args : Args) (env : Env) (fold k : nat) (w : world)
    : world :=
  fold_left (epoch_world args env fold) (seq 0 k) w.

(** ** Sample runs *)

Definition demo_args_of (selection : string) (cross_validate : bool)
    (pseudo : option string) : Args :=
  {| name := Some "run"; arch := "resnet34"; loss := "CrossEntropyLoss";
     epochs := 3; optimizer := "SGD"; pred_type := "classification";
     scheduler := "CosineAnnealingLR";
     train_dataset := selection;
     cv := cross_validate; n_splits := 2; remove_duplicate := false;
     class_aware := false; pretrained_model := None;
     pseudo_labels := pseudo |}.

(** The defaults of [parse_args] for the selection, with three epochs. *)
Definition demo_args : Args :=
  demo_args_of "aptos2019, diabetic_retinopathy" true None.

Definition demo_val (l s a : float) : val_out :=
  {| val_loss := l; val_score := s; val_ac_score := a; val_f1_score := 0.5;
     adj := [[1; 0]; [0; 1]]%float |}.

Definition demo_train : train_out :=
  {| train_loss := 1; train_score := 0.25; train_ac_score := 0.5;
     train_f1_score := 0.5 |}.

(** Four primary samples in two folds, two secondary samples, one
    pseudo-labelled sample; [validate] is left open. *)
Definition demo_env (v : nat -> nat -> val_out) : Env :=
  {| preprocess := fun d => "processed/" +:+ d;
     train_csv := [("a", 0%Z); ("b", 1%Z); ("c", 0%Z); ("d", 1%Z)];
     trainLabels_csv := [("x", 2%Z); ("y", 3%Z)];
     probs_csv := fun _ => [("t", 4%Z)];
     strMd5_duplicates := [];
     skf_split := fun _ _ _ => [([0; 1], [2; 3]); ([2; 3], [0; 1])];
     train := fun _ _ => demo_train;
     validate := v |}.

(** Epoch 1 has the highest score, epoch 2 the highest accuracy, and all are
    positive. *)
Definition rising_val (fold e : nat) : val_out :=
  match e with
  | 0 => demo_val 0.75 0.25 0.25
  | 1 => demo_val 0.5 0.75 0.5
  | _ => demo_val 0.25 0.5 0.75
  end.

(** Epoch 1 has the highest score, epoch 2 the highest accuracy, and no score
    is positive. *)
Definition negative_val (fold e : nat) : val_out :=
  match e with
  | 0 => demo_val 0.75 (-0.5) 0.25
  | 1 => demo_val 0.5 (-0.25) 0.5
  | _ => demo_val 0.25 (-0.75) 0.75
  end.

Definition empty_world : world := World ∅ [].

(** ** Write sets, the fold step relation and the summary tables *)

(** [confined P c]: whatever [c] does and however it ends, it appends to the
    trace, every file it writes satisfies [P], and every other file is left
    as it was. *)
Definition confined {A} (P : string -> Prop) (c : M A) : Prop :=
  forall w, exists evs,
    trace (snd (c w)) = trace w ++ evs
    /\ (forall p, In (EvWrite p) evs -> P p)
    /\ (forall p, ~ P p -> disk (snd (c w)) !! p = disk w !! p).

Definition no_write (e : event) : Prop :=
  match e with
  | EvWrite _ => False
  | _ => True
  end.

(** The files of fold number [fold + 1] and of the run summary. *)
Definition fold_files (nm : string) (fold : nat) (p : string) : Prop :=
  p = Paths.log_csv nm (fold + 1) \/ p = Paths.adj_pkl nm (fold + 1)
  \/ p = Paths.results_csv nm \/ p = Paths.results_1_csv nm.

(** Everything [main] may write. *)
Definition run_files (nm : string) (p : string) : Prop :=
  (exists fold, fold_files nm fold p)
  \/ p = Paths.args_txt nm \/ p = Paths.args_pkl nm.

(** [at_fold body splits w i s0 w0]: started in world [w], the fold loop has
    completed the folds of index [0 .. i-1] without [break] and is about to
    enter fold [i] with the summary [s0] in world [w0]. *)
Inductive at_fold
    (body : nat -> path_split * label_split -> summary -> M (summary * flow))
    (splits : list (path_split * label_split)) (w : world)
    : nat -> summary -> world -> Prop :=
| at_first : at_fold body splits w 0 summary_init w
| at_next (i : nat) (sp : path_split * label_split) (s0 s1 : summary)
    (w0 w1 : world) :
    at_fold body splits w i s0 w0 ->
    splits !! i = Some sp ->
    body i sp s0 w0 = (Ok (s1, Next), w1) ->
    at_fold body splits w (S i) s1 w1.

(** The world only grows a trace. *)
Definition extends (w w' : world) : Prop :=
  exists evs, trace w' = trace w ++ evs.

(** Column [key] of the table [r] holds the [n] values [data], then their
    mean. *)
Definition mean_column (r : frame) (key : string) (data : list float)
    (n : nat) : Prop :=
  length data = n
  /\ Pandas.column r key = Ok (map CFloat (data ++ [Pandas.mean data])).

(** A disk on which the folds numbered [ks] of the run "run" are complete:
    each has a checkpoint and the log of three epochs of [rising_val]. *)
Definition resumed_world (ks : list nat) : world :=
  World (fold_right
           (fun k d =>
              <[Paths.model_pth "run" k := Blob]>
                (<[Paths.log_csv "run" k :=
                     Csv (log_table (demo_env rising_val) (k - 1) 3)]> d))
           ∅ ks)
        [].

Definition demo_splits : list (path_split * label_split) :=
  [((["p/a.png"; "p/b.png"], ["p/c.png"]), ([0; 1], [0]))%Z;
   ((["p/b.png"; "p/c.png"], ["p/a.png"]), ([1; 0], [0]))%Z].

(** The arrays of lines 299-314, as functions of the environment. *)
Definition aptos2019_img_paths (env : Env) : list string :=
  table_img_paths (preprocess env "aptos2019") (train_csv env) ".png".

Definition aptos2019_labels (env : Env) : list Z := map snd (train_csv env).

Definition diabetic_retinopathy_img_paths (env : Env) : list string :=
  table_img_paths (preprocess env "diabetic_retinopathy")
    (trainLabels_csv env) ".jpeg".

Definition diabetic_retinopathy_labels (env : Env) : list Z :=
  map snd (trainLabels_csv env).

(** The indices of every fold are indices of an array of length [n]. *)
Definition valid_indices (n : nat) (idx : list (list nat * list nat)) : Prop :=
  Forall (fun p => Forall (fun i => i < n) (fst p)
                   /\ Forall (fun i => i < n) (snd p)) idx.

(** Fold [r] is the split [p] of [primary], with all of [secondary] stacked
    after its train part and nothing added to its validation part. *)
Definition mixed_fold {A} (primary secondary : list A)
    (p : list nat * list nat) (r : list A * list A) : Prop :=
  exists tr va,
    Pandas.take primary (fst p) = Ok tr
    /\ Pandas.take primary (snd p) = Ok va
    /\ r = (tr ++ secondary, va)
    /\ length (fst r) = length (fst p) + length secondary
    /\ length (snd r) = length (snd p)
    /\ forall x, In x (snd r) -> In x primary.

(** The pseudo-labelled samples of lines 342-351 that are stacked after the
    train part of every fold: none unless pseudo-labels are requested. *)
Definition test_img_paths (args : Args) (env : Env) : list string :=
  if truthy (pseudo_labels args)
  then table_img_paths (preprocess env "test")
         (probs_csv env (default "" (pseudo_labels args))) ".png"
  else [].

Definition test_labels (args : Args) (env : Env) : list Z :=
  if truthy (pseudo_labels args)
  then map snd (probs_csv env (default "" (pseudo_labels args)))
  else [].

(** What lines 342-364 preprocess. *)
Definition test_events (args : Args) : list event :=
  if truthy (pseudo_labels args) then [EvPreprocess "test"] else [].

Definition messidor_events (args : Args) : list event :=
  if contains "messidor" (train_dataset args)
  then [EvPreprocess "messidor"] else [].

(** ** Stages of a trained fold *)

(** The files an epoch loop writes: the fold's log and auxiliary artifact. *)
Definition epoch_files (nm : string) (fold : nat) (p : string) : Prop :=
  p = Paths.log_csv nm (fold + 1) \/ p = Paths.adj_pkl nm (fold + 1).

(** Lines 392-552 of a trained fold: everything before the summary is
    recorded. *)
Definition before_results (args : Args) (env : Env) (num_outputs : Z)
    (aptos : option dataset) (fold : nat) (sp : path_split * label_split)
    : M fold_state :=
  let* sp' := remove_duplicates args env aptos sp in
  make_loaders args sp';;
  make_model args num_outputs fold;;
  let* opt := make_optimizer args in
  make_scheduler args opt;;
  run_epochs args env fold.

(** ** The command line and the head of [main] *)

(** The [choices] of [parse_args] (lines 51-52, 64-67): what the command
    line lets through for [--loss], [--pred_type] and [--scheduler]. *)
Definition parse_args_accepts (args : Args) : Prop :=
  In (loss args) ["CrossEntropyLoss"; "FocalLoss"; "MSELoss"; "multitask"]
  /\ In (pred_type args) ["classification"; "regression"; "multitask"]
  /\ In (scheduler args) ["CosineAnnealingLR"; "ReduceLROnPlateau"].

(** [emits_only Q c]: every event [c] appends to the trace satisfies [Q]. *)
Definition emits_only {A} (Q : event -> Prop) (c : M A) : Prop :=
  forall w, exists evs,
    trace (snd (c w)) = trace w ++ evs /\ Forall Q evs.

(** The events of [main] before the fold loop. *)
Definition before_folds (e : event) : Prop :=
  match e with
  | EvMakedirs _ | EvExists _ | EvWrite _ | EvPreprocess _ => True
  | _ => False
  end.

(** Lines 213-365 of [main]: everything before the fold loop. *)
Definition main_head (args : Args) (env : Env)
    : M (option dataset * option (list path_split * list label_split)) :=
  save_args args;;
  let* _ := lift (select_criterion args) in
  let* _ := lift (select_num_outputs args) in
  compose args env.

(** ** Duplicate removal *)

(** The duplicate paths of lines 393-394. *)
Definition duplicate_img_paths (env : Env) (a : dataset) : list string :=
  map (fun i => ds_dir a +:+ "/" +:+ i +:+ ".png") (strMd5_duplicates env).

(** A sample survives lines 396-400 when its path is none of [dups]. *)
Definition not_duplicate (dups : list string) (sample : string * Z) : bool :=
  forallb (fun d => negb (String.eqb (fst sample) d)) dups.

(** ** The epoch driver *)

(** The events of one training batch that completes. *)
Definition batch_events : list driver_event :=
  [EvForward; EvZeroGrad; EvBackward; EvStep].

(** The events that leave the parameters alone. *)
Definition no_update (e : driver_event) : Prop :=
  e = EvModelEval \/ e = EvForward.



(** ** The order of the folds *)

(** The fold numbers announced in a list of events, in order. *)
Definition fold_numbers (evs : list event) : list nat :=
  flat_map (fun e => match e with EvFold k => [k] | _ => [] end) evs.

Definition no_fold (e : event) : Prop :=
  match e with
  | EvFold _ => False
  | _ => True
  end.

(** ** More sample runs *)

(** A configuration of the run "run" on aptos2019, with three epochs. *)
Definition demo_config (loss_name optimizer_name : string) (n_epochs : Z)
    (single_fold dedup aware : bool) (pretrained : option string) : Args :=
  {| name := Some "run"; arch := "resnet34"; loss := loss_name;
     epochs := n_epochs; optimizer := optimizer_name;
     pred_type := "classification"; scheduler := "CosineAnnealingLR";
     train_dataset := "aptos2019";
     cv := negb single_fold; n_splits := 2; remove_duplicate := dedup;
     class_aware := aware; pretrained_model := pretrained;
     pseudo_labels := None |}.


(** A disk that holds the checkpoint of fold 1 of the run "run" and, when
    given, a log for it. *)
Definition checkpoint_world (log_file : option content) : world :=
  World (<[Paths.model_pth "run" 1 := Blob]>
           (match log_file with
            | Some c => <[Paths.log_csv "run" 1 := c]> ∅
            | None => ∅
            end))
        [].

(** The validation loss of epoch 1 is NaN; that of epoch 2 is the least. *)
Definition nan_val (fold e : nat) : val_out :=
  match e with
  | 0 => demo_val 0.5 0.5 0.5
  | 1 => demo_val PrimFloat.nan 0.25 0.625
  | _ => demo_val 0.25 0.75 0.75
  end.

(** The log that three epochs of [nan_val] leave. *)
Definition nan_log : frame :=
  [("epoch", [CInt 0; CInt 1; CInt 2]);
   ("loss", [CFloat 1; CFloat 1; CFloat 1]);
   ("score", [CFloat 0.25; CFloat 0.25; CFloat 0.25]);
   ("ac_score", [CFloat 0.5; CFloat 0.5; CFloat 0.5]);
   ("f1_score", [CFloat 0.5; CFloat 0.5; CFloat 0.5]);
   ("val_loss", [CFloat 0.5; CFloat PrimFloat.nan; CFloat 0.25]);
   ("val_score", [CFloat 0.5; CFloat 0.25; CFloat 0.75]);
   ("val_ac_score", [CFloat 0.5; CFloat 0.625; CFloat 0.75]);
   ("val_f1_score", [CFloat 0.5; CFloat 0.5; CFloat 0.5])].

(** A log of three epochs whose least [val_loss] occurs twice. *)
Definition tied_log : frame :=
  [("epoch", [CInt 0; CInt 1; CInt 2]);
   ("val_loss", [CFloat 0.5; CFloat 0.25; CFloat 0.25]);
   ("val_score", [CFloat 0.5; CFloat 0.75; CFloat 1]);
   ("val_ac_score", [CFloat 0.25; CFloat 0.5; CFloat 0.75])].

Definition demo_fold : path_split * label_split :=
  ((["p/a.png"; "p/b.png"], ["p/c.png"]), ([0; 1], [0]))%Z.

(** An environment in which the id [b] is a duplicate. *)
Definition dedup_env : Env :=
  {| preprocess := fun d => "p";
     train_csv := [("a", 0%Z); ("b", 1%Z); ("c", 0%Z)];
     trainLabels_csv := [];
     probs_csv := fun _ => [];
     strMd5_duplicates := ["b"];
     skf_split := fun _ _ _ => [([0; 1], [2])];
     train := fun _ _ => demo_train;
     validate := rising_val |}.


(** * Properties *)

(** ** The order of Python floats *)

Module PyFloatFacts.
Import PyFloat.

Lemma pcompare_eq_compare (m1 m2 : positive) :
  Pos.compare_cont Eq m1 m2 = Z.compare (Z.pos m1) (Z.pos m2).
Proof. reflexivity. Qed.

Lemma compopp_pcompare (m1 m2 : positive) :
  CompOpp (Pos.compare_cont Eq m1 m2) = Z.compare (Z.neg m1) (Z.neg m2).
Proof. simpl. reflexivity. Qed.

Lemma SFcompare_rank (x y : spec_float) :
  SFcompare x y =
    if sf_nan x || sf_nan y then None else Some (lex3 (sf_rank x) (sf_rank y)).
Proof.
  destruct x as [[|]|[|]| |[|] m1 e1], y as [[|]|[|]| |[|] m2 e2];
    try reflexivity; cbn [SFcompare sf_nan orb sf_rank lex3].
  rewrite Z.compare_refl, Z.compare_opp, (Z.compare_antisym e1 e2).
  destruct (Z.compare e1 e2); reflexivity.
Qed.

Lemma lex3_refl a : lex3 a a = Eq.
Proof.
  destruct a as [[a1 a2] a3]. unfold lex3. now rewrite !Z.compare_refl.
Qed.

Ltac lex3_cases :=
  repeat match goal with
    | |- context [Z.compare ?a ?b] =>
        destruct (Z.compare_spec a b); subst
    | H : context [Z.compare ?a ?b] |- _ =>
        destruct (Z.compare_spec a b); subst
    end;
  try congruence; try lia.

Lemma lex3_antisym a b : lex3 b a = CompOpp (lex3 a b).
Proof.
  destruct a as [[a1 a2] a3], b as [[b1 b2] b3]. unfold lex3.
  rewrite (Z.compare_antisym a1 b1), (Z.compare_antisym a2 b2),
    (Z.compare_antisym a3 b3).
  destruct (Z.compare a1 b1), (Z.compare a2 b2), (Z.compare a3 b3);
    reflexivity.
Qed.

Lemma lex3_lt_le_trans a b c :
  lex3 a b = Lt -> lex3 b c <> Gt -> lex3 a c <> Gt.
Proof.
  destruct a as [[a1 a2] a3], b as [[b1 b2] b3], c as [[c1 c2] c3].
  unfold lex3. intros H1 H2. lex3_cases.
Qed.

Lemma isnan_spec x : isnan x = sf_nan (Prim2SF x).
Proof.
  unfold isnan. rewrite FloatAxioms.eqb_spec. unfold SFeqb. rewrite SFcompare_rank.
  destruct (sf_nan (Prim2SF x)); simpl; [reflexivity|].
  now rewrite lex3_refl.
Qed.

Lemma ge_spec a b :
  ge a b = negb (sf_nan (Prim2SF b) || sf_nan (Prim2SF a))
           && match lex3 (sf_rank (Prim2SF b)) (sf_rank (Prim2SF a)) with
              | Gt => false
              | _ => true
              end.
Proof.
  unfold ge. rewrite FloatAxioms.leb_spec. unfold SFleb. rewrite SFcompare_rank.
  destruct (sf_nan (Prim2SF b) || sf_nan (Prim2SF a)); simpl; [reflexivity|].
  now destruct (lex3 _ _).
Qed.

Lemma gt_spec a b :
  gt a b = negb (sf_nan (Prim2SF b) || sf_nan (Prim2SF a))
           && match lex3 (sf_rank (Prim2SF b)) (sf_rank (Prim2SF a)) with
              | Lt => true
              | _ => false
              end.
Proof.
  unfold gt. rewrite FloatAxioms.ltb_spec. unfold SFltb. rewrite SFcompare_rank.
  destruct (sf_nan (Prim2SF b) || sf_nan (Prim2SF a)); simpl; [reflexivity|].
  now destruct (lex3 _ _).
Qed.

(** A float that is not NaN is at least itself. *)
Lemma ge_refl x : isnan x = false -> ge x x = true.
Proof.
  rewrite isnan_spec, ge_spec. intros ->. simpl. now rewrite lex3_refl.
Qed.

(** Only floats that are not NaN compare. *)
Lemma ge_not_nan a b : ge a b = true -> isnan a = false /\ isnan b = false.
Proof.
  rewrite ge_spec, !isnan_spec.
  destruct (sf_nan (Prim2SF b)), (sf_nan (Prim2SF a)); simpl; auto;
    discriminate.
Qed.


(** Nothing exceeds, and nothing is exceeded by, a NaN. *)
Lemma gt_nan_l a b : isnan a = true -> gt a b = false.
Proof.
  rewrite isnan_spec, gt_spec. intros ->. now rewrite orb_true_r.
Qed.

Lemma gt_nan_r a b : isnan b = true -> gt a b = false.
Proof. rewrite isnan_spec, gt_spec. now intros ->. Qed.

(** [x < m <= y] gives [x <= y], where [x < m] is read off [not (x >= m)]
    for an [x] that is not NaN. *)
Lemma ge_step x m y :
  isnan x = false -> ge x m = false -> ge y m = true -> ge y x = true.
Proof.
  rewrite isnan_spec, !ge_spec. intros Hx Hxm Hym. rewrite Hx in *.
  destruct (sf_nan (Prim2SF m)); simpl in *; [discriminate|].
  destruct (sf_nan (Prim2SF y)); simpl in *; [discriminate|].
  pose proof (lex3_lt_le_trans (sf_rank (Prim2SF x)) (sf_rank (Prim2SF m))
                (sf_rank (Prim2SF y))) as T.
  rewrite (lex3_antisym (sf_rank (Prim2SF x)) (sf_rank (Prim2SF m))) in Hxm.
  destruct (lex3 (sf_rank (Prim2SF x)) (sf_rank (Prim2SF m))); simpl in Hxm;
    try discriminate.
  destruct (lex3 (sf_rank (Prim2SF m)) (sf_rank (Prim2SF y)));
    try discriminate;
    destruct (lex3 (sf_rank (Prim2SF x)) (sf_rank (Prim2SF y)));
    try reflexivity; exfalso; apply T; congruence.
Qed.

End PyFloatFacts.

(** ** The monad *)

Section MonadFacts.
Context {A B : Type}.

Lemma bind_ok (c : M A) (k : A -> M B) w a w1 :
  c w = (Ok a, w1) -> bind c k w = k a w1.
Proof. unfold bind. now intros ->. Qed.

Lemma bind_split (c : M A) (k : A -> M B) w :
  bind c k w = match c w with
               | (Ok a, w1) => k a w1
               | (Raise e, w1) => (Raise e, w1)
               end.
Proof. reflexivity. Qed.

Lemma bind_raise (c : M A) (k : A -> M B) w e w1 :
  c w = (Raise e, w1) -> bind c k w = (Raise e, w1).
Proof. unfold bind. now intros ->. Qed.

Lemma lift_ok (a : A) w : lift (Ok a) w = (Ok a, w).
Proof. reflexivity. Qed.

End MonadFacts.

Lemma foldM_app {A S} (body : S -> A -> M S) xs ys st w :
  foldM body (xs ++ ys) st w =
    bind (foldM body xs st) (foldM body ys) w.
Proof.
  revert st w. induction xs as [|x xs IH]; intros st w; simpl.
  - reflexivity.
  - unfold bind in *. destruct (body st x w) as [[st'|e] w1].
    + apply IH.
    + reflexivity.
Qed.

Lemma foldM_snoc {A S} (body : S -> A -> M S) xs x st w st1 w1 :
  foldM body xs st w = (Ok st1, w1) ->
  foldM body (xs ++ [x]) st w = body st1 x w1.
Proof.
  intros H. rewrite foldM_app. rewrite (bind_ok _ _ _ _ _ H). simpl.
  unfold bind. destruct (body st1 x w1) as [[st2|e] w2]; reflexivity.
Qed.

(** ** The log of a fold *)

Lemma log_table_0 env fold : log_table env fold 0 = log_init.
Proof. reflexivity. Qed.

Lemma log_append_epoch_table env fold n :
  log_append_epoch (log_table env fold n) n (train env fold n)
    (validate env fold n) = Ok (log_table env fold (S n)).
Proof.
  unfold log_table. rewrite seq_S. cbn -[seq]. rewrite !map_app. reflexivity.
Qed.

Lemma DataFrame_log_table env fold n :
  Pandas.DataFrame (log_table env fold n) = Ok (log_table env fold n).
Proof.
  unfold Pandas.DataFrame, log_table. cbn -[seq].
  rewrite !length_map, Nat.eqb_refl. reflexivity.
Qed.

Lemma log_table_header env fold n :
  Pandas.header (log_table env fold n) = log_columns.
Proof. reflexivity. Qed.

Lemma log_table_lengths env fold n :
  Forall (fun c => length (snd c) = n) (log_table env fold n).
Proof.
  unfold log_table. cbn -[seq].
  repeat constructor; cbn -[seq]; now rewrite length_map, length_seq.
Qed.

Lemma log_table_row env fold n j :
  j < n ->
  frame_row (log_table env fold n) j =
    Some (epoch_row j (train env fold j) (validate env fold j)).
Proof.
  intros Hj. unfold frame_row, log_table. cbn -[seq].
  rewrite !list_lookup_fmap.
  assert (seq 0 n !! j = Some j) as ->.
  { now rewrite lookup_seq. }
  reflexivity.
Qed.

(** ** The epoch loop in closed form *)

Lemma state_after_S env fold k :
  state_after env fold (S k) =
    {| log := log_table env fold (S k);
       primary := improve_primary env fold (primary_after env fold k) k;
       secondary := improve_secondary env fold (secondary_after env fold k) k |}.
Proof.
  unfold state_after, primary_after, secondary_after.
  now rewrite seq_S, !fold_left_app.
Qed.

Lemma primary_after_S env fold k :
  primary_after env fold (S k) =
    improve_primary env fold (primary_after env fold k) k.
Proof. unfold primary_after. now rewrite seq_S, fold_left_app. Qed.

Lemma secondary_after_S env fold k :
  secondary_after env fold (S k) =
    improve_secondary env fold (secondary_after env fold k) k.
Proof. unfold secondary_after. now rewrite seq_S, fold_left_app. Qed.

Lemma world_after_S args env fold k w :
  world_after args env fold (S k) w =
    epoch_world args env fold (world_after args env fold k w) k.
Proof. unfold world_after. now rewrite seq_S, fold_left_app. Qed.

Lemma scheduler_step_spec args w :
  scheduler_step args w =
    (Ok tt, World (disk w) (trace w ++ scheduler_events args)).
Proof.
  unfold scheduler_step, scheduler_events, emit, ret.
  destruct (String.eqb (scheduler args) "CosineAnnealingLR"); simpl.
  - reflexivity.
  - destruct (String.eqb (scheduler args) "ReduceLROnPlateau"); simpl.
    + reflexivity.
    + rewrite app_nil_r. now destruct w.
Qed.

(** One pass through the body of the epoch loop, from the state the earlier
    epochs left. *)
Lemma epoch_body_spec args env fold k w :
  epoch_body args env fold (state_after env fold k) k w =
    (Ok (state_after env fold (S k)), epoch_world args env fold w k).
Proof.
  rewrite state_after_S.
  unfold epoch_body, epoch_world, epoch_disk, epoch_events, improves.
  unfold improve_primary, improve_secondary.
  cbn [log primary secondary state_after].
  unfold bind at 1. cbn [emit].
  unfold bind at 1. cbn [emit].
  unfold bind at 1. rewrite scheduler_step_spec.
  rewrite log_append_epoch_table.
  unfold bind at 1. cbn [lift ret].
  rewrite DataFrame_log_table.
  unfold bind at 1. cbn [lift ret].
  unfold bind at 1. cbn [write_file disk trace].
  destruct (PyFloat.gt (val_score (validate env fold k))
              (best_score (primary_after env fold k))).
  - unfold bind, write_file, ret. cbn [disk trace].
    rewrite <- !app_assoc. reflexivity.
  - unfold bind, ret. rewrite app_nil_r, <- !app_assoc. reflexivity.
Qed.

(** The first [k] epochs of a fold always complete, in the closed form above. *)
Lemma epochs_prefix args env fold k w :
  foldM (epoch_body args env fold) (seq 0 k) fold_state_init w =
    (Ok (state_after env fold k), world_after args env fold k w).
Proof.
  induction k as [|k IH].
  - reflexivity.
  - rewrite seq_S. rewrite (foldM_snoc _ _ _ _ _ _ _ IH).
    rewrite epoch_body_spec, world_after_S. reflexivity.
Qed.

Lemma run_epochs_spec args env fold w :
  run_epochs args env fold w =
    (Ok (state_after env fold (Z.to_nat (epochs args))),
     world_after args env fold (Z.to_nat (epochs args)) w).
Proof. apply epochs_prefix. Qed.

(** ** Paths of one run directory are pairwise distinct *)

Module PathFacts.
Import Paths.

Lemma append_inv_head (p x y : string) : p +:+ x = p +:+ y -> x = y.
Proof.
  induction p as [|c p IH]; simpl; intros H.
  - exact H.
  - injection H as H. now apply IH.
Qed.

Ltac same_dir H :=
  unfold model_pth, log_csv, results_csv, results_1_csv, args_txt,
    args_pkl in H;
  apply (append_inv_head "models/") in H;
  apply append_inv_head in H;
  discriminate H.

Ltac other_root H :=
  unfold adj_pkl, model_pth, log_csv, results_csv, results_1_csv, args_txt,
    args_pkl in H;
  cbn [String.append] in H; discriminate H.

Lemma log_ne_adj nm k nm' k' : log_csv nm k <> adj_pkl nm' k'.
Proof. intros H. other_root H. Qed.

Lemma adj_ne_log nm k nm' k' : adj_pkl nm k <> log_csv nm' k'.
Proof. intros H. other_root H. Qed.

Lemma adj_ne_model nm k nm' k' : adj_pkl nm k <> model_pth nm' k'.
Proof. intros H. other_root H. Qed.

Lemma adj_ne_results nm k nm' : adj_pkl nm k <> results_csv nm'.
Proof. intros H. other_root H. Qed.

Lemma adj_ne_results_1 nm k nm' : adj_pkl nm k <> results_1_csv nm'.
Proof. intros H. other_root H. Qed.

Lemma log_ne_model nm k k' : log_csv nm k <> model_pth nm k'.
Proof. intros H. same_dir H. Qed.

Lemma log_ne_results nm k : log_csv nm k <> results_csv nm.
Proof. intros H. same_dir H. Qed.

Lemma log_ne_results_1 nm k : log_csv nm k <> results_1_csv nm.
Proof. intros H. same_dir H. Qed.

Lemma results_ne_model nm k : results_csv nm <> model_pth nm k.
Proof. intros H. same_dir H. Qed.

Lemma results_1_ne_model nm k : results_1_csv nm <> model_pth nm k.
Proof. intros H. same_dir H. Qed.

Lemma results_ne_results_1 nm : results_csv nm <> results_1_csv nm.
Proof. intros H. same_dir H. Qed.

Lemma args_txt_ne_model nm k : args_txt nm <> model_pth nm k.
Proof. intros H. same_dir H. Qed.

Lemma args_pkl_ne_model nm k : args_pkl nm <> model_pth nm k.
Proof. intros H. same_dir H. Qed.

End PathFacts.

(** ** The per-fold log (lines 477-490, 524-534) *)

Lemma epoch_disk_log args env fold e d :
  epoch_disk args env fold e d !! Paths.log_csv (run_name args) (fold + 1) =
    Some (Csv (log_table env fold (S e))).
Proof.
  unfold epoch_disk. destruct (improves env fold e).
  - rewrite lookup_insert_ne by apply PathFacts.adj_ne_log.
    apply lookup_insert_eq.
  - apply lookup_insert_eq.
Qed.

(** The passes [0 .. e] are the first [e+1] passes of the whole epoch loop. *)
Lemma run_epochs_split args env fold e w :
  (Z.of_nat e < epochs args)%Z ->
  run_epochs args env fold w =
    bind (foldM (epoch_body args env fold) (seq 0 (S e)) fold_state_init)
         (foldM (epoch_body args env fold)
            (seq (S e) (Z.to_nat (epochs args) - S e))) w.
Proof.
  intros He. unfold run_epochs, range. rewrite <- foldM_app.
  rewrite <- seq_app. do 3 f_equal. lia.
Qed.

(** ** The two best trackers (lines 492-502, 536-552) *)

Lemma world_after_trace args env fold k w :
  trace (world_after args env fold k w) =
    trace w ++ flat_map (epoch_events args env fold) (seq 0 k).
Proof.
  induction k as [|k IH].
  - simpl. now rewrite app_nil_r.
  - rewrite world_after_S, seq_S, flat_map_app. cbn [epoch_world trace flat_map].
    now rewrite IH, app_nil_r, app_assoc.
Qed.

Lemma scheduler_events_no_write args p : ~ In (EvWrite p) (scheduler_events args).
Proof.
  unfold scheduler_events.
  destruct (_ || _); simpl; intuition discriminate.
Qed.

(** An epoch writes the auxiliary artifact exactly when it improves the
    primary best score. *)
Lemma epoch_events_adj args env fold e :
  In (EvWrite (Paths.adj_pkl (run_name args) (fold + 1)))
     (epoch_events args env fold e)
  <-> improves env fold e = true.
Proof.
  unfold epoch_events. rewrite !in_app_iff. cbn [In]. split.
  - intros [[H|[H|[]]]|[H|[[H|[]]|H]]].
    + discriminate H.
    + discriminate H.
    + now apply scheduler_events_no_write in H.
    + exfalso.
      apply (PathFacts.log_ne_adj (run_name args) (fold + 1)
               (run_name args) (fold + 1)).
      congruence.
    + destruct (improves env fold e); [reflexivity|destruct H].
  - intros ->. right. right. right. now left.
Qed.

Lemma epoch_disk_adj args env fold e d :
  epoch_disk args env fold e d !! Paths.adj_pkl (run_name args) (fold + 1) =
    if improves env fold e then Some (Pickle (adj (validate env fold e)))
    else d !! Paths.adj_pkl (run_name args) (fold + 1).
Proof.
  unfold epoch_disk. destruct (improves env fold e).
  - apply lookup_insert_eq.
  - apply lookup_insert_ne, PathFacts.log_ne_adj.
Qed.




(** ** The update rules, epoch by epoch *)

(** C6, as amended.  Each pass of the epoch loop replaces the primary
    snapshot by the epoch's (loss, score, accuracy, F1, epoch) exactly when
    the epoch's validation score strictly exceeds the primary best score, and
    writes the auxiliary adjacency artifact exactly then; it replaces the
    secondary snapshot exactly when the epoch's validation accuracy strictly
    exceeds the secondary best accuracy; neither rule reads the other
    tracker.  In a run of three epochs (0, 1, 2) in which the score of epoch 1
    strictly exceeds zero and the score of epoch 0 and is not exceeded by the
    score of epoch 2, and the accuracy of epoch 2 strictly exceeds zero and
    the accuracies of epochs 0 and 1, the primary snapshot is that of epoch 1
    and the secondary snapshot that of epoch 2. *)
Theorem best_trackers_update_rule (args : Args) (env : Env) (fold : nat)
    (w : world) :
  (forall k, exists (st st' : fold_state) (w1 w2 : world) (evs : list event),
      foldM (epoch_body args env fold) (seq 0 k) fold_state_init w = (Ok st, w1)
      /\ epoch_body args env fold st k w1 = (Ok st', w2)
      /\ primary st' =
           (if PyFloat.gt (val_score (validate env fold k))
                          (best_score (primary st))
            then snapshot (validate env fold k) k else primary st)
      /\ secondary st' =
           (if PyFloat.gt (val_ac_score (validate env fold k))
                          (best_ac_score (secondary st))
            then snapshot (validate env fold k) k else secondary st)
      /\ trace w2 = trace w1 ++ evs
      /\ (In (EvWrite (Paths.adj_pkl (run_name args) (fold + 1))) evs
          <-> PyFloat.gt (val_score (validate env fold k))
                         (best_score (primary st)) = true)
      /\ disk w2 !! Paths.adj_pkl (run_name args) (fold + 1) =
           (if PyFloat.gt (val_score (validate env fold k))
                          (best_score (primary st))
            then Some (Pickle (adj (validate env fold k)))
            else disk w1 !! Paths.adj_pkl (run_name args) (fold + 1)))
  /\ (epochs args = 3%Z ->
      PyFloat.gt (val_score (validate env fold 1)) PyFloat.py_zero = true ->
      PyFloat.gt (val_score (validate env fold 1))
                 (val_score (validate env fold 0)) = true ->
      PyFloat.gt (val_score (validate env fold 2))
                 (val_score (validate env fold 1)) = false ->
      PyFloat.gt (val_ac_score (validate env fold 2)) PyFloat.py_zero = true ->
      PyFloat.gt (val_ac_score (validate env fold 2))
                 (val_ac_score (validate env fold 0)) = true ->
      PyFloat.gt (val_ac_score (validate env fold 2))
                 (val_ac_score (validate env fold 1)) = true ->
      exists (st : fold_state) (w' : world),
        run_epochs args env fold w = (Ok st, w')
        /\ primary st = snapshot (validate env fold 1) 1
        /\ secondary st = snapshot (validate env fold 2) 2).
Proof.
  split.
  - intros k.
    exists (state_after env fold k), (state_after env fold (S k)),
      (world_after args env fold k w),
      (epoch_world args env fold (world_after args env fold k w) k),
      (epoch_events args env fold k).
    split; [apply epochs_prefix|].
    split; [apply epoch_body_spec|].
    split; [apply primary_after_S|].
    split; [apply secondary_after_S|].
    split; [reflexivity|].
    split; [apply epoch_events_adj|].
    apply epoch_disk_adj.
  - intros H3 Hs1 Hs10 Hs21 Ha2 Ha20 Ha21.
    exists (state_after env fold 3), (world_after args env fold 3 w).
    split.
    { rewrite run_epochs_spec, H3. reflexivity. }
    unfold state_after, primary_after, secondary_after.
    cbn [primary secondary seq fold_left].
    unfold improve_primary, improve_secondary. cbn [tracker_init best_score best_ac_score].
    split.
    + destruct (PyFloat.gt (val_score (validate env fold 0)) PyFloat.py_zero);
        cbn [snapshot best_score tracker_init];
        rewrite ?Hs10, ?Hs1; cbn [snapshot best_score]; now rewrite Hs21.
    + destruct (PyFloat.gt (val_ac_score (validate env fold 0)) PyFloat.py_zero);
        cbn [snapshot best_ac_score tracker_init].
      * destruct (PyFloat.gt (val_ac_score (validate env fold 1))
                    (val_ac_score (validate env fold 0)));
          cbn [snapshot best_ac_score]; now rewrite ?Ha21, ?Ha20.
      * destruct (PyFloat.gt (val_ac_score (validate env fold 1))
                    PyFloat.py_zero);
          cbn [snapshot best_ac_score tracker_init]; now rewrite ?Ha21, ?Ha2.
Qed.

Lemma best_trackers_witness :
  exists (st : fold_state) (w' : world),
    run_epochs demo_args (demo_env rising_val) 0 empty_world = (Ok st, w')
    /\ best_epoch (primary st) = 1
    /\ best_epoch (secondary st) = 2.
Proof.
  destruct (proj2 (best_trackers_update_rule demo_args (demo_env rising_val)
                     0 empty_world))
    as (st & w' & Hrun & Hp & Hs);
    try (vm_compute; reflexivity).
  exists st, w'. split; [exact Hrun|].
  rewrite Hp, Hs. split; reflexivity.
Defined.

(** C6, as stated, fails: here epoch 1 has the highest validation score and
    epoch 2 the highest validation accuracy of a 3-epoch run, and the primary
    snapshot records epoch 0, not epoch 1, because no score exceeds the
    initial best score 0. *)
Lemma highest_score_epoch_not_recorded :
  PyFloat.gt (val_score (negative_val 0 1)) (val_score (negative_val 0 0)) = true
  /\ PyFloat.gt (val_score (negative_val 0 1)) (val_score (negative_val 0 2)) = true
  /\ PyFloat.gt (val_ac_score (negative_val 0 2))
                (val_ac_score (negative_val 0 0)) = true
  /\ PyFloat.gt (val_ac_score (negative_val 0 2))
                (val_ac_score (negative_val 0 1)) = true
  /\ epochs demo_args = 3%Z
  /\ exists (st : fold_state) (w' : world),
       run_epochs demo_args (demo_env negative_val) 0 empty_world = (Ok st, w')
       /\ best_epoch (primary st) = 0
       /\ best_epoch (primary st) <> 1
       /\ best_epoch (secondary st) = 2.
Proof.
  repeat (split; [vm_compute; reflexivity|]).
  eexists _, _. split; [apply run_epochs_spec|].
  repeat split; try (vm_compute; reflexivity).
  vm_compute. discriminate.
Qed.


(** ** Resume-skip (lines 383-390) *)

Module PandasFacts.
Import PyFloat PyFloatFacts Pandas.

Lemma float_values_map xs : float_values (map CFloat xs) = Ok xs.
Proof.
  induction xs as [|x xs IH]; simpl; [reflexivity|]. now rewrite IH.
Qed.

(** The scan of [argmin], started after a prefix [pre] that holds no NaN and
    whose least element [mp] stands at [best]. *)
Lemma argmin_from_least (a pre : list float) (mp : float) (best : nat) :
  pre !! best = Some mp ->
  (forall x, In x pre -> ge x mp = true) ->
  exists l, (pre ++ a) !! argmin_from mp best (length pre) a = Some l
            /\ (isnan l = true \/ forall x, In x (pre ++ a) -> ge x l = true).
Proof.
  revert pre mp best. induction a as [|x a IH]; intros pre mp best Hb Hle.
  - exists mp. rewrite app_nil_r. simpl. split; [exact Hb|]. right. exact Hle.
  - simpl. destruct (ge x mp) eqn:Hx.
    + destruct (IH (pre ++ [x]) mp best) as (l & Hl & Hmin).
      * now apply lookup_app_l_Some.
      * intros y Hy. apply in_app_iff in Hy as [Hy|[<-|[]]]; auto.
      * exists l. rewrite length_app, Nat.add_1_r in Hl.
        now rewrite <- app_assoc in Hl, Hmin.
    + destruct (isnan x) eqn:Hn.
      * exists x. split; [|now left].
        rewrite lookup_app_r by lia. now rewrite Nat.sub_diag.
      * destruct (IH (pre ++ [x]) x (length pre)) as (l & Hl & Hmin).
        -- rewrite lookup_app_r by lia. now rewrite Nat.sub_diag.
        -- intros y Hy. apply in_app_iff in Hy as [Hy|[<-|[]]].
           ++ apply (ge_step x mp y); auto.
           ++ now apply ge_refl.
        -- exists l. rewrite length_app, Nat.add_1_r in Hl.
           now rewrite <- app_assoc in Hl, Hmin.
Qed.

(** [argmin] of a non-empty array is the index of a NaN or of a least
    element. *)
Lemma argmin_least (a : list float) :
  a <> [] ->
  exists i l, argmin a = Ok i /\ a !! i = Some l
              /\ (isnan l = true \/ forall x, In x a -> ge x l = true).
Proof.
  destruct a as [|x a]; [congruence|]. intros _. simpl.
  destruct (isnan x) eqn:Hn.
  - exists 0, x. repeat split. now left.
  - destruct (argmin_from_least a [x] x 0) as (l & Hl & Hmin).
    + reflexivity.
    + intros y [<-|[]]. now apply ge_refl.
    + exists (argmin_from x 0 1 a), l. repeat split; assumption.
Qed.

Lemma item_lookup {A} (xs : list A) i x : xs !! i = Some x -> item xs i = Ok x.
Proof. unfold item. now intros ->. Qed.

End PandasFacts.

(** The best row of a log whose three validation columns are float columns
    of one length. *)
Lemma best_row_spec (f : frame) (losses scores accs : list float) :
  Pandas.column f "val_loss" = Ok (map CFloat losses) ->
  Pandas.column f "val_score" = Ok (map CFloat scores) ->
  Pandas.column f "val_ac_score" = Ok (map CFloat accs) ->
  losses <> [] ->
  length scores = length losses ->
  length accs = length losses ->
  exists i l sc ac,
    losses !! i = Some l /\ scores !! i = Some sc /\ accs !! i = Some ac
    /\ (PyFloat.isnan l = true
        \/ forall x, In x losses -> PyFloat.ge x l = true)
    /\ best_row f = Ok (l, sc, ac).
Proof.
  intros Hl Hs Ha Hne Hls Hla.
  destruct (PandasFacts.argmin_least losses Hne) as (i & l & Harg & Hi & Hmin).
  assert (i < length losses) as Hlt by (eapply lookup_lt_Some; eauto).
  destruct (lookup_lt_is_Some_2 scores i) as [sc Hsc]; [lia|].
  destruct (lookup_lt_is_Some_2 accs i) as [ac Hac]; [lia|].
  exists i, l, sc, ac. repeat (split; [assumption|]).
  unfold best_row. rewrite Hl, Hs, Ha, !PandasFacts.float_values_map, Harg.
  now rewrite (PandasFacts.item_lookup _ _ _ Hi),
    (PandasFacts.item_lookup _ _ _ Hsc), (PandasFacts.item_lookup _ _ _ Hac).
Qed.

(** C1.  When the fold's [model_<fold>.pth] exists at fold entry and the
    persisted log holds float columns [val_loss], [val_score] and
    [val_ac_score] with at least one row, none of whose [val_loss] is NaN,
    the fold body reads the log, takes a row [i] whose [val_loss] is least
    (every row of the log has a [val_loss] at least that of row [i]),
    appends that row's [val_loss], [val_score] and [val_ac_score] to the
    run's best values, and continues with the next fold: the disk is
    unchanged and the only events are the fold header, the existence check
    and the read of the log, so no data set, loader, model or optimizer is
    constructed. *)
Theorem resume_skip_emits_best_row (args : Args) (env : Env)
    (num_outputs : Z) (aptos : option dataset) (fold : nat)
    (sp : path_split * label_split) (s : summary) (w : world) (f : frame)
    (losses scores accs : list float)
    (Hmodel : is_Some (disk w !! Paths.model_pth (run_name args) (fold + 1)))
    (Hlog : disk w !! Paths.log_csv (run_name args) (fold + 1) = Some (Csv f))
    (Hloss : Pandas.column f "val_loss" = Ok (map CFloat losses))
    (Hscore : Pandas.column f "val_score" = Ok (map CFloat scores))
    (Hacc : Pandas.column f "val_ac_score" = Ok (map CFloat accs))
    (Hrows : losses <> [])
    (Hlen_s : length scores = length losses)
    (Hlen_a : length accs = length losses)
    (Hnan : Forall (fun x => PyFloat.isnan x = false) losses) :
  exists (i : nat) (l sc ac : float),
    losses !! i = Some l /\ scores !! i = Some sc /\ accs !! i = Some ac
    /\ (forall x, In x losses -> PyFloat.ge x l = true)
    /\ fold_body args env num_outputs aptos fold sp s w =
         (Ok ({| folds := folds s ++ [Paths.str (fold + 1)];
                 best_losses := best_losses s ++ [l];
                 best_scores := best_scores s ++ [sc];
                 best_ac_scores := best_ac_scores s ++ [ac];
                 best_f1_scores := best_f1_scores s;
                 best_epochs := best_epochs s;
                 best_losses_1 := best_losses_1 s;
                 best_scores_1 := best_scores_1 s;
                 best_ac_scores_1 := best_ac_scores_1 s;
                 best_f1_scores_1 := best_f1_scores_1 s;
                 best_epochs_1 := best_epochs_1 s |}, Next),
          World (disk w)
            (trace w ++ [EvFold (fold + 1);
                         EvExists (Paths.model_pth (run_name args) (fold + 1));
                         EvRead (Paths.log_csv (run_name args) (fold + 1))])).
Proof.
  destruct (best_row_spec f losses scores accs Hloss Hscore Hacc Hrows
              Hlen_s Hlen_a) as (i & l & sc & ac & Hi & Hsc & Hac & Hmin & Hrow).
  exists i, l, sc, ac. repeat (split; [assumption|]).
  split.
  { destruct Hmin as [Hn|Hmin]; [|exact Hmin].
    rewrite Forall_forall in Hnan.
    assert (PyFloat.isnan l = false) as Hl.
    { apply Hnan. eapply list_elem_of_lookup_2, Hi. }
    congruence. }
  unfold fold_body, bind, emit, path_exists. cbn [disk trace].
  rewrite bool_decide_eq_true_2 by exact Hmodel.
  unfold resume_skip, bind, read_csv. cbn [disk trace].
  rewrite Hlog, Hrow. cbn [lift ret]. unfold ret.
  now rewrite <- !app_assoc.
Qed.

(** C1, as stated, fails: the log of three epochs with [val_loss] 0.5, NaN,
    0.25 is the one the epoch loop writes when the validation loss of epoch
    1 is NaN.  On it the resume-skip emits the row of epoch 1, whose
    [val_loss] is NaN, and not the row of epoch 2, whose [val_loss] 0.25 is
    the least: [argmin] stops at the first NaN. *)
Theorem resume_skip_emits_nan_row :
  log_table (demo_env nan_val) 0 3 = nan_log
  /\ Pandas.column nan_log "val_loss"
     = Ok [CFloat 0.5; CFloat PrimFloat.nan; CFloat 0.25]
  /\ (exists w',
        fold_body demo_args (demo_env nan_val) 5 None 0 demo_fold summary_init
          (checkpoint_world (Some (Csv nan_log)))
        = (Ok ({| folds := ["1"];
                  best_losses := [PrimFloat.nan];
                  best_scores := [0.25%float];
                  best_ac_scores := [0.625%float];
                  best_f1_scores := []; best_epochs := [];
                  best_losses_1 := []; best_scores_1 := [];
                  best_ac_scores_1 := []; best_f1_scores_1 := [];
                  best_epochs_1 := [] |}, Next), w'))
  /\ PyFloat.ge 0.25 PrimFloat.nan = false
  /\ PyFloat.gt 0.5 0.25 = true.
Proof.
  split; [vm_compute; reflexivity|].
  split; [vm_compute; reflexivity|].
  split; [eexists; vm_compute; reflexivity|].
  split; vm_compute; reflexivity.
Qed.

(** ** Which files a computation writes *)

Section Confined.
Context (P : string -> Prop).

Lemma confined_ret {A} (a : A) : confined P (ret a).
Proof.
  intros w. exists []. simpl. rewrite app_nil_r. repeat split; tauto.
Qed.

Lemma confined_raise {A} (e : exn) : confined P (@raise A e).
Proof.
  intros w. exists []. simpl. rewrite app_nil_r. repeat split; tauto.
Qed.

Lemma confined_lift {A} (o : outcome A) : confined P (lift o).
Proof. destruct o; [apply confined_ret|apply confined_raise]. Qed.

Lemma confined_use {A} (var : string) (v : option A) : confined P (use var v).
Proof. destruct v; [apply confined_ret|apply confined_raise]. Qed.

Lemma confined_emit (e : event) : no_write e -> confined P (emit e).
Proof.
  intros He w. exists [e]. simpl. split; [reflexivity|]. split; [|tauto].
  intros p [->|[]]. destruct He.
Qed.

Lemma confined_path_exists (path : string) : confined P (path_exists path).
Proof.
  intros w. exists [EvExists path]. simpl. split; [reflexivity|].
  split; [|tauto]. intros p [H|[]]. discriminate H.
Qed.

Lemma confined_read_csv (path : string) : confined P (read_csv path).
Proof.
  intros w. exists [EvRead path]. unfold read_csv.
  destruct (disk w !! path) as [[]|]; simpl;
    (split; [reflexivity|]; split; [|tauto]; intros p [H|[]]; discriminate H).
Qed.

Lemma confined_torch_load (path : string) : confined P (torch_load path).
Proof.
  intros w. exists [EvRead path]. unfold torch_load.
  destruct (disk w !! path); simpl;
    (split; [reflexivity|]; split; [|tauto]; intros p [H|[]]; discriminate H).
Qed.

Lemma confined_write_file (path : string) (c : content) :
  P path -> confined P (write_file path c).
Proof.
  intros Hp w. exists [EvWrite path]. simpl. split; [reflexivity|]. split.
  - intros p [H|[]]. now injection H as <-.
  - intros p Hn. apply lookup_insert_ne. intros ->. contradiction.
Qed.

Lemma confined_bind {A B} (c : M A) (k : A -> M B) :
  confined P c -> (forall a, confined P (k a)) -> confined P (bind c k).
Proof.
  intros Hc Hk w. destruct (Hc w) as (evs & Ht & Hw & Hd).
  unfold bind. destruct (c w) as [[a|e] w1]; simpl in *.
  - destruct (Hk a w1) as (evs' & Ht' & Hw' & Hd').
    exists (evs ++ evs'). split; [now rewrite Ht', Ht, app_assoc|]. split.
    + intros p Hin. apply in_app_iff in Hin as [Hin|Hin]; auto.
    + intros p Hn. now rewrite Hd', Hd.
  - exists evs. auto.
Qed.

Lemma confined_foldM {A S} (body : S -> A -> M S) (xs : list A) (st : S) :
  (forall st x, confined P (body st x)) -> confined P (foldM body xs st).
Proof.
  intros Hb. revert st. induction xs as [|x xs IH]; intros st; simpl.
  - apply confined_ret.
  - apply confined_bind; [apply Hb|exact IH].
Qed.

Lemma confined_fold_loop body (fold : nat)
    (splits : list (path_split * label_split)) (s : summary) :
  (forall fold sp s, confined P (body fold sp s)) ->
  confined P (fold_loop body fold splits s).
Proof.
  intros Hb. revert fold s.
  induction splits as [|sp splits IH]; intros fold s; simpl.
  - apply confined_ret.
  - apply confined_bind; [apply Hb|]. intros [s' []]; simpl.
    + apply IH.
    + apply confined_ret.
Qed.

End Confined.

Lemma confined_weaken {A} (P Q : string -> Prop) (c : M A) :
  (forall p, P p -> Q p) -> confined P c -> confined Q c.
Proof.
  intros HPQ Hc w. destruct (Hc w) as (evs & Ht & Hw & Hd).
  exists evs. split; [exact Ht|]. split; [auto|].
  intros p Hn. apply Hd. intros Hp. apply Hn, HPQ, Hp.
Qed.

(** One step of a proof that a computation is confined. *)
Ltac confined_step :=
  match goal with
  | |- confined _ (bind _ _) => apply confined_bind; [|intros ?]
  | |- confined _ (ret _) => apply confined_ret
  | |- confined _ (raise _) => apply confined_raise
  | |- confined _ (lift _) => apply confined_lift
  | |- confined _ (use _ _) => apply confined_use
  | |- confined _ (emit _) => apply confined_emit; exact I
  | |- confined _ (path_exists _) => apply confined_path_exists
  | |- confined _ (read_csv _) => apply confined_read_csv
  | |- confined _ (torch_load _) => apply confined_torch_load
  | |- confined _ (foldM _ _ _) => apply confined_foldM; intros ? ?
  | |- confined _ (if ?b then _ else _) => destruct b
  | |- confined _ (match ?x with _ => _ end) => destruct x
  end.

Lemma confined_compose args env P : confined P (compose args env).
Proof.
  unfold compose, load_datasets, load_dataset, compose_folds,
    add_pseudo_labels, stratified.
  repeat confined_step.
Qed.

Lemma confined_run_epochs args env fold :
  confined (fold_files (run_name args) fold) (run_epochs args env fold).
Proof.
  unfold run_epochs, epoch_body, scheduler_step.
  repeat confined_step;
    apply confined_write_file; unfold fold_files; auto.
Qed.

Lemma confined_train_fold args env num_outputs aptos fold sp s :
  confined (fold_files (run_name args) fold)
    (train_fold args env num_outputs aptos fold sp s).
Proof.
  unfold train_fold.
  apply confined_bind.
  { unfold remove_duplicates. repeat confined_step. }
  intros sp'. apply confined_bind.
  { unfold make_loaders. destruct sp' as [[? ?] [? ?]]. repeat confined_step. }
  intros _. apply confined_bind.
  { unfold make_model. repeat confined_step. }
  intros _. apply confined_bind.
  { unfold make_optimizer. repeat confined_step. }
  intros opt. apply confined_bind.
  { unfold make_scheduler. repeat confined_step. }
  intros _. apply confined_bind; [apply confined_run_epochs|].
  intros st. apply confined_bind.
  { unfold write_results. repeat confined_step;
      apply confined_write_file; unfold fold_files; auto. }
  intros _. repeat confined_step.
Qed.

Lemma confined_fold_body args env num_outputs aptos fold sp s :
  confined (fold_files (run_name args) fold)
    (fold_body args env num_outputs aptos fold sp s).
Proof.
  unfold fold_body. apply confined_bind; [repeat confined_step|].
  intros _. apply confined_bind; [repeat confined_step|].
  intros [|].
  - unfold resume_skip. repeat confined_step.
  - apply confined_train_fold.
Qed.

Lemma confined_main args env :
  confined (run_files (run_name args)) (main args env).
Proof.
  unfold main. apply confined_bind.
  { unfold save_args. repeat confined_step;
      apply confined_write_file; unfold run_files; auto. }
  intros _. do 2 (apply confined_bind; [apply confined_lift|intros ?]).
  apply confined_bind; [apply confined_compose|].
  intros [aptos splits]. apply confined_bind; [apply confined_use|].
  intros sp. apply confined_fold_loop. intros fold sp' s.
  eapply confined_weaken; [|apply confined_fold_body].
  intros p Hp. left. now exists fold.
Qed.

Lemma model_not_fold_file nm fold k : ~ fold_files nm fold (Paths.model_pth nm k).
Proof.
  intros [H|[H|[H|H]]]; symmetry in H; revert H.
  - apply PathFacts.log_ne_model.
  - apply PathFacts.adj_ne_model.
  - apply PathFacts.results_ne_model.
  - apply PathFacts.results_1_ne_model.
Qed.

Lemma model_not_run_file nm k : ~ run_files nm (Paths.model_pth nm k).
Proof.
  intros [[fold H]|[H|H]].
  - now apply model_not_fold_file in H.
  - symmetry in H. now apply PathFacts.args_txt_ne_model in H.
  - symmetry in H. now apply PathFacts.args_pkl_ne_model in H.
Qed.

(** C9.  A fold that is trained writes only its log, its auxiliary adjacency
    pickle and the two summary tables, whether it completes or raises; it
    writes no [model_<k>.pth] of the run directory.  Over the whole of
    [main] no [model_<k>.pth] of the run directory is written either, so the
    checkpoint files that the resume-skip tests for are after the run exactly
    those that were there before it. *)
Theorem no_checkpoint_is_written (args : Args) (env : Env) :
  (forall (num_outputs : Z) (aptos : option dataset) (fold : nat)
          (sp : path_split * label_split) (s : summary) (w : world),
      exists evs,
        trace (snd (train_fold args env num_outputs aptos fold sp s w))
          = trace w ++ evs
        /\ (forall p, In (EvWrite p) evs ->
              p = Paths.log_csv (run_name args) (fold + 1)
              \/ p = Paths.adj_pkl (run_name args) (fold + 1)
              \/ p = Paths.results_csv (run_name args)
              \/ p = Paths.results_1_csv (run_name args))
        /\ (forall k, ~ In (EvWrite (Paths.model_pth (run_name args) k)) evs))
  /\ (forall (w : world),
      exists evs,
        trace (snd (main args env w)) = trace w ++ evs
        /\ (forall k, ~ In (EvWrite (Paths.model_pth (run_name args) k)) evs)
        /\ (forall k,
              disk (snd (main args env w)) !! Paths.model_pth (run_name args) k
              = disk w !! Paths.model_pth (run_name args) k)).
Proof.
  split.
  - intros num_outputs aptos fold sp s w.
    destruct (confined_train_fold args env num_outputs aptos fold sp s w)
      as (evs & Ht & Hw & _).
    exists evs. split; [exact Ht|]. split; [exact Hw|].
    intros k Hin. apply Hw in Hin. now apply model_not_fold_file in Hin.
  - intros w. destruct (confined_main args env w) as (evs & Ht & Hw & Hd).
    exists evs. split; [exact Ht|]. split.
    + intros k Hin. apply Hw in Hin. now apply model_not_run_file in Hin.
    + intros k. apply Hd, model_not_run_file.
Qed.

(** ** The fold loop, fold by fold *)

Lemma at_fold_loop body splits w i s0 w0 :
  at_fold body splits w i s0 w0 ->
  fold_loop body 0 splits summary_init w =
    fold_loop body i (drop i splits) s0 w0.
Proof.
  induction 1 as [|i sp s0 s1 w0 w1 _ IH Hsp Hbody].
  - reflexivity.
  - rewrite IH, (drop_S _ _ _ Hsp). simpl.
    now rewrite (bind_ok _ _ _ _ _ Hbody).
Qed.

Section Inversion.
Context {A B : Type}.

Lemma bind_inv (c : M A) (k : A -> M B) w b w2 :
  bind c k w = (Ok b, w2) ->
  exists a w1, c w = (Ok a, w1) /\ k a w1 = (Ok b, w2).
Proof.
  unfold bind. destruct (c w) as [[a|e] w1]; [|discriminate].
  intros H. now exists a, w1.
Qed.

Lemma lift_inv (o : outcome A) w a w' :
  lift o w = (Ok a, w') -> o = Ok a /\ w' = w.
Proof. destruct o; simpl; unfold ret, raise; intros H; now inversion H. Qed.

End Inversion.

Lemma extends_refl w : extends w w.
Proof. exists []. now rewrite app_nil_r. Qed.

Lemma extends_trans w1 w2 w3 : extends w1 w2 -> extends w2 w3 -> extends w1 w3.
Proof.
  intros [e1 H1] [e2 H2]. exists (e1 ++ e2). now rewrite H2, H1, app_assoc.
Qed.

Lemma confined_extends {A} P (c : M A) w o w' :
  confined P c -> c w = (o, w') -> extends w w'.
Proof.
  intros Hc Hw. destruct (Hc w) as (evs & Ht & _). rewrite Hw in Ht.
  now exists evs.
Qed.

Lemma write_results_inv args s w w' :
  write_results args s w = (Ok tt, w') ->
  exists r r1,
    results_frame s = Ok r /\ results_1_frame s = Ok r1
    /\ w' = World (<[Paths.results_1_csv (run_name args) := Csv r1]>
                     (<[Paths.results_csv (run_name args) := Csv r]> (disk w)))
                  (trace w ++ [EvWrite (Paths.results_csv (run_name args));
                               EvWrite (Paths.results_1_csv (run_name args))]).
Proof.
  unfold write_results. intros H.
  apply bind_inv in H as (r & w1 & Hr & H). apply lift_inv in Hr as [Hr ->].
  apply bind_inv in H as (r1 & w2 & Hr1 & H). apply lift_inv in Hr1 as [Hr1 ->].
  exists r, r1. repeat (split; [assumption|]).
  unfold bind, write_file in H. cbn [disk trace] in H.
  inversion H. now rewrite <- app_assoc.
Qed.

(** A trained fold is these stages, then the record of lines 564-598. *)
Lemma train_fold_stages args env num_outputs aptos fold sp s w :
  train_fold args env num_outputs aptos fold sp s w =
    bind (before_results args env num_outputs aptos fold sp)
         (fun st =>
            write_results args (summary_append s fold st);;
            emit EvEmptyCache;;
            ret (summary_append s fold st, if cv args then Next else Break)) w.
Proof.
  unfold train_fold, before_results. rewrite !bind_split.
  destruct (remove_duplicates args env aptos sp w) as [[sp'|e] w1];
    [|reflexivity].
  rewrite !bind_split.
  destruct (make_loaders args sp' w1) as [[[]|e] w2]; [|reflexivity].
  rewrite !bind_split.
  destruct (make_model args num_outputs fold w2) as [[[]|e] w3]; [|reflexivity].
  rewrite !bind_split.
  destruct (make_optimizer args w3) as [[opt|e] w4]; [|reflexivity].
  rewrite !bind_split.
  destruct (make_scheduler args opt w4) as [[[]|e] w5]; [|reflexivity].
  rewrite !bind_split.
  destruct (run_epochs args env fold w5) as [[st|e] w6]; reflexivity.
Qed.

(** The stages of a trained fold before the summary is recorded end with the
    epoch loop. *)
Lemma before_results_inv args env num_outputs aptos fold sp w st w' :
  before_results args env num_outputs aptos fold sp w = (Ok st, w') ->
  exists w0, run_epochs args env fold w0 = (Ok st, w').
Proof.
  unfold before_results. intros H.
  apply bind_inv in H as (sp' & w1 & _ & H).
  apply bind_inv in H as ([] & w2 & _ & H).
  apply bind_inv in H as ([] & w3 & _ & H).
  apply bind_inv in H as (opt & w4 & _ & H).
  apply bind_inv in H as ([] & w5 & _ & H).
  now exists w5.
Qed.

(** A trained fold that completes leaves the log of all its epochs. *)
Lemma train_fold_log args env num_outputs aptos fold sp s w r w1 :
  train_fold args env num_outputs aptos fold sp s w = (Ok r, w1) ->
  (0 < epochs args)%Z ->
  disk w1 !! Paths.log_csv (run_name args) (fold + 1)
  = Some (Csv (log_table env fold (Z.to_nat (epochs args)))).
Proof.
  intros H Hpos. rewrite train_fold_stages in H.
  apply bind_inv in H as (st & w6 & Hbefore & H).
  apply before_results_inv in Hbefore as [w0 Hloop].
  rewrite run_epochs_spec in Hloop. injection Hloop as _ <-.
  apply bind_inv in H as ([] & w7 & Hres & H).
  apply write_results_inv in Hres as (t & t1 & _ & _ & ->).
  unfold bind, emit, ret in H. cbn [disk trace] in H.
  injection H as _ <-. cbn [disk].
  rewrite lookup_insert_ne
    by (intros E; symmetry in E; revert E; apply PathFacts.log_ne_results_1).
  rewrite lookup_insert_ne
    by (intros E; symmetry in E; revert E; apply PathFacts.log_ne_results).
  destruct (Z.to_nat (epochs args)) as [|k] eqn:Hk; [lia|].
  rewrite world_after_S. apply epoch_disk_log.
Qed.

(** C8.  Let [e] be an epoch of the fold, [e < epochs].  In the epoch loop
    of the fold ([run_epochs], started in any world) the passes [0 .. e]
    complete, and the loop goes on from the state they leave with the
    passes [e+1 ..].  In that state the fold's log file holds a table with
    the nine columns [epoch, loss, score, ac_score, f1_score, val_loss,
    val_score, val_ac_score, val_f1_score], each of length [e+1], and for
    every [j <= e] its row [j] is the row of epoch [j]: the epoch index [j]
    followed by what [train] and [validate] returned in epoch [j].  So the
    rows are in epoch order and row [j] is the same after every later
    epoch; and when the trained fold ([train_fold]) has completed, the
    fold's log file holds the nine columns with one row for each of the
    [epochs] epochs, row [j] still being the row of epoch [j]. *)
Theorem log_after_each_epoch (args : Args) (env : Env) (fold e : nat)
    (w : world)
    (He : (Z.of_nat e < epochs args)%Z) :
  (exists (st : fold_state) (w' : world) (f : frame),
      foldM (epoch_body args env fold) (seq 0 (S e)) fold_state_init w
      = (Ok st, w')
      /\ run_epochs args env fold w
         = foldM (epoch_body args env fold)
             (seq (S e) (Z.to_nat (epochs args) - S e)) st w'
      /\ log st = f
      /\ disk w' !! Paths.log_csv (run_name args) (fold + 1) = Some (Csv f)
      /\ Pandas.header f = log_columns
      /\ Forall (fun c => length (snd c) = S e) f
      /\ forall j, j <= e ->
           frame_row f j =
             Some (epoch_row j (train env fold j) (validate env fold j)))
  /\ (forall (num_outputs : Z) (aptos : option dataset)
        (sp : path_split * label_split) (s : summary)
        (r : summary * flow) (w1 : world),
        train_fold args env num_outputs aptos fold sp s w = (Ok r, w1) ->
        exists (f1 : frame),
          disk w1 !! Paths.log_csv (run_name args) (fold + 1) = Some (Csv f1)
          /\ Pandas.header f1 = log_columns
          /\ Forall (fun c => length (snd c) = Z.to_nat (epochs args)) f1
          /\ forall j, (Z.of_nat j < epochs args)%Z ->
               frame_row f1 j =
                 Some (epoch_row j (train env fold j) (validate env fold j))).
Proof.
  split.
  - exists (state_after env fold (S e)), (world_after args env fold (S e) w),
      (log_table env fold (S e)).
    split; [apply epochs_prefix|].
    split.
    { rewrite (run_epochs_split args env fold e w He).
      apply bind_ok, epochs_prefix. }
    split; [reflexivity|].
    split.
    { rewrite world_after_S. apply epoch_disk_log. }
    split; [apply log_table_header|].
    split; [apply log_table_lengths|].
    intros j Hj. apply log_table_row. lia.
  - intros num_outputs aptos sp s r w1 Hrun.
    exists (log_table env fold (Z.to_nat (epochs args))).
    split; [eapply train_fold_log; [exact Hrun|lia]|].
    split; [apply log_table_header|].
    split; [apply log_table_lengths|].
    intros j Hj. apply log_table_row. lia.
Qed.

(** A trained fold that completes has run its epochs, appended both
    snapshots, written both tables and released the device cache. *)
Lemma train_fold_inv args env num_outputs aptos fold sp s w s1 fl w1 :
  train_fold args env num_outputs aptos fold sp s w = (Ok (s1, fl), w1) ->
  exists wa r r1,
    extends w wa
    /\ s1 = summary_append s fold
              (state_after env fold (Z.to_nat (epochs args)))
    /\ fl = (if cv args then Next else Break)
    /\ results_frame s1 = Ok r /\ results_1_frame s1 = Ok r1
    /\ w1 = World (<[Paths.results_1_csv (run_name args) := Csv r1]>
                     (<[Paths.results_csv (run_name args) := Csv r]> (disk wa)))
                  (trace wa ++ [EvWrite (Paths.results_csv (run_name args));
                                EvWrite (Paths.results_1_csv (run_name args));
                                EvEmptyCache]).
Proof.
  unfold train_fold. intros H.
  apply bind_inv in H as (sp' & wa & H1 & H).
  apply bind_inv in H as ([] & wb & H2 & H).
  apply bind_inv in H as ([] & wc & H3 & H).
  apply bind_inv in H as (opt & wd & H4 & H).
  apply bind_inv in H as ([] & we & H5 & H).
  apply bind_inv in H as (st & wf & H6 & H).
  apply bind_inv in H as ([] & wg & H7 & H).
  rewrite run_epochs_spec in H6. inversion H6; subst st wf; clear H6.
  apply write_results_inv in H7 as (r & r1 & Hr & Hr1 & ->).
  unfold bind, emit, ret in H. cbn [disk trace] in H. inversion H; subst.
  exists (world_after args env fold (Z.to_nat (epochs args)) we), r, r1.
  split.
  { assert (confined (fun _ => True)
              (remove_duplicates args env aptos sp)) as C1
      by (unfold remove_duplicates; repeat confined_step).
    assert (confined (fun _ => True) (make_loaders args sp')) as C2
      by (unfold make_loaders; destruct sp' as [[? ?] [? ?]];
          repeat confined_step).
    assert (confined (fun _ => True) (make_model args num_outputs fold)) as C3
      by (unfold make_model; repeat confined_step).
    assert (confined (fun _ => True) (make_optimizer args)) as C4
      by (unfold make_optimizer; repeat confined_step).
    assert (confined (fun _ => True) (make_scheduler args opt)) as C5
      by (unfold make_scheduler; repeat confined_step).
    eapply extends_trans; [eapply confined_extends; [exact C1|exact H1]|].
    eapply extends_trans; [eapply confined_extends; [exact C2|exact H2]|].
    eapply extends_trans; [eapply confined_extends; [exact C3|exact H3]|].
    eapply extends_trans; [eapply confined_extends; [exact C4|exact H4]|].
    eapply extends_trans; [eapply confined_extends; [exact C5|exact H5]|].
    exists (flat_map (epoch_events args env fold)
              (seq 0 (Z.to_nat (epochs args)))).
    apply world_after_trace. }
  repeat (split; [assumption || reflexivity|]).
  now rewrite <- app_assoc.
Qed.

Lemma DataFrame_inv cols r :
  Pandas.DataFrame cols = Ok r ->
  r = cols /\ Forall (fun c => length (snd c) = Pandas.nrows cols) cols.
Proof.
  unfold Pandas.DataFrame.
  destruct (forallb _ cols) eqn:H; [|discriminate].
  intros [= <-]. split; [reflexivity|].
  apply Forall_forall. intros c Hc. rewrite forallb_forall in H.
  apply Nat.eqb_eq, H, list_elem_of_In, Hc.
Qed.

Lemma with_mean_length xs : length (with_mean xs) = S (length xs).
Proof. unfold with_mean. rewrite length_map, length_app. simpl. lia. Qed.

Lemma with_blank_length ns : length (with_blank ns) = S (length ns).
Proof. unfold with_blank. rewrite length_app, length_map. simpl. lia. Qed.

(** When the primary table can be built, the six lists behind it have one
    length. *)
Lemma results_frame_inv s r :
  results_frame s = Ok r ->
  r = [("fold", map CStr (folds s ++ ["mean"]));
       ("best_loss", with_mean (best_losses s));
       ("best_score", with_mean (best_scores s));
       ("best_ac_score", with_mean (best_ac_scores s));
       ("best_f1_score", with_mean (best_f1_scores s));
       ("best_epoch", with_blank (best_epochs s))]
  /\ length (best_losses s) = length (folds s)
  /\ length (best_scores s) = length (folds s)
  /\ length (best_ac_scores s) = length (folds s)
  /\ length (best_f1_scores s) = length (folds s)
  /\ length (best_epochs s) = length (folds s).
Proof.
  unfold results_frame. intros H. apply DataFrame_inv in H as [-> H].
  split; [reflexivity|].
  repeat match goal with
         | H : Forall _ (_ :: _) |- _ => apply Forall_cons in H as [? H]
         end.
  cbn [snd Pandas.nrows] in *.
  rewrite ?with_mean_length, ?with_blank_length, ?length_map, ?length_app in *.
  cbn [length] in *. repeat split; lia.
Qed.

Lemma results_1_frame_inv s r :
  results_1_frame s = Ok r ->
  r = [("fold", map CStr (folds s ++ ["mean"]));
       ("best_loss_1", with_mean (best_losses_1 s));
       ("best_score_1", with_mean (best_scores_1 s));
       ("best_ac_score_1", with_mean (best_ac_scores_1 s));
       ("best_f1_score_1", with_mean (best_f1_scores_1 s));
       ("best_epoch", with_blank (best_epochs_1 s))]
  /\ length (best_losses_1 s) = length (folds s)
  /\ length (best_scores_1 s) = length (folds s)
  /\ length (best_ac_scores_1 s) = length (folds s)
  /\ length (best_f1_scores_1 s) = length (folds s)
  /\ length (best_epochs_1 s) = length (folds s).
Proof.
  unfold results_1_frame. intros H. apply DataFrame_inv in H as [-> H].
  split; [reflexivity|].
  repeat match goal with
         | H : Forall _ (_ :: _) |- _ => apply Forall_cons in H as [? H]
         end.
  cbn [snd Pandas.nrows] in *.
  rewrite ?with_mean_length, ?with_blank_length, ?length_map, ?length_app in *.
  cbn [length] in *. repeat split; lia.
Qed.

(** The two ways through the body of the fold loop. *)
Lemma fold_body_unfold args env num_outputs aptos fold sp s w :
  fold_body args env num_outputs aptos fold sp s w =
    let w' := World (disk w)
                (trace w ++ [EvFold (fold + 1);
                             EvExists (Paths.model_pth (run_name args)
                                         (fold + 1))]) in
    if bool_decide (is_Some (disk w !! Paths.model_pth (run_name args)
                                          (fold + 1)))
    then bind (resume_skip args fold s) (fun s' => ret (s', Next)) w'
    else train_fold args env num_outputs aptos fold sp s w'.
Proof.
  unfold fold_body, bind at 1 2, emit, path_exists. cbn [disk trace].
  rewrite <- app_assoc. cbn [app].
  now destruct (bool_decide _).
Qed.

Lemma resume_skip_inv args fold s w s' w' :
  resume_skip args fold s w = (Ok s', w') ->
  disk w' = disk w
  /\ trace w' = trace w ++ [EvRead (Paths.log_csv (run_name args) (fold + 1))]
  /\ folds s' = folds s ++ [Paths.str (fold + 1)].
Proof.
  unfold resume_skip. intros H.
  apply bind_inv in H as (f & w1 & Hf & H).
  apply bind_inv in H as ([[l sc] ac] & w2 & Hr & H).
  apply lift_inv in Hr as [_ ->].
  unfold ret in H. inversion H; subst. clear H.
  unfold read_csv in Hf.
  destruct (disk w !! _) as [[]|]; inversion Hf; subst; auto.
Qed.

(** Every fold that completes appends its number to [folds]. *)
Lemma fold_body_folds args env num_outputs aptos fold sp s w s1 fl w1 :
  fold_body args env num_outputs aptos fold sp s w = (Ok (s1, fl), w1) ->
  folds s1 = folds s ++ [Paths.str (fold + 1)].
Proof.
  rewrite fold_body_unfold. cbv zeta. destruct (bool_decide _).
  - intros H. apply bind_inv in H as (s' & w2 & Hs & H).
    unfold ret in H. inversion H; subst.
    now apply resume_skip_inv in Hs as (_ & _ & Hs).
  - intros H. apply train_fold_inv in H as (wa & r & r1 & _ & -> & _).
    reflexivity.
Qed.

Lemma at_fold_folds args env num_outputs aptos splits w i s0 w0 :
  at_fold (fold_body args env num_outputs aptos) splits w i s0 w0 ->
  folds s0 = map (fun k => Paths.str (k + 1)) (seq 0 i).
Proof.
  induction 1 as [|i sp s0 s1 w0 w1 _ IH Hsp Hbody].
  - reflexivity.
  - apply fold_body_folds in Hbody.
    now rewrite Hbody, IH, seq_S, map_app.
Qed.

(** ** The run summary (lines 564-598) *)

(** C4, as amended.  Let the fold loop have completed the folds before fold
    [i] (0-based) and let the body of fold [i] complete.  If the fold is
    trained (its checkpoint was absent), it ends by writing both summary
    tables; [results.csv] then holds the fold column [1 .. i+1] followed by
    [mean], and each of [best_loss], [best_score], [best_ac_score],
    [best_f1_score] holds [i+1] values followed by their mean, and likewise
    the [_1] columns of [results_1.csv].  If the fold is resume-skipped (its
    checkpoint was present), the disk is left as it was: no table is
    rewritten. *)
Theorem summary_tables_after_fold (args : Args) (env : Env)
    (num_outputs : Z) (aptos : option dataset)
    (splits : list (path_split * label_split)) (w : world) (i : nat)
    (sp : path_split * label_split) (s0 s1 : summary) (fl : flow)
    (w0 w1 : world)
    (Hat : at_fold (fold_body args env num_outputs aptos) splits w i s0 w0)
    (Hsp : splits !! i = Some sp)
    (Hdone : fold_body args env num_outputs aptos i sp s0 w0
             = (Ok (s1, fl), w1)) :
  (disk w0 !! Paths.model_pth (run_name args) (i + 1) = None ->
   exists (evs : list event) (r r1 : frame),
     trace w1 = trace w0 ++ evs
                ++ [EvWrite (Paths.results_csv (run_name args));
                    EvWrite (Paths.results_1_csv (run_name args));
                    EvEmptyCache]
     /\ disk w1 !! Paths.results_csv (run_name args) = Some (Csv r)
     /\ disk w1 !! Paths.results_1_csv (run_name args) = Some (Csv r1)
     /\ Pandas.column r "fold"
        = Ok (map CStr (map (fun k => Paths.str (k + 1)) (seq 0 (S i))
                        ++ ["mean"]))
     /\ mean_column r "best_loss" (best_losses s1) (S i)
     /\ mean_column r "best_score" (best_scores s1) (S i)
     /\ mean_column r "best_ac_score" (best_ac_scores s1) (S i)
     /\ mean_column r "best_f1_score" (best_f1_scores s1) (S i)
     /\ Pandas.column r1 "fold"
        = Ok (map CStr (map (fun k => Paths.str (k + 1)) (seq 0 (S i))
                        ++ ["mean"]))
     /\ mean_column r1 "best_loss_1" (best_losses_1 s1) (S i)
     /\ mean_column r1 "best_score_1" (best_scores_1 s1) (S i)
     /\ mean_column r1 "best_ac_score_1" (best_ac_scores_1 s1) (S i)
     /\ mean_column r1 "best_f1_score_1" (best_f1_scores_1 s1) (S i))
  /\ (is_Some (disk w0 !! Paths.model_pth (run_name args) (i + 1)) ->
      disk w1 = disk w0).
Proof.
  pose proof (at_fold_folds _ _ _ _ _ _ _ _ _ Hat) as Hfolds0.
  pose proof (fold_body_folds _ _ _ _ _ _ _ _ _ _ _ Hdone) as Hfolds1.
  assert (folds s1 = map (fun k => Paths.str (k + 1)) (seq 0 (S i))) as Hfolds.
  { now rewrite Hfolds1, Hfolds0, seq_S, map_app. }
  assert (length (folds s1) = S i) as Hlen.
  { now rewrite Hfolds, length_map, length_seq. }
  rewrite fold_body_unfold in Hdone. cbv zeta in Hdone. split.
  - intros Habs. rewrite bool_decide_eq_false_2 in Hdone
      by (rewrite Habs; apply is_Some_None).
    apply train_fold_inv in Hdone
      as (wa & r & r1 & [evs Hext] & Hs1 & _ & Hr & Hr1 & ->).
    apply results_frame_inv in Hr as (-> & L1 & L2 & L3 & L4 & _).
    apply results_1_frame_inv in Hr1 as (-> & M1 & M2 & M3 & M4 & _).
    eexists ([_; _] ++ evs), _, _. cbn [disk trace] in *.
    split; [rewrite Hext; cbn [trace]; now rewrite <- !app_assoc|].
    split.
    { rewrite lookup_insert_ne by (symmetry; apply PathFacts.results_ne_results_1).
      apply lookup_insert_eq. }
    split; [apply lookup_insert_eq|].
    unfold mean_column, with_mean. rewrite <- Hfolds.
    cbn [Pandas.column String.eqb Ascii.eqb Bool.eqb].
    repeat split; congruence.
  - intros Hex. rewrite bool_decide_eq_true_2 in Hdone by exact Hex.
    apply bind_inv in Hdone as (s' & w2 & Hs & H).
    unfold ret in H. inversion H; subst.
    now apply resume_skip_inv in Hs as (Hd & _).
Qed.

Lemma summary_tables_witness :
  exists (s0 s1 : summary) (fl : flow) (w0 w1 : world) (r : frame),
    at_fold (fold_body demo_args (demo_env rising_val) 5 None) demo_splits
      empty_world 1 s0 w0
    /\ fold_body demo_args (demo_env rising_val) 5 None 1
         ((["p/b.png"; "p/c.png"], ["p/a.png"]), ([1; 0], [0]))%Z s0 w0
       = (Ok (s1, fl), w1)
    /\ disk w1 !! Paths.results_csv "run" = Some (Csv r)
    /\ Pandas.column r "fold" = Ok [CStr "1"; CStr "2"; CStr "mean"].
Proof.
  pose (r0 := fold_body demo_args (demo_env rising_val) 5 None 0
                ((["p/a.png"; "p/b.png"], ["p/c.png"]), ([0; 1], [0]))%Z
                summary_init empty_world).
  pose (s0 := match fst r0 with
              | Ok (s, _) => s
              | Raise _ => summary_init
              end).
  pose (w0 := snd r0).
  pose (r1 := fold_body demo_args (demo_env rising_val) 5 None 1
                ((["p/b.png"; "p/c.png"], ["p/a.png"]), ([1; 0], [0]))%Z
                s0 w0).
  pose (s1 := match fst r1 with
              | Ok (s, _) => s
              | Raise _ => summary_init
              end).
  pose (w1 := snd r1).
  assert (r0 = (Ok (s0, Next), w0)) as H0 by (vm_compute; reflexivity).
  assert (r1 = (Ok (s1, Next), w1)) as H1 by (vm_compute; reflexivity).
  assert (at_fold (fold_body demo_args (demo_env rising_val) 5 None)
            demo_splits empty_world 1 s0 w0) as Hat.
  { eapply at_next; [apply at_first|reflexivity|exact H0]. }
  destruct (summary_tables_after_fold demo_args (demo_env rising_val) 5 None
              demo_splits empty_world 1 _ s0 s1 Next w0 w1 Hat eq_refl H1)
    as [Htrained _].
  destruct Htrained as (evs & r & r1' & _ & Hr & _ & Hfold & _).
  { vm_compute. reflexivity. }
  exists s0, s1, Next, w0, w1, r.
  split; [exact Hat|]. split; [exact H1|]. split; [exact Hr|]. exact Hfold.
Defined.

(** C4, as stated, fails: with both folds of the run resume-skipped, [main]
    completes both folds and neither summary table is on the disk. *)
Lemma resumed_folds_write_no_summary :
  exists (s : summary) (w' : world),
    main demo_args (demo_env rising_val) (resumed_world [1; 2]) = (Ok s, w')
    /\ folds s = ["1"; "2"]
    /\ In (EvFold 1) (trace w') /\ In (EvFold 2) (trace w')
    /\ disk w' !! Paths.results_csv (run_name demo_args) = None
    /\ disk w' !! Paths.results_1_csv (run_name demo_args) = None.
Proof.
  eexists _, _. split; [vm_compute; reflexivity|].
  split; [reflexivity|].
  split; [cbn; tauto|]. split; [cbn; tauto|].
  split; vm_compute; reflexivity.
Qed.

(** ** Single-fold mode (lines 640-641) *)

(** C2 fails on the code.  In single-fold mode ([cv = false]) with fold 1
    resume-skipped, the [continue] of line 390 passes the [break] of line
    641 by: fold 2 is entered and trained, and the run then stops with a
    [ValueError], because the skipped fold appended to three of the eleven
    summary lists only. *)
Theorem single_fold_mode_enters_fold_2_after_skip :
  cv (demo_args_of "aptos2019" false None) = false
  /\ exists (w' : world),
       main (demo_args_of "aptos2019" false None) (demo_env rising_val)
         (resumed_world [1]) = (Raise ValueError, w')
       /\ In (EvFold 1) (trace w')
       /\ In (EvFold 2) (trace w')
       /\ In (EvTrain 1 0) (trace w').
Proof.
  split; [reflexivity|].
  eexists. split; [vm_compute; reflexivity|].
  repeat split; cbn; tauto.
Qed.

(** X5.  In single-fold mode a first fold that is trained ends the loop: what the
    loop leaves is what the body of the first fold leaves. *)
Lemma single_fold_mode_stops_after_trained_fold args env num_outputs aptos
    sp splits s w :
  cv args = false ->
  disk w !! Paths.model_pth (run_name args) 1 = None ->
  snd (fold_loop (fold_body args env num_outputs aptos) 0 (sp :: splits) s w)
  = snd (fold_body args env num_outputs aptos 0 sp s w).
Proof.
  intros Hcv Habs. cbn [fold_loop]. unfold bind at 1.
  destruct (fold_body args env num_outputs aptos 0 sp s w)
    as [[[s1 fl]|e] w1] eqn:Hbody; [|reflexivity].
  rewrite fold_body_unfold in Hbody. cbv zeta in Hbody.
  rewrite bool_decide_eq_false_2 in Hbody
    by (cbn [Nat.add]; rewrite Habs; apply is_Some_None).
  apply train_fold_inv in Hbody as (_ & _ & _ & _ & _ & -> & _).
  rewrite Hcv. reflexivity.
Qed.

(** ** An unsupported dataset selection (lines 316-340) *)

(** C3 fails on the code.  For the selection ['messidor'] no branch of
    lines 316-338 binds [img_paths], and the final [else: raise
    NotImplementedError] is commented out: [main] preprocesses the messidor
    images and then stops at the head of the fold loop with an
    [UnboundLocalError] for [img_paths], not with the [NotImplementedError]
    that an unsupported loss or prediction kind raises.  No fold is
    entered. *)
Theorem unsupported_selection_is_unbound_variable :
  String.eqb (train_dataset (demo_args_of "messidor" true None)) "aptos2019"
    = false
  /\ String.eqb (train_dataset (demo_args_of "messidor" true None))
       "diabetic_retinopathy" = false
  /\ contains "diabetic_retinopathy"
       (train_dataset (demo_args_of "messidor" true None))
     && contains "aptos2019"
          (train_dataset (demo_args_of "messidor" true None)) = false
  /\ exists (w' : world),
       main (demo_args_of "messidor" true None) (demo_env rising_val)
         empty_world = (Raise (UnboundLocalError "img_paths"), w')
       /\ In (EvPreprocess "messidor") (trace w')
       /\ forall k, ~ In (EvFold k) (trace w').
Proof.
  repeat (split; [reflexivity|]).
  eexists. split; [vm_compute; reflexivity|].
  split; [cbn; tauto|].
  intros k. cbn. intuition discriminate.
Qed.

(** ** Pseudo-labels (lines 342-355) *)

Lemma lookup_map {A B} (f : A -> B) (l : list A) (k : nat) :
  map f l !! k = option_map f (l !! k).
Proof.
  revert k. induction l as [|x l IH]; intros [|k]; simpl; auto.
Qed.

(** C7.  When pseudo-labelling is requested and the folds are bound, the
    composer stacks the pseudo-labelled test samples (the paths built from
    the prediction table, and its predicted classes as labels) after the
    train part of every fold, and leaves the validation part of every fold,
    paths and labels, exactly as it was; the disk is not touched. *)
Theorem pseudo_labels_extend_train_only (args : Args) (env : Env)
    (img_paths : list path_split) (labels : list label_split) (w : world)
    (Hreq : truthy (pseudo_labels args) = true) :
  exists (img_paths' : list path_split) (labels' : list label_split)
         (test_img_paths : list string) (test_labels : list Z) (w' : world),
    add_pseudo_labels args env (Some (img_paths, labels)) w
      = (Ok (Some (img_paths', labels')), w')
    /\ test_img_paths =
         table_img_paths (preprocess env "test")
           (probs_csv env (default "" (pseudo_labels args))) ".png"
    /\ test_labels = map snd (probs_csv env (default "" (pseudo_labels args)))
    /\ length img_paths' = length img_paths
    /\ length labels' = length labels
    /\ (forall k tr va, img_paths !! k = Some (tr, va) ->
          img_paths' !! k = Some (tr ++ test_img_paths, va))
    /\ (forall k tr va, labels !! k = Some (tr, va) ->
          labels' !! k = Some (tr ++ test_labels, va))
    /\ map snd img_paths' = map snd img_paths
    /\ map snd labels' = map snd labels
    /\ disk w' = disk w.
Proof.
  unfold add_pseudo_labels. rewrite Hreq.
  eexists _, _, _, _, _. split; [reflexivity|].
  split; [reflexivity|]. split; [reflexivity|].
  split; [apply length_map|]. split; [apply length_map|].
  cbn [fst snd]. unfold path_split, label_split in *. split.
  { intros k tr va Hk. rewrite lookup_map, Hk. reflexivity. }
  split.
  { intros k tr va Hk. rewrite lookup_map, Hk. reflexivity. }
  split; [|split]; [| |reflexivity].
  - rewrite map_map. reflexivity.
  - rewrite map_map. reflexivity.
Qed.

Lemma pseudo_labels_witness :
  truthy (pseudo_labels (demo_args_of "aptos2019" true (Some "probs"))) = true
  /\ exists w',
       add_pseudo_labels (demo_args_of "aptos2019" true (Some "probs"))
         (demo_env rising_val)
         (Some ([(["p/a.png"], ["p/b.png"])], [([0%Z], [1%Z])])) empty_world
       = (Ok (Some ([(["p/a.png"; "processed/test/t.png"], ["p/b.png"])],
                    [([0%Z; 4%Z], [1%Z])])), w').
Proof.
  split; [reflexivity|].
  destruct (pseudo_labels_extend_train_only
              (demo_args_of "aptos2019" true (Some "probs"))
              (demo_env rising_val)
              [(["p/a.png"], ["p/b.png"])] [([0%Z], [1%Z])] empty_world
              eq_refl)
    as (ip & lb & tp & tl & w' & Hrun & _).
  exists w'. revert Hrun. vm_compute. intros [= <- <- <-]. reflexivity.
Defined.

(** ** The mixing rule (lines 332-338) *)

Module StringFacts.





End StringFacts.

Lemma take_ok {A} (a : list A) (idx : list nat) :
  Forall (fun i => i < length a) idx ->
  exists xs, Pandas.take a idx = Ok xs
             /\ length xs = length idx
             /\ forall x, In x xs -> In x a.
Proof.
  induction 1 as [|i idx Hi _ IH]; simpl.
  - exists []. repeat split. intros x [].
  - destruct IH as (xs & -> & Hlen & Hin).
    destruct (lookup_lt_is_Some_2 a i Hi) as [x Hx].
    unfold Pandas.item. rewrite Hx. exists (x :: xs).
    split; [reflexivity|]. split; [simpl; lia|].
    intros y [<-|Hy]; [|now apply Hin].
    apply list_elem_of_In. eapply list_elem_of_lookup_2, Hx.
Qed.

Lemma split_folds_ok {A} (primary extra : list A) idx :
  valid_indices (length primary) idx ->
  exists res, split_folds primary extra idx = Ok res
              /\ Forall2 (mixed_fold primary extra) idx res.
Proof.
  induction 1 as [|[tr_idx va_idx] idx [Htr Hva] _ IH]; simpl.
  - exists []. split; [reflexivity|constructor].
  - destruct IH as (res & -> & Hres).
    destruct (take_ok primary tr_idx Htr) as (tr & Et & Lt & _).
    destruct (take_ok primary va_idx Hva) as (va & Ev & Lv & Iv).
    simpl in Htr, Hva. rewrite Et, Ev.
    exists ((tr ++ extra, va) :: res). split; [reflexivity|].
    constructor; [|exact Hres].
    exists tr, va. cbn [fst snd]. rewrite length_app.
    repeat split; auto; lia.
Qed.

Lemma stratified_ok args env (primary : dataset) extra_paths extra_labels w :
  length (ds_labels primary) = length (ds_img_paths primary) ->
  valid_indices (length (ds_img_paths primary))
    (skf_split env (n_splits args) (ds_img_paths primary) (ds_labels primary)) ->
  exists img_paths labels,
    stratified args env primary extra_paths extra_labels w
      = (Ok (img_paths, labels), w)
    /\ Forall2 (mixed_fold (ds_img_paths primary) extra_paths)
         (skf_split env (n_splits args) (ds_img_paths primary)
            (ds_labels primary)) img_paths
    /\ Forall2 (mixed_fold (ds_labels primary) extra_labels)
         (skf_split env (n_splits args) (ds_img_paths primary)
            (ds_labels primary)) labels.
Proof.
  intros Hlen Hidx. unfold stratified.
  destruct (split_folds_ok (ds_img_paths primary) extra_paths _ Hidx)
    as (ip & Eip & Hip).
  rewrite <- Hlen in Hidx.
  destruct (split_folds_ok (ds_labels primary) extra_labels _ Hidx)
    as (lb & Elb & Hlb).
  exists ip, lb. unfold bind. rewrite Eip, Elb. cbn [lift ret].
  repeat split; assumption.
Qed.


(** Lines 342-364 after the folds are bound. *)
Lemma map_stack_nil {A} (rs : list (list A * list A)) :
  map (fun r => (fst r ++ [], snd r)) rs = rs.
Proof.
  induction rs as [|[tr va] rs IH]; [reflexivity|].
  cbn [map fst snd]. now rewrite app_nil_r, IH.
Qed.

Lemma compose_after_folds args env w ip lb w1 :
  bind (load_datasets args env)
       (fun d => compose_folds args env (fst d) (snd d)) w
  = (Ok (Some (ip, lb)), w1) ->
  exists aptos,
    compose args env w
    = (Ok (aptos,
           Some (map (fun p => (fst p ++ test_img_paths args env, snd p)) ip,
                 map (fun l => (fst l ++ test_labels args env, snd l)) lb)),
       World (disk w1)
         (trace w1 ++ test_events args ++ messidor_events args)).
Proof.
  unfold compose. rewrite !bind_split.
  destruct (load_datasets args env w) as [[[dr aptos]|e] w0]; [|discriminate].
  cbn [fst snd]. intros H. exists aptos. rewrite bind_split, H.
  unfold add_pseudo_labels, test_img_paths, test_labels, test_events,
    messidor_events.
  destruct (truthy (pseudo_labels args));
    destruct (contains "messidor" (train_dataset args));
    cbv [bind emit ret use]; cbn [disk trace fst snd app];
    rewrite ?map_stack_nil, <- ?app_assoc, ?app_nil_r;
    try reflexivity; now destruct w1.
Qed.

Lemma mixed_fold_stack {A} (primary secondary extra : list A) idx rs :
  Forall2 (mixed_fold primary secondary) idx rs ->
  Forall2 (mixed_fold primary (secondary ++ extra)) idx
    (map (fun r => (fst r ++ extra, snd r)) rs).
Proof.
  induction 1 as [|p r idx rs Hr _ IH]; cbn [map]; constructor; [|exact IH].
  destruct Hr as (tr & va & Ht & Hv & -> & Hl1 & Hl2 & Hin).
  cbn [fst snd] in *. exists tr, va.
  repeat split; try assumption.
  - now rewrite app_assoc.
  - cbn [fst]. rewrite !length_app in *. lia.
Qed.





(** The passes of the epoch loop up to an epoch, and the log at the end of
    the fold, on a run of three epochs. *)
Lemma log_after_each_epoch_witness :
  (Z.of_nat 1 < epochs demo_args)%Z
  /\ exists (st : fold_state) (w' : world) (f : frame),
       foldM (epoch_body demo_args (demo_env rising_val) 0) (seq 0 2)
         fold_state_init empty_world = (Ok st, w')
       /\ run_epochs demo_args (demo_env rising_val) 0 empty_world
          = foldM (epoch_body demo_args (demo_env rising_val) 0) [2] st w'
       /\ disk w' !! Paths.log_csv (run_name demo_args) (0 + 1)
          = Some (Csv f)
       /\ Forall (fun c => length (snd c) = 2) f.
Proof.
  assert (Z.of_nat 1 < epochs demo_args)%Z as He by (cbn; lia).
  split; [exact He|].
  destruct (proj1 (log_after_each_epoch demo_args (demo_env rising_val) 0 1
                     empty_world He))
    as (st & w' & f & Hpre & Hrest & _ & Hdisk & _ & Hlen & _).
  exists st, w', f. repeat split; assumption.
Defined.

Lemma resume_skip_witness :
  is_Some (disk (resumed_world [1])
             !! Paths.model_pth (run_name demo_args) (0 + 1))
  /\ exists (w' : world),
       fold_body demo_args (demo_env rising_val) 5 None 0
         ((["p/a.png"], ["p/b.png"]), ([0%Z], [1%Z])) summary_init
         (resumed_world [1])
       = (Ok ({| folds := ["1"];
                 best_losses := [0.25%float];
                 best_scores := [0.5%float];
                 best_ac_scores := [0.75%float];
                 best_f1_scores := []; best_epochs := [];
                 best_losses_1 := []; best_scores_1 := [];
                 best_ac_scores_1 := []; best_f1_scores_1 := [];
                 best_epochs_1 := [] |}, Next), w')
       /\ disk w' = disk (resumed_world [1]).
Proof.
  assert (is_Some (disk (resumed_world [1])
                     !! Paths.model_pth (run_name demo_args) (0 + 1))) as Hm.
  { exists Blob. vm_compute. reflexivity. }
  split; [exact Hm|].
  destruct (resume_skip_emits_best_row demo_args (demo_env rising_val) 5 None
              0 ((["p/a.png"], ["p/b.png"]), ([0%Z], [1%Z])) summary_init
              (resumed_world [1]) (log_table (demo_env rising_val) 0 3)
              [0.75; 0.5; 0.25]%float [0.25; 0.75; 0.5]%float
              [0.25; 0.5; 0.75]%float Hm)
    as (i & l & sc & ac & Hl & Hs & Ha & _ & Hrun);
    try (vm_compute; reflexivity); try discriminate.
  { repeat constructor. }
  exists (World (disk (resumed_world [1]))
            (trace (resumed_world [1])
             ++ [EvFold (0 + 1);
                 EvExists (Paths.model_pth (run_name demo_args) (0 + 1));
                 EvRead (Paths.log_csv (run_name demo_args) (0 + 1))])).
  split; [|reflexivity].
  rewrite Hrun. pose proof Hrun as Hval. vm_compute in Hval.
  injection Hval as <- <- <-. reflexivity.
Defined.

(** * Further properties of the code *)

(** ** Resume-skip: what goes wrong is raised (lines 383-390) *)

Lemma column_missing (f : frame) (key : string) :
  ~ In key (Pandas.header f) -> Pandas.column f key = Raise (KeyError key).
Proof.
  induction f as [|[k c] f IH]; simpl; intros H; [reflexivity|].
  destruct (String.eqb_spec k key) as [->|Hne].
  - exfalso. apply H. now left.
  - apply IH. intros Hin. apply H. now right.
Qed.

Lemma resume_world args fold w :
  World (disk w)
    ((trace w ++ [EvFold (fold + 1);
                  EvExists (Paths.model_pth (run_name args) (fold + 1))])
     ++ [EvRead (Paths.log_csv (run_name args) (fold + 1))])
  = World (disk w)
      (trace w ++ [EvFold (fold + 1);
                   EvExists (Paths.model_pth (run_name args) (fold + 1));
                   EvRead (Paths.log_csv (run_name args) (fold + 1))]).
Proof. now rewrite <- app_assoc. Qed.

(** X1.  A checkpoint without its log: the fold raises [FileNotFoundError] for the
    log; the disk and the summary lists are as they were. *)
Theorem resume_without_log_raises (args : Args) (env : Env)
    (num_outputs : Z) (aptos : option dataset) (fold : nat)
    (sp : path_split * label_split) (s : summary) (w : world)
    (Hmodel : is_Some (disk w !! Paths.model_pth (run_name args) (fold + 1)))
    (Hlog : disk w !! Paths.log_csv (run_name args) (fold + 1) = None) :
  fold_body args env num_outputs aptos fold sp s w
  = (Raise (FileNotFoundError (Paths.log_csv (run_name args) (fold + 1))),
     World (disk w)
       (trace w ++ [EvFold (fold + 1);
                    EvExists (Paths.model_pth (run_name args) (fold + 1));
                    EvRead (Paths.log_csv (run_name args) (fold + 1))])).
Proof.
  rewrite fold_body_unfold. cbv zeta.
  rewrite bool_decide_eq_true_2 by exact Hmodel.
  unfold resume_skip, bind, read_csv. cbn [disk trace]. rewrite Hlog.
  apply f_equal, resume_world.
Qed.

(** X2.  A checkpoint whose log has no row: [argmin] of the empty [val_loss]
    column raises [ValueError]. *)
Theorem resume_with_empty_log_raises (args : Args) (env : Env)
    (num_outputs : Z) (aptos : option dataset) (fold : nat)
    (sp : path_split * label_split) (s : summary) (w : world) (f : frame)
    (Hmodel : is_Some (disk w !! Paths.model_pth (run_name args) (fold + 1)))
    (Hlog : disk w !! Paths.log_csv (run_name args) (fold + 1) = Some (Csv f))
    (Hloss : Pandas.column f "val_loss" = Ok []) :
  fold_body args env num_outputs aptos fold sp s w
  = (Raise ValueError,
     World (disk w)
       (trace w ++ [EvFold (fold + 1);
                    EvExists (Paths.model_pth (run_name args) (fold + 1));
                    EvRead (Paths.log_csv (run_name args) (fold + 1))])).
Proof.
  rewrite fold_body_unfold. cbv zeta.
  rewrite bool_decide_eq_true_2 by exact Hmodel.
  unfold resume_skip, bind, read_csv. cbn [disk trace]. rewrite Hlog.
  unfold best_row. rewrite Hloss. cbn [Pandas.float_values Pandas.argmin lift].
  unfold raise. apply f_equal, resume_world.
Qed.

(** X3.  A checkpoint whose log lacks the [val_loss] column: [KeyError]. *)
Theorem resume_with_missing_column_raises (args : Args) (env : Env)
    (num_outputs : Z) (aptos : option dataset) (fold : nat)
    (sp : path_split * label_split) (s : summary) (w : world) (f : frame)
    (Hmodel : is_Some (disk w !! Paths.model_pth (run_name args) (fold + 1)))
    (Hlog : disk w !! Paths.log_csv (run_name args) (fold + 1) = Some (Csv f))
    (Hcol : ~ In "val_loss" (Pandas.header f)) :
  fold_body args env num_outputs aptos fold sp s w
  = (Raise (KeyError "val_loss"),
     World (disk w)
       (trace w ++ [EvFold (fold + 1);
                    EvExists (Paths.model_pth (run_name args) (fold + 1));
                    EvRead (Paths.log_csv (run_name args) (fold + 1))])).
Proof.
  rewrite fold_body_unfold. cbv zeta.
  rewrite bool_decide_eq_true_2 by exact Hmodel.
  unfold resume_skip, bind, read_csv. cbn [disk trace]. rewrite Hlog.
  unfold best_row. rewrite (column_missing f "val_loss" Hcol). cbn [lift].
  unfold raise. apply f_equal, resume_world.
Qed.

(** ** A resume-skipped fold and the folds after it (lines 383-390, 564-598) *)

Lemma confined_frame {A} P (c : M A) w o w' p :
  confined P c -> c w = (o, w') -> ~ P p -> disk w' !! p = disk w !! p.
Proof.
  intros Hc Hw Hp. destruct (Hc w) as (evs & _ & _ & Hd).
  rewrite Hw in Hd. now apply Hd.
Qed.

(** The stages of a trained fold before the summary is recorded write the
    fold's log and auxiliary artifact only. *)
Lemma confined_run_epochs_own args env fold :
  confined (epoch_files (run_name args) fold) (run_epochs args env fold).
Proof.
  unfold run_epochs, epoch_body, scheduler_step.
  repeat confined_step;
    apply confined_write_file; unfold epoch_files; auto.
Qed.

Lemma confined_before_results args env num_outputs aptos fold sp :
  confined (epoch_files (run_name args) fold)
    (before_results args env num_outputs aptos fold sp).
Proof.
  unfold before_results.
  apply confined_bind.
  { unfold remove_duplicates. repeat confined_step. }
  intros sp'. apply confined_bind.
  { unfold make_loaders. destruct sp' as [[? ?] [? ?]]. repeat confined_step. }
  intros _. apply confined_bind.
  { unfold make_model. repeat confined_step. }
  intros _. apply confined_bind.
  { unfold make_optimizer. repeat confined_step. }
  intros opt. apply confined_bind.
  { unfold make_scheduler. repeat confined_step. }
  intros _. apply confined_run_epochs_own.
Qed.

(** When the record of a trained fold raises, it has written nothing. *)
Lemma write_results_raise args s w e w' :
  write_results args s w = (Raise e, w') -> w' = w.
Proof.
  unfold write_results, bind, lift, ret, raise, write_file.
  destruct (results_frame s) as [r|e1]; [|intros H; now inversion H].
  destruct (results_1_frame s) as [r1|e2]; intros H; now inversion H.
Qed.

(** A trained fold that raises leaves both summary tables as they were. *)
Lemma train_fold_raise_keeps_tables args env num_outputs aptos fold sp s w e w' :
  train_fold args env num_outputs aptos fold sp s w = (Raise e, w') ->
  disk w' !! Paths.results_csv (run_name args)
    = disk w !! Paths.results_csv (run_name args)
  /\ disk w' !! Paths.results_1_csv (run_name args)
     = disk w !! Paths.results_1_csv (run_name args).
Proof.
  rewrite train_fold_stages, bind_split.
  destruct (before_results args env num_outputs aptos fold sp w)
    as [[st|e0] w1] eqn:Hpre.
  - rewrite bind_split.
    destruct (write_results args (summary_append s fold st) w1)
      as [[[]|e1] w2] eqn:Hwr.
    + unfold bind, emit, ret. intros H. inversion H.
    + intros H. inversion H; subst.
      apply write_results_raise in Hwr as ->.
      split; eapply confined_frame;
        try apply confined_before_results; try exact Hpre;
        unfold epoch_files; intros [H1|H1]; symmetry in H1; revert H1.
      * apply PathFacts.log_ne_results.
      * apply PathFacts.adj_ne_results.
      * apply PathFacts.log_ne_results_1.
      * apply PathFacts.adj_ne_results_1.
  - intros H. inversion H; subst.
    split; eapply confined_frame;
      try apply confined_before_results; try exact Hpre;
      unfold epoch_files; intros [H1|H1]; symmetry in H1; revert H1.
    + apply PathFacts.log_ne_results.
    + apply PathFacts.adj_ne_results.
    + apply PathFacts.log_ne_results_1.
    + apply PathFacts.adj_ne_results_1.
Qed.

(** A trained fold completes only from summary lists of one length. *)
Lemma train_fold_needs_aligned args env num_outputs aptos fold sp s w s1 fl w1 :
  train_fold args env num_outputs aptos fold sp s w = (Ok (s1, fl), w1) ->
  length (best_f1_scores s) = length (folds s).
Proof.
  intros H. apply train_fold_inv in H as (wa & r & r1 & _ & -> & _ & Hr & _).
  apply results_frame_inv in Hr as (_ & _ & _ & _ & Hf1 & _).
  cbn [summary_append best_f1_scores folds] in Hf1.
  rewrite !length_app in Hf1. simpl in Hf1. lia.
Qed.

Lemma resume_skip_f1 args fold s w s' w' :
  resume_skip args fold s w = (Ok s', w') ->
  best_f1_scores s' = best_f1_scores s.
Proof.
  unfold resume_skip. intros H.
  apply bind_inv in H as (f & w1 & _ & H).
  apply bind_inv in H as ([[l sc] ac] & w2 & _ & H).
  unfold ret in H. now inversion H.
Qed.

(** No fold changes which checkpoints exist. *)
Lemma at_fold_models args env num_outputs aptos splits w i s0 w0 k :
  at_fold (fold_body args env num_outputs aptos) splits w i s0 w0 ->
  disk w0 !! Paths.model_pth (run_name args) k
  = disk w !! Paths.model_pth (run_name args) k.
Proof.
  induction 1 as [|i sp s0 s1 w0 w1 _ IH Hsp Hbody]; [reflexivity|].
  rewrite <- IH.
  eapply confined_frame;
    [apply confined_fold_body|exact Hbody|apply model_not_fold_file].
Qed.

(** [best_f1_scores] never runs ahead of [folds], and falls behind for good
    at the first resume-skipped fold. *)
Lemma at_fold_lag args env num_outputs aptos splits w i s0 w0 :
  at_fold (fold_body args env num_outputs aptos) splits w i s0 w0 ->
  length (best_f1_scores s0) <= length (folds s0)
  /\ forall j, j < i ->
       is_Some (disk w !! Paths.model_pth (run_name args) (j + 1)) ->
       length (best_f1_scores s0) < length (folds s0).
Proof.
  induction 1 as [|i sp s0 s1 w0 w1 Hat [IH1 IH2] Hsp Hbody].
  - split; [reflexivity|]. intros j Hj. lia.
  - pose proof (fold_body_folds _ _ _ _ _ _ _ _ _ _ _ Hbody) as Hfolds.
    pose proof (at_fold_models _ _ _ _ _ _ _ _ _ (i + 1) Hat) as Hm.
    rewrite fold_body_unfold in Hbody. cbv zeta in Hbody.
    destruct (bool_decide _) eqn:Hdec.
    + apply bind_inv in Hbody as (s' & w2 & Hs & H).
      unfold ret in H. inversion H; subst s'.
      apply resume_skip_f1 in Hs. rewrite Hs, Hfolds, length_app. simpl.
      split; [lia|]. intros j _ _. lia.
    + apply bool_decide_eq_false in Hdec.
      pose proof (train_fold_needs_aligned _ _ _ _ _ _ _ _ _ _ _ Hbody) as Hal.
      apply train_fold_inv in Hbody as (wa & r & r1 & _ & -> & _).
      cbn [summary_append best_f1_scores folds]. rewrite !length_app. simpl.
      split; [lia|]. intros j Hj Hex.
      destruct (Nat.eq_dec j i) as [->|Hne].
      * exfalso. apply Hdec. now rewrite Hm.
      * assert (length (best_f1_scores s0) < length (folds s0))
          by (apply (IH2 j); [lia|exact Hex]). lia.
Qed.

(** X4.  Once a fold of the run has been resume-skipped, no later fold that is
    trained completes: it raises, and leaves both summary tables as they
    were at its entry. *)
Theorem trained_fold_after_skip_raises (args : Args) (env : Env)
    (num_outputs : Z) (aptos : option dataset)
    (splits : list (path_split * label_split)) (w : world) (i j : nat)
    (sp : path_split * label_split) (s0 : summary) (w0 : world)
    (Hat : at_fold (fold_body args env num_outputs aptos) splits w i s0 w0)
    (Hj : j < i)
    (Hskip : is_Some (disk w !! Paths.model_pth (run_name args) (j + 1)))
    (Htrain : disk w !! Paths.model_pth (run_name args) (i + 1) = None) :
  exists (e : exn) (w1 : world),
    fold_body args env num_outputs aptos i sp s0 w0 = (Raise e, w1)
    /\ disk w1 !! Paths.results_csv (run_name args)
       = disk w0 !! Paths.results_csv (run_name args)
    /\ disk w1 !! Paths.results_1_csv (run_name args)
       = disk w0 !! Paths.results_1_csv (run_name args).
Proof.
  destruct (at_fold_lag _ _ _ _ _ _ _ _ _ Hat) as [_ Hlag].
  specialize (Hlag j Hj Hskip).
  pose proof (at_fold_models _ _ _ _ _ _ _ _ _ (i + 1) Hat) as Hm.
  rewrite fold_body_unfold. cbv zeta.
  rewrite bool_decide_eq_false_2
    by (rewrite Hm, Htrain; apply is_Some_None).
  destruct (train_fold args env num_outputs aptos i sp s0 _)
    as [[[s1 fl]|e] w1] eqn:Hrun.
  - apply train_fold_needs_aligned in Hrun. lia.
  - exists e, w1. split; [reflexivity|].
    now apply train_fold_raise_keeps_tables in Hrun.
Qed.

(** ** Configuration checks (lines 232-253, 316-340) *)

Section EmitsOnly.
Context (Q : event -> Prop).

Lemma emits_ret {A} (a : A) : emits_only Q (ret a).
Proof. intros w. exists []. simpl. now rewrite app_nil_r. Qed.

Lemma emits_raise {A} (e : exn) : emits_only Q (@raise A e).
Proof. intros w. exists []. simpl. now rewrite app_nil_r. Qed.

Lemma emits_lift {A} (o : outcome A) : emits_only Q (lift o).
Proof. destruct o; [apply emits_ret|apply emits_raise]. Qed.

Lemma emits_use {A} (var : string) (v : option A) : emits_only Q (use var v).
Proof. destruct v; [apply emits_ret|apply emits_raise]. Qed.

Lemma emits_emit (e : event) : Q e -> emits_only Q (emit e).
Proof. intros He w. exists [e]. simpl. split; [reflexivity|]. now constructor. Qed.

Lemma emits_path_exists (path : string) :
  Q (EvExists path) -> emits_only Q (path_exists path).
Proof.
  intros He w. exists [EvExists path]. simpl. split; [reflexivity|].
  now constructor.
Qed.

Lemma emits_write_file (path : string) (c : content) :
  Q (EvWrite path) -> emits_only Q (write_file path c).
Proof.
  intros He w. exists [EvWrite path]. simpl. split; [reflexivity|].
  now constructor.
Qed.

Lemma emits_bind {A B} (c : M A) (k : A -> M B) :
  emits_only Q c -> (forall a, emits_only Q (k a)) -> emits_only Q (bind c k).
Proof.
  intros Hc Hk w. destruct (Hc w) as (evs & Ht & Hq).
  unfold bind. destruct (c w) as [[a|e] w1]; simpl in *.
  - destruct (Hk a w1) as (evs' & Ht' & Hq').
    exists (evs ++ evs'). split; [now rewrite Ht', Ht, app_assoc|].
    now apply Forall_app.
  - now exists evs.
Qed.

End EmitsOnly.

Ltac emits_step :=
  match goal with
  | |- emits_only _ (bind _ _) => apply emits_bind; [|intros ?]
  | |- emits_only _ (ret _) => apply emits_ret
  | |- emits_only _ (raise _) => apply emits_raise
  | |- emits_only _ (lift _) => apply emits_lift
  | |- emits_only _ (use _ _) => apply emits_use
  | |- emits_only _ (emit _) => apply emits_emit; exact I
  | |- emits_only _ (path_exists _) => apply emits_path_exists; exact I
  | |- emits_only _ (write_file _ _) => apply emits_write_file; exact I
  | |- emits_only _ (if ?b then _ else _) => destruct b
  | |- emits_only _ (match ?x with _ => _ end) => destruct x
  end.

Lemma emits_main_head args env : emits_only before_folds (main_head args env).
Proof.
  unfold main_head, save_args, compose, load_datasets, load_dataset,
    compose_folds, add_pseudo_labels, stratified.
  repeat emits_step.
Qed.

Lemma main_stages args env w :
  main args env w =
    bind (main_head args env)
         (fun r =>
            let* sp := use "img_paths" (snd r) in
            fold_loop (fold_body args env
                         (match select_num_outputs args with
                          | Ok n => n
                          | Raise _ => 0%Z
                          end) (fst r)) 0
              (combine (fst sp) (snd sp)) summary_init) w.
Proof.
  unfold main, main_head, bind.
  destruct (save_args args w) as [[[]|e] w1]; [|reflexivity].
  destruct (select_criterion args) as [c|e]; [|reflexivity].
  cbn [lift]. unfold ret.
  destruct (select_num_outputs args) as [n|e]; [|reflexivity].
  cbn [lift]. unfold ret.
  destruct (compose args env w1) as [[[aptos splits]|e] w2]; reflexivity.
Qed.

Lemma save_args_ok args w : fst (save_args args w) = Ok tt.
Proof.
  unfold save_args, bind, path_exists, write_file, emit, ret. cbn [disk trace].
  now destruct (bool_decide _).
Qed.

Lemma select_criterion_raise args e :
  select_criterion args = Raise e -> e = NotImplementedError.
Proof.
  unfold select_criterion.
  repeat (destruct (String.eqb _ _); [discriminate|]). now intros [= <-].
Qed.

Lemma select_num_outputs_raise args e :
  select_num_outputs args = Raise e -> e = NotImplementedError.
Proof.
  unfold select_num_outputs.
  repeat (destruct (String.eqb _ _); [discriminate|]). now intros [= <-].
Qed.

(** X6.  An unsupported loss or prediction kind stops the run with
    [NotImplementedError] as soon as the configuration is saved: the world
    is the one [save_args] leaves, so nothing is preprocessed and no fold is
    entered. *)
Theorem unsupported_kind_fails_fast (args : Args) (env : Env) (w : world)
    (e : exn)
    (Hkind : select_criterion args = Raise e
             \/ select_num_outputs args = Raise e) :
  main args env w = (Raise NotImplementedError, snd (save_args args w)).
Proof.
  unfold main, bind.
  pose proof (save_args_ok args w) as Hs.
  destruct (save_args args w) as [[[]|e0] w1]; [|discriminate]. cbn [snd].
  destruct (select_criterion args) as [c|e1] eqn:Hc.
  - destruct Hkind as [Hk|Hk]; [discriminate|].
    cbn [lift]. unfold ret. rewrite Hk. cbn [lift]. unfold raise.
    now rewrite (select_num_outputs_raise _ _ Hk).
  - cbn [lift]. unfold raise. now rewrite (select_criterion_raise _ _ Hc).
Qed.

(** X7.  For every configuration the command line lets through, a criterion is
    always selected, and the number of outputs is refused exactly for the
    prediction kind [multitask] with another loss. *)
Theorem accepted_configurations (args : Args)
    (Hacc : parse_args_accepts args) :
  (exists c, select_criterion args = Ok c)
  /\ (select_num_outputs args = Raise NotImplementedError
      <-> pred_type args = "multitask" /\ loss args <> "multitask").
Proof.
  destruct Hacc as (Hl & Hp & _). unfold select_criterion, select_num_outputs.
  cbn [In] in Hl, Hp.
  destruct Hl as [<-|[<-|[<-|[<-|[]]]]];
    destruct Hp as [<-|[<-|[<-|[]]]]; cbn;
    (split; [eexists; reflexivity|]);
    split; try discriminate; try (intros [_ H]; congruence);
    try (intros [H _]; discriminate H); split; congruence.
Qed.





(** ** Duplicate removal (lines 392-400) *)

Lemma mask_select_combine {A B} (f : A -> bool) (xs : list A) (ys : list B) :
  length ys = length xs ->
  mask_select (map f xs) ys
  = Ok (map snd (List.filter (fun p => f (fst p)) (combine xs ys))).
Proof.
  revert ys. induction xs as [|x xs IH]; intros [|y ys] Hlen;
    try discriminate; [reflexivity|].
  simpl in Hlen. injection Hlen as Hlen.
  cbn [map mask_select combine List.filter fst]. rewrite (IH ys Hlen).
  now destruct (f x).
Qed.

Lemma mask_select_self {A} (f : A -> bool) (xs : list A) :
  mask_select (map f xs) xs = Ok (List.filter f xs).
Proof.
  induction xs as [|x xs IH]; [reflexivity|].
  cbn [map mask_select List.filter]. rewrite IH. now destruct (f x).
Qed.

(** Lines 396-400 for one duplicate path, on aligned paths and labels: the
    samples with that path go, the others stay in order, still aligned. *)
Lemma drop_duplicate_spec (tr va : list (string * Z)) (dup : string) :
  drop_duplicate ((map fst tr, map fst va), (map snd tr, map snd va)) dup
  = Ok ((map fst (List.filter (not_duplicate [dup]) tr),
         map fst (List.filter (not_duplicate [dup]) va)),
        (map snd (List.filter (not_duplicate [dup]) tr),
         map snd (List.filter (not_duplicate [dup]) va))).
Proof.
  unfold drop_duplicate.
  rewrite !mask_select_self.
  rewrite (mask_select_combine (fun p => negb (String.eqb p dup))
             (map fst tr) (map snd tr)) by now rewrite !length_map.
  rewrite (mask_select_combine (fun p => negb (String.eqb p dup))
             (map fst va) (map snd va)) by now rewrite !length_map.
  assert (forall l : list (string * Z),
             combine (map fst l) (map snd l) = l) as Hc.
  { induction l as [|[p z] l IH]; simpl; [reflexivity|]. now rewrite IH. }
  assert (forall l : list (string * Z),
             List.filter (fun p => negb (String.eqb p dup)) (map fst l)
             = map fst (List.filter (not_duplicate [dup]) l)) as Hf.
  { induction l as [|[p z] l IH]; simpl; [reflexivity|].
    rewrite IH. unfold not_duplicate at 2. cbn [forallb fst].
    rewrite andb_true_r. now destruct (String.eqb p dup). }
  assert (forall l : list (string * Z),
             List.filter (fun p => negb (String.eqb (fst p) dup)) l
             = List.filter (not_duplicate [dup]) l) as Hg.
  { intros l. apply List.filter_ext. intros x. unfold not_duplicate.
    cbn [forallb]. now rewrite andb_true_r. }
  now rewrite !Hc, !Hf, !Hg.
Qed.

Lemma drop_duplicates_spec (dups : list string) (tr va : list (string * Z)) :
  fold_left
    (fun acc dup =>
       match acc with
       | Ok sp' => drop_duplicate sp' dup
       | Raise e => Raise e
       end)
    dups (Ok ((map fst tr, map fst va), (map snd tr, map snd va)))
  = Ok ((map fst (List.filter (not_duplicate dups) tr),
         map fst (List.filter (not_duplicate dups) va)),
        (map snd (List.filter (not_duplicate dups) tr),
         map snd (List.filter (not_duplicate dups) va))).
Proof.
  revert tr va. induction dups as [|d dups IH]; intros tr va.
  - cbn [fold_left].
    assert (forall l : list (string * Z),
               List.filter (not_duplicate []) l = l) as Hid.
    { induction l as [|x l IHl]; simpl; [reflexivity|]. now rewrite IHl. }
    now rewrite !Hid.
  - cbn [fold_left]. rewrite drop_duplicate_spec, IH.
    assert (forall l : list (string * Z),
               List.filter (not_duplicate dups)
                 (List.filter (not_duplicate [d]) l)
               = List.filter (not_duplicate (d :: dups)) l) as Hff.
    { induction l as [|x l IHl]; [reflexivity|].
      cbn [List.filter].
      assert (not_duplicate (d :: dups) x
              = not_duplicate [d] x && not_duplicate dups x) as ->.
      { unfold not_duplicate. cbn [forallb]. now rewrite andb_true_r. }
      destruct (not_duplicate [d] x); cbn [andb List.filter];
        [|exact IHl].
      destruct (not_duplicate dups x); now rewrite IHl. }
    now rewrite !Hff.
Qed.

(** X10.  With duplicate removal requested and the aptos2019 dataset loaded, a
    fold whose paths and labels are aligned comes out aligned: exactly the
    samples whose path is a duplicate path are gone from the train and from
    the validation part, the others keep their order and labels, and no
    duplicate path is left.  Nothing is written. *)
Theorem remove_duplicates_filters (args : Args) (env : Env) (a : dataset)
    (tr va : list (string * Z)) (w : world)
    (Hreq : remove_duplicate args = true) :
  remove_duplicates args env (Some a)
    ((map fst tr, map fst va), (map snd tr, map snd va)) w
  = (Ok ((map fst (List.filter (not_duplicate (duplicate_img_paths env a)) tr),
          map fst (List.filter (not_duplicate (duplicate_img_paths env a)) va)),
         (map snd (List.filter (not_duplicate (duplicate_img_paths env a)) tr),
          map snd (List.filter (not_duplicate (duplicate_img_paths env a)) va))),
     w)
  /\ forall d p,
       In d (duplicate_img_paths env a) ->
       In p (List.filter (not_duplicate (duplicate_img_paths env a)) tr
             ++ List.filter (not_duplicate (duplicate_img_paths env a)) va) ->
       fst p <> d.
Proof.
  split.
  - unfold remove_duplicates. rewrite Hreq. cbn [use]. unfold bind, ret.
    fold (duplicate_img_paths env a). now rewrite drop_duplicates_spec.
  - intros d p Hd Hp Heq.
    assert (not_duplicate (duplicate_img_paths env a) p = true) as Hk.
    { apply in_app_iff in Hp as [Hp|Hp]; now apply filter_In in Hp. }
    unfold not_duplicate in Hk. rewrite forallb_forall in Hk.
    specialize (Hk d Hd). rewrite Heq, String.eqb_refl in Hk. discriminate.
Qed.


(** The composer hands the aptos2019 dataset to the folds exactly when the
    selection string contains ['aptos2019']. *)
Lemma compose_aptos args env w aptos splits w' :
  compose args env w = (Ok (aptos, splits), w') ->
  (aptos = None <-> contains "aptos2019" (train_dataset args) = false).
Proof.
  unfold compose. intros H.
  apply bind_inv in H as ([dr ap] & w1 & Hload & H).
  apply bind_inv in H as (sp1 & w2 & _ & H).
  apply bind_inv in H as (sp2 & w3 & _ & H).
  apply bind_inv in H as ([] & w4 & _ & H).
  unfold ret in H. inversion H; subst. clear H.
  unfold load_datasets, load_dataset in Hload.
  apply bind_inv in Hload as (dr' & wa & _ & Hload).
  apply bind_inv in Hload as (ap' & wb & Hap & Hload).
  unfold ret in Hload. inversion Hload; subst. clear Hload.
  destruct (contains "aptos2019" (train_dataset args)).
  - apply bind_inv in Hap as (d & wc & _ & Hap).
    unfold ret in Hap. inversion Hap; subst. split; discriminate.
  - unfold ret in Hap. inversion Hap; subst. split; reflexivity.
Qed.

(** ** What stops a trained fold before its first epoch (lines 403-472) *)

Lemma remove_duplicates_world args env aptos sp w :
  snd (remove_duplicates args env aptos sp w) = w.
Proof.
  unfold remove_duplicates. destruct (remove_duplicate args); [|reflexivity].
  destruct aptos as [a|]; [|reflexivity]. cbn [use]. unfold bind, ret.
  now destruct (fold_left _ _ _).
Qed.

(** X12.  [sampler] is bound nowhere: with class-aware sampling requested no fold
    is ever trained.  A fold that is not resume-skipped raises before any
    loader, model or optimizer is built, with at most the train data set
    constructed, and writes nothing. *)
Theorem class_aware_never_trains (args : Args) (env : Env) (num_outputs : Z)
    (aptos : option dataset) (fold : nat) (sp : path_split * label_split)
    (s : summary) (w : world)
    (Hca : class_aware args = true) :
  exists (e : exn) (evs : list event),
    train_fold args env num_outputs aptos fold sp s w
    = (Raise e, World (disk w) (trace w ++ evs))
    /\ (evs = []
        \/ exists paths labels,
             evs = [EvDataset paths labels] /\ e = NameError "sampler").
Proof.
  unfold train_fold. rewrite bind_split.
  pose proof (remove_duplicates_world args env aptos sp w) as Hw.
  destruct (remove_duplicates args env aptos sp w) as [[sp'|e] w1];
    cbn [snd] in Hw; subst w1.
  - destruct sp' as [[tp vp] [tl vl]].
    exists (NameError "sampler"), [EvDataset tp tl]. split; [|eauto].
    unfold make_loaders. rewrite Hca. reflexivity.
  - exists e, []. rewrite app_nil_r. split; [now destruct w|now left].
Qed.

(** X13.  An optimizer name other than Adam, AdamW, RAdam and SGD binds no
    optimizer, and both schedulers read it.  In a fold that gets as far
    (no duplicate removal, no class-aware sampling, no pretrained model)
    with one of the two schedulers: the fold builds its data sets, loaders
    and model, then raises [UnboundLocalError] for [optimizer] before the
    first epoch, and writes nothing. *)
Theorem unknown_optimizer_raises (args : Args) (env : Env) (num_outputs : Z)
    (aptos : option dataset) (fold : nat) (tp vp : list string)
    (tl vl : list Z) (s : summary) (w : world)
    (Hdup : remove_duplicate args = false)
    (Hca : class_aware args = false)
    (Hpm : pretrained_model args = None)
    (Hopt : ~ In (optimizer args) ["Adam"; "AdamW"; "RAdam"; "SGD"])
    (Hsch : In (scheduler args) ["CosineAnnealingLR"; "ReduceLROnPlateau"]) :
  train_fold args env num_outputs aptos fold ((tp, vp), (tl, vl)) s w
  = (Raise (UnboundLocalError "optimizer"),
     World (disk w)
       (trace w ++ [EvDataset tp tl; EvDataLoader; EvDataset vp vl;
                    EvDataLoader; EvModel (arch args) num_outputs])).
Proof.
  assert (String.eqb (optimizer args) "Adam"
          || String.eqb (optimizer args) "AdamW"
          || String.eqb (optimizer args) "RAdam"
          || String.eqb (optimizer args) "SGD" = false) as Ho.
  { apply not_true_is_false. intros H. apply Hopt. cbn [In].
    rewrite !orb_true_iff, !String.eqb_eq in H. intuition auto. }
  assert (String.eqb (scheduler args) "CosineAnnealingLR"
          || String.eqb (scheduler args) "ReduceLROnPlateau" = true) as Hs.
  { cbn [In] in Hsch. rewrite orb_true_iff, !String.eqb_eq. intuition auto. }
  unfold train_fold, remove_duplicates, make_loaders, make_model,
    make_optimizer, make_scheduler.
  rewrite Hdup, Hca, Hpm, Ho, Hs.
  unfold bind, emit, ret, use, raise. cbn [disk trace].
  now rewrite <- !app_assoc.
Qed.

(** X14.  A pretrained model whose checkpoint for the fold is missing, in a
    fold without duplicate removal and without class-aware sampling: the
    fold builds its data sets, loaders and model, then raises
    [FileNotFoundError] at [torch.load], and writes nothing. *)
Theorem missing_pretrained_checkpoint_raises (args : Args) (env : Env)
    (num_outputs : Z) (aptos : option dataset) (fold : nat)
    (tp vp : list string) (tl vl : list Z) (s : summary) (w : world)
    (pm : string)
    (Hdup : remove_duplicate args = false)
    (Hca : class_aware args = false)
    (Hpm : pretrained_model args = Some pm)
    (Habs : disk w !! Paths.model_pth pm (fold + 1) = None) :
  train_fold args env num_outputs aptos fold ((tp, vp), (tl, vl)) s w
  = (Raise (FileNotFoundError (Paths.model_pth pm (fold + 1))),
     World (disk w)
       (trace w ++ [EvDataset tp tl; EvDataLoader; EvDataset vp vl;
                    EvDataLoader; EvModel (arch args) num_outputs;
                    EvRead (Paths.model_pth pm (fold + 1))])).
Proof.
  unfold train_fold, remove_duplicates, make_loaders, make_model, torch_load.
  rewrite Hdup, Hca, Hpm.
  unfold bind, emit, ret, raise. cbn [disk trace]. rewrite Habs.
  now rewrite <- !app_assoc.
Qed.

(** ** An epoch count that is not positive (lines 504, 554-598) *)

(** X15.  With [epochs <= 0] the epoch loop does nothing: it appends no event,
    writes no log, and leaves both trackers at their initial values, so the
    fold reports [best_loss = +infinity], [best_score = 0] and
    [best_epoch = 0] for both criteria. *)
Theorem no_epoch_keeps_initial_state (args : Args) (env : Env) (fold : nat)
    (w : world) (s : summary)
    (Hep : (epochs args <= 0)%Z) :
  run_epochs args env fold w = (Ok fold_state_init, w)
  /\ best_losses (summary_append s fold fold_state_init)
     = best_losses s ++ [infinity]
  /\ best_scores (summary_append s fold fold_state_init)
     = best_scores s ++ [PyFloat.py_zero]
  /\ best_epochs (summary_append s fold fold_state_init) = best_epochs s ++ [0]
  /\ best_losses_1 (summary_append s fold fold_state_init)
     = best_losses_1 s ++ [infinity]
  /\ best_epochs_1 (summary_append s fold fold_state_init)
     = best_epochs_1 s ++ [0].
Proof.
  split; [|repeat split].
  unfold run_epochs, range.
  replace (Z.to_nat (epochs args)) with 0 by lia. reflexivity.
Qed.

(** ** The trackers hold the running best (lines 536-552) *)

Module PyFloatOrder.
Import PyFloat PyFloatFacts.

Lemma lex3_lt_trans a b c : lex3 a b = Lt -> lex3 b c = Lt -> lex3 a c = Lt.
Proof.
  destruct a as [[a1 a2] a3], b as [[b1 b2] b3], c as [[c1 c2] c3].
  unfold lex3. intros H1 H2. lex3_cases.
Qed.

Lemma lex3_lt_le_lt a b c :
  lex3 a b = Lt -> lex3 b c <> Gt -> lex3 a c = Lt.
Proof.
  destruct a as [[a1 a2] a3], b as [[b1 b2] b3], c as [[c1 c2] c3].
  unfold lex3. intros H1 H2. lex3_cases.
Qed.

Lemma gt_irrefl a : gt a a = false.
Proof.
  rewrite gt_spec, lex3_refl. now destruct (negb _).
Qed.

Lemma gt_not_nan a b : gt a b = true -> isnan a = false /\ isnan b = false.
Proof.
  rewrite gt_spec, !isnan_spec.
  destruct (sf_nan (Prim2SF b)), (sf_nan (Prim2SF a)); simpl; auto;
    discriminate.
Qed.

(** [not (v > b)] and [b' > b] give [not (v > b')]. *)
Lemma gt_false_mono v b b' :
  gt v b = false -> gt b' b = true -> gt v b' = false.
Proof.
  rewrite !gt_spec. intros Hv Hb.
  destruct (sf_nan (Prim2SF b)); simpl in *; [discriminate|].
  destruct (sf_nan (Prim2SF b')); simpl in *; [discriminate|].
  destruct (sf_nan (Prim2SF v)); simpl in *; [reflexivity|].
  destruct (lex3 (sf_rank (Prim2SF b)) (sf_rank (Prim2SF b'))) eqn:H1;
    try discriminate.
  destruct (lex3 (sf_rank (Prim2SF b')) (sf_rank (Prim2SF v))) eqn:H2;
    try reflexivity.
  now rewrite (lex3_lt_trans _ _ _ H1 H2) in Hv.
Qed.

(** For floats that are not NaN, [not (x >= m)] is [m > x]. *)
Lemma not_ge_gt x m :
  isnan x = false -> isnan m = false -> ge x m = false -> gt m x = true.
Proof.
  rewrite !isnan_spec, ge_spec, gt_spec. intros -> ->. simpl.
  rewrite (lex3_antisym (sf_rank (Prim2SF x)) (sf_rank (Prim2SF m))).
  now destruct (lex3 (sf_rank (Prim2SF x)) (sf_rank (Prim2SF m))).
Qed.

(** [y >= m > x] gives [y > x]. *)
Lemma ge_gt_trans y m x : ge y m = true -> gt m x = true -> gt y x = true.
Proof.
  rewrite ge_spec, !gt_spec. intros Hy Hm.
  destruct (sf_nan (Prim2SF m)); simpl in *; [discriminate|].
  destruct (sf_nan (Prim2SF y)); simpl in *; [discriminate|].
  destruct (sf_nan (Prim2SF x)); simpl in *; [discriminate|].
  destruct (lex3 (sf_rank (Prim2SF x)) (sf_rank (Prim2SF m))) eqn:H1;
    try discriminate.
  rewrite (lex3_lt_le_lt _ _ _ H1); [reflexivity|].
  intros H2. now rewrite H2 in Hy.
Qed.

Lemma gt_ge y m : gt y m = true -> ge y m = true.
Proof.
  rewrite ge_spec, gt_spec.
  destruct (negb _); simpl; [|discriminate].
  now destruct (lex3 _ _).
Qed.

Lemma lex3_le_lt_lt a b c :
  lex3 a b <> Gt -> lex3 b c = Lt -> lex3 a c = Lt.
Proof.
  destruct a as [[a1 a2] a3], b as [[b1 b2] b3], c as [[c1 c2] c3].
  unfold lex3. intros H1 H2. lex3_cases.
Qed.

(** [v > b >= z] gives [v > z]. *)
Lemma gt_ge_trans v b z : gt v b = true -> ge b z = true -> gt v z = true.
Proof.
  rewrite ge_spec, !gt_spec. intros Hv Hb.
  destruct (sf_nan (Prim2SF z)); simpl in *; [discriminate|].
  destruct (sf_nan (Prim2SF b)); simpl in *; [discriminate|].
  destruct (sf_nan (Prim2SF v)); simpl in *; [discriminate|].
  destruct (lex3 (sf_rank (Prim2SF b)) (sf_rank (Prim2SF v))) eqn:H1;
    try discriminate.
  assert (lex3 (sf_rank (Prim2SF z)) (sf_rank (Prim2SF b)) <> Gt) as Hle.
  { intros H2. now rewrite H2 in Hb. }
  now rewrite (lex3_le_lt_lt _ _ _ Hle H1).
Qed.

End PyFloatOrder.

Section RunningBest.
Context (env : Env) (fold : nat).
Context (key : val_out -> float) (best : tracker -> float).
Context (step : tracker -> nat -> tracker).
Hypothesis best_init : best tracker_init = PyFloat.py_zero.
Hypothesis best_snapshot : forall v e, best (snapshot v e) = key v.
Hypothesis step_rule : forall p e,
  step p e = if PyFloat.gt (key (validate env fold e)) (best p)
             then snapshot (validate env fold e) e else p.

Lemma running_best (k : nat) :
  (fold_left step (seq 0 k) tracker_init = tracker_init
   \/ exists e, e < k
        /\ fold_left step (seq 0 k) tracker_init
           = snapshot (validate env fold e) e
        /\ PyFloat.gt (key (validate env fold e)) PyFloat.py_zero = true)
  /\ PyFloat.ge (best (fold_left step (seq 0 k) tracker_init)) PyFloat.py_zero
     = true
  /\ forall e, e < k ->
       PyFloat.gt (key (validate env fold e))
                  (best (fold_left step (seq 0 k) tracker_init)) = false.
Proof.
  induction k as [|k (Hshape & Hpos & Hmax)].
  - cbn [seq fold_left]. rewrite best_init.
    split; [now left|]. split; [reflexivity|]. intros e He. lia.
  - rewrite seq_S, fold_left_app. cbn [fold_left Nat.add].
    set (p := fold_left step (seq 0 k) tracker_init) in *.
    rewrite step_rule.
    destruct (PyFloat.gt (key (validate env fold k)) (best p)) eqn:Hk.
    + rewrite best_snapshot.
      pose proof (PyFloatOrder.gt_ge_trans _ _ _ Hk Hpos) as Hk0.
      split; [right; exists k; repeat split; [lia|exact Hk0]|].
      split; [now apply PyFloatOrder.gt_ge|].
      intros e He. destruct (Nat.eq_dec e k) as [->|Hne].
      * apply PyFloatOrder.gt_irrefl.
      * apply (PyFloatOrder.gt_false_mono _ (best p)); [|exact Hk].
        apply Hmax. lia.
    + split.
      { destruct Hshape as [Hi|(e & He & Hs & H0)]; [now left|].
        right. exists e. repeat split; [lia|exact Hs|exact H0]. }
      split; [exact Hpos|].
      intros e He. destruct (Nat.eq_dec e k) as [->|Hne]; [exact Hk|].
      apply Hmax. lia.
Qed.

End RunningBest.

(** X16.  When a trained fold completes, what it appends to the run summary
    are the running bests of its epochs: the primary snapshot is the
    initial one or the snapshot of an epoch of the fold whose validation
    score exceeds zero, and no epoch's validation score exceeds its best
    score; likewise the secondary snapshot for the validation accuracy. *)
Theorem trackers_hold_running_best (args : Args) (env : Env)
    (num_outputs : Z) (aptos : option dataset) (fold : nat)
    (sp : path_split * label_split) (s s1 : summary) (fl : flow)
    (w w1 : world)
    (Hrun : train_fold args env num_outputs aptos fold sp s w
            = (Ok (s1, fl), w1)) :
  exists (st : fold_state),
    s1 = summary_append s fold st
    /\ (primary st = tracker_init
        \/ exists e, (Z.of_nat e < epochs args)%Z
             /\ primary st = snapshot (validate env fold e) e
             /\ PyFloat.gt (val_score (validate env fold e)) PyFloat.py_zero
                = true)
    /\ (forall e, (Z.of_nat e < epochs args)%Z ->
          PyFloat.gt (val_score (validate env fold e))
                     (best_score (primary st)) = false)
    /\ (secondary st = tracker_init
        \/ exists e, (Z.of_nat e < epochs args)%Z
             /\ secondary st = snapshot (validate env fold e) e
             /\ PyFloat.gt (val_ac_score (validate env fold e))
                           PyFloat.py_zero = true)
    /\ (forall e, (Z.of_nat e < epochs args)%Z ->
          PyFloat.gt (val_ac_score (validate env fold e))
                     (best_ac_score (secondary st)) = false).
Proof.
  apply train_fold_inv in Hrun as (wa & r & r1 & _ & Hs1 & _).
  exists (state_after env fold (Z.to_nat (epochs args))).
  split; [exact Hs1|].
  destruct (running_best env fold val_score best_score
              (improve_primary env fold) eq_refl (fun _ _ => eq_refl)
              (fun _ _ => eq_refl) (Z.to_nat (epochs args)))
    as (Hp1 & _ & Hp2).
  destruct (running_best env fold val_ac_score best_ac_score
              (improve_secondary env fold) eq_refl (fun _ _ => eq_refl)
              (fun _ _ => eq_refl) (Z.to_nat (epochs args)))
    as (Hs1' & _ & Hs2).
  cbn [state_after primary secondary].
  unfold primary_after, secondary_after.
  split.
  { destruct Hp1 as [H|(e & He & H & H0)]; [now left|].
    right. exists e. repeat split; [lia|exact H|exact H0]. }
  split; [intros e He; apply Hp2; lia|].
  split.
  { destruct Hs1' as [H|(e & He & H & H0)]; [now left|].
    right. exists e. repeat split; [lia|exact H|exact H0]. }
  intros e He. apply Hs2. lia.
Qed.

(** ** Ties in the persisted log (lines 384-385) *)

Lemma argmin_from_first (a pre : list float) (mp : float) (best : nat) :
  Forall (fun x => PyFloat.isnan x = false) a ->
  PyFloat.isnan mp = false ->
  pre !! best = Some mp ->
  (forall x, In x pre -> PyFloat.ge x mp = true) ->
  (forall j y, j < best -> pre !! j = Some y -> PyFloat.gt y mp = true) ->
  exists l,
    (pre ++ a) !! Pandas.argmin_from mp best (length pre) a = Some l
    /\ (forall x, In x (pre ++ a) -> PyFloat.ge x l = true)
    /\ forall j y, j < Pandas.argmin_from mp best (length pre) a ->
         (pre ++ a) !! j = Some y -> PyFloat.gt y l = true.
Proof.
  revert pre mp best.
  induction a as [|x a IH]; intros pre mp best Hnan Hmp Hb Hle Hlt.
  - exists mp. rewrite app_nil_r. simpl. auto.
  - apply Forall_cons in Hnan as [Hx Hnan]. simpl.
    destruct (PyFloat.ge x mp) eqn:Hge.
    + destruct (IH (pre ++ [x]) mp best Hnan Hmp) as (l & Hl & Hmin & Hfirst).
      * now apply lookup_app_l_Some.
      * intros y Hy. apply in_app_iff in Hy as [Hy|[<-|[]]]; auto.
      * intros j y Hj Hy. apply (Hlt j y Hj).
        rewrite lookup_app_l in Hy; [exact Hy|].
        apply lookup_lt_Some in Hb. lia.
      * exists l. rewrite length_app, Nat.add_1_r in Hl, Hfirst.
        rewrite <- app_assoc in Hl, Hmin, Hfirst. auto.
    + rewrite Hx.
      pose proof (PyFloatOrder.not_ge_gt x mp Hx Hmp Hge) as Hgt.
      destruct (IH (pre ++ [x]) x (length pre) Hnan Hx)
        as (l & Hl & Hmin & Hfirst).
      * rewrite lookup_app_r by lia. now rewrite Nat.sub_diag.
      * intros y Hy. apply in_app_iff in Hy as [Hy|[<-|[]]].
        -- apply PyFloatOrder.gt_ge.
           apply (PyFloatOrder.ge_gt_trans y mp x); auto.
        -- now apply PyFloatFacts.ge_refl.
      * intros j y Hj Hy. rewrite lookup_app_l in Hy by exact Hj.
        apply (PyFloatOrder.ge_gt_trans y mp x); [|exact Hgt].
        apply Hle, list_elem_of_In. eapply list_elem_of_lookup_2, Hy.
      * exists l. rewrite length_app, Nat.add_1_r in Hl, Hfirst.
        rewrite <- app_assoc in Hl, Hmin, Hfirst. auto.
Qed.

(** X17.  When no [val_loss] of the persisted log is NaN, the resume-skip emits
    the row of the earliest epoch among those of least [val_loss]: every row
    has a [val_loss] at least the emitted one, and every earlier row a
    strictly greater one. *)
Theorem resume_takes_earliest_least_row (f : frame)
    (losses scores accs : list float)
    (Hloss : Pandas.column f "val_loss" = Ok (map CFloat losses))
    (Hscore : Pandas.column f "val_score" = Ok (map CFloat scores))
    (Hacc : Pandas.column f "val_ac_score" = Ok (map CFloat accs))
    (Hrows : losses <> [])
    (Hlen_s : length scores = length losses)
    (Hlen_a : length accs = length losses)
    (Hnan : Forall (fun x => PyFloat.isnan x = false) losses) :
  exists (i : nat) (l sc ac : float),
    losses !! i = Some l /\ scores !! i = Some sc /\ accs !! i = Some ac
    /\ best_row f = Ok (l, sc, ac)
    /\ (forall x, In x losses -> PyFloat.ge x l = true)
    /\ (forall j y, j < i -> losses !! j = Some y -> PyFloat.gt y l = true).
Proof.
  destruct losses as [|x a]; [congruence|].
  apply Forall_cons in Hnan as [Hx Hnan].
  destruct (argmin_from_first a [x] x 0 Hnan Hx eq_refl)
    as (l & Hl & Hmin & Hfirst).
  { intros y [<-|[]]. now apply PyFloatFacts.ge_refl. }
  { intros j y Hj. lia. }
  cbn [length app] in Hl, Hmin, Hfirst.
  set (i := Pandas.argmin_from x 0 1 a) in *.
  assert (i < length (x :: a)) as Hlt by (eapply lookup_lt_Some; eauto).
  destruct (lookup_lt_is_Some_2 scores i) as [sc Hsc]; [lia|].
  destruct (lookup_lt_is_Some_2 accs i) as [ac Hac]; [lia|].
  exists i, l, sc, ac. repeat (split; [assumption|]).
  split; [|split; assumption].
  unfold best_row.
  rewrite Hloss, Hscore, Hacc, !PandasFacts.float_values_map.
  cbn [Pandas.argmin]. rewrite Hx. fold i.
  now rewrite (PandasFacts.item_lookup _ _ _ Hl),
    (PandasFacts.item_lookup _ _ _ Hsc), (PandasFacts.item_lookup _ _ _ Hac).
Qed.

(** ** A single dataset (lines 316-330) *)

Lemma take_in {A} (a : list A) (idx : list nat) (xs : list A) :
  Pandas.take a idx = Ok xs -> forall x, In x xs -> In x a.
Proof.
  revert xs. induction idx as [|i idx IH]; intros xs; simpl.
  - intros [= <-] x [].
  - unfold Pandas.item. destruct (a !! i) as [y|] eqn:Hy; [|discriminate].
    destruct (Pandas.take a idx) as [ys|e]; [|discriminate].
    intros [= <-] x [<-|Hx].
    + apply list_elem_of_In. eapply list_elem_of_lookup_2, Hy.
    + now apply (IH ys).
Qed.

Lemma mixed_fold_plain {A} (primary : list A) p r :
  mixed_fold primary [] p r ->
  length (fst r) = length (fst p) /\ length (snd r) = length (snd p)
  /\ forall x, In x (fst r) \/ In x (snd r) -> In x primary.
Proof.
  intros (tr & va & Ht & Hv & -> & Hl1 & Hl2 & Hin). cbn [fst snd] in *.
  rewrite app_nil_r in *. simpl in Hl1.
  split; [lia|]. split; [exact Hl2|].
  intros x [Hx|Hx]; [now apply (take_in _ _ _ Ht)|now apply Hin].
Qed.

(** Lines 291-330 for a selection that is the name of one dataset. *)
Lemma compose_folds_single (args : Args) (env : Env) (w : world) :
  (train_dataset args = "aptos2019" ->
   valid_indices (length (aptos2019_img_paths env))
     (skf_split env (n_splits args) (aptos2019_img_paths env)
        (aptos2019_labels env)) ->
   exists (img_paths : list path_split) (labels : list label_split),
     bind (load_datasets args env)
          (fun d => compose_folds args env (fst d) (snd d)) w
       = (Ok (Some (img_paths, labels)),
          World (disk w) (trace w ++ [EvPreprocess "aptos2019"]))
     /\ Forall2 (mixed_fold (aptos2019_img_paths env) [])
          (skf_split env (n_splits args) (aptos2019_img_paths env)
             (aptos2019_labels env)) img_paths
     /\ Forall2 (mixed_fold (aptos2019_labels env) [])
          (skf_split env (n_splits args) (aptos2019_img_paths env)
             (aptos2019_labels env)) labels
     /\ forall r x, In r img_paths -> In x (fst r) \/ In x (snd r) ->
          In x (aptos2019_img_paths env))
  /\ (train_dataset args = "diabetic_retinopathy" ->
      valid_indices (length (diabetic_retinopathy_img_paths env))
        (skf_split env (n_splits args) (diabetic_retinopathy_img_paths env)
           (diabetic_retinopathy_labels env)) ->
      exists (img_paths : list path_split) (labels : list label_split),
        bind (load_datasets args env)
             (fun d => compose_folds args env (fst d) (snd d)) w
          = (Ok (Some (img_paths, labels)),
             World (disk w) (trace w ++ [EvPreprocess "diabetic_retinopathy"]))
        /\ Forall2 (mixed_fold (diabetic_retinopathy_img_paths env) [])
             (skf_split env (n_splits args)
                (diabetic_retinopathy_img_paths env)
                (diabetic_retinopathy_labels env)) img_paths
        /\ Forall2 (mixed_fold (diabetic_retinopathy_labels env) [])
             (skf_split env (n_splits args)
                (diabetic_retinopathy_img_paths env)
                (diabetic_retinopathy_labels env)) labels
        /\ forall r x, In r img_paths -> In x (fst r) \/ In x (snd r) ->
             In x (diabetic_retinopathy_img_paths env)).
Proof.
  split; intros Hds Hidx.
  - destruct (stratified_ok args env
                {| ds_dir := preprocess env "aptos2019";
                   ds_img_paths := aptos2019_img_paths env;
                   ds_labels := aptos2019_labels env |} [] []
                (World (disk w) (trace w ++ [EvPreprocess "aptos2019"])))
      as (ip & lb & Hrun & Hip & Hlb).
    { cbn [ds_labels ds_img_paths].
      unfold aptos2019_labels, aptos2019_img_paths, table_img_paths.
      now rewrite !length_map. }
    { exact Hidx. }
    exists ip, lb. split; [|split; [exact Hip|split; [exact Hlb|]]].
    + unfold load_datasets, load_dataset, compose_folds. rewrite Hds.
      change (contains "diabetic_retinopathy" "aptos2019") with false.
      change (contains "aptos2019" "aptos2019") with true.
      change (String.eqb "aptos2019" "aptos2019") with true.
      cbv [bind emit ret use].
      cbn [disk trace fst snd ds_img_paths ds_labels].
      unfold aptos2019_img_paths, aptos2019_labels in Hrun.
      rewrite Hrun. reflexivity.
    + intros r x Hr Hx. apply list_elem_of_In in Hr.
      destruct (proj1 (list_elem_of_lookup _ _) Hr) as [k Hk].
      destruct (Forall2_lookup_r _ _ _ _ _ Hip Hk) as (p & _ & Hp).
      now apply mixed_fold_plain in Hp as (_ & _ & Hin); apply Hin.
  - destruct (stratified_ok args env
                {| ds_dir := preprocess env "diabetic_retinopathy";
                   ds_img_paths := diabetic_retinopathy_img_paths env;
                   ds_labels := diabetic_retinopathy_labels env |} [] []
                (World (disk w)
                   (trace w ++ [EvPreprocess "diabetic_retinopathy"])))
      as (ip & lb & Hrun & Hip & Hlb).
    { cbn [ds_labels ds_img_paths].
      unfold diabetic_retinopathy_labels, diabetic_retinopathy_img_paths,
        table_img_paths.
      now rewrite !length_map. }
    { exact Hidx. }
    exists ip, lb. split; [|split; [exact Hip|split; [exact Hlb|]]].
    + unfold load_datasets, load_dataset, compose_folds. rewrite Hds.
      change (contains "diabetic_retinopathy" "diabetic_retinopathy")
        with true.
      change (contains "aptos2019" "diabetic_retinopathy") with false.
      change (String.eqb "diabetic_retinopathy" "aptos2019") with false.
      change (String.eqb "diabetic_retinopathy" "diabetic_retinopathy")
        with true.
      cbv [bind emit ret use].
      cbn [disk trace fst snd ds_img_paths ds_labels].
      unfold diabetic_retinopathy_img_paths, diabetic_retinopathy_labels
        in Hrun.
      rewrite Hrun. reflexivity.
    + intros r x Hr Hx. apply list_elem_of_In in Hr.
      destruct (proj1 (list_elem_of_lookup _ _) Hr) as [k Hk].
      destruct (Forall2_lookup_r _ _ _ _ _ Hip Hk) as (p & _ & Hp).
      now apply mixed_fold_plain in Hp as (_ & _ & Hin); apply Hin.
Qed.

Lemma stacked_in {A} (primary extra : list A) idx rs r x :
  Forall2 (mixed_fold primary []) idx rs ->
  In r (map (fun r => (fst r ++ extra, snd r)) rs) ->
  In x (fst r) \/ In x (snd r) ->
  In x primary \/ In x extra.
Proof.
  intros Hrs Hr Hx.
  apply in_map_iff in Hr as (r0 & <- & Hr0). cbn [fst snd] in Hx.
  apply list_elem_of_In in Hr0.
  destruct (proj1 (list_elem_of_lookup _ _) Hr0) as [k Hk].
  destruct (Forall2_lookup_r _ _ _ _ _ Hrs Hk) as (p & _ & Hp).
  apply mixed_fold_plain in Hp as (_ & _ & Hin).
  rewrite in_app_iff in Hx. destruct Hx as [[Hx|Hx]|Hx]; auto.
Qed.

(** X9.  For the selection ['aptos2019'] the composer ([compose], lines
    290-365) preprocesses that dataset, then the test set when
    pseudo-labels are requested, and nothing else.  Every fold is a plain
    split of the dataset: the train part is the samples at the fold's train
    indices followed by the pseudo-labelled test samples ([test_img_paths]:
    none unless requested), the validation part the samples at its
    validation indices, so every sample of a fold is an aptos2019 sample or
    a pseudo-labelled one.  Likewise for ['diabetic_retinopathy']. *)
Theorem single_dataset_folds (args : Args) (env : Env) (w : world) :
  (train_dataset args = "aptos2019" ->
   valid_indices (length (aptos2019_img_paths env))
     (skf_split env (n_splits args) (aptos2019_img_paths env)
        (aptos2019_labels env)) ->
   exists (aptos : option dataset) (img_paths : list path_split)
          (labels : list label_split),
     compose args env w
       = (Ok (aptos, Some (img_paths, labels)),
          World (disk w)
            (trace w ++ [EvPreprocess "aptos2019"] ++ test_events args))
     /\ Forall2 (mixed_fold (aptos2019_img_paths env)
                   (test_img_paths args env))
          (skf_split env (n_splits args) (aptos2019_img_paths env)
             (aptos2019_labels env)) img_paths
     /\ Forall2 (mixed_fold (aptos2019_labels env) (test_labels args env))
          (skf_split env (n_splits args) (aptos2019_img_paths env)
             (aptos2019_labels env)) labels
     /\ forall r x, In r img_paths -> In x (fst r) \/ In x (snd r) ->
          In x (aptos2019_img_paths env) \/ In x (test_img_paths args env))
  /\ (train_dataset args = "diabetic_retinopathy" ->
      valid_indices (length (diabetic_retinopathy_img_paths env))
        (skf_split env (n_splits args) (diabetic_retinopathy_img_paths env)
           (diabetic_retinopathy_labels env)) ->
      exists (aptos : option dataset) (img_paths : list path_split)
             (labels : list label_split),
        compose args env w
          = (Ok (aptos, Some (img_paths, labels)),
             World (disk w)
               (trace w ++ [EvPreprocess "diabetic_retinopathy"]
                ++ test_events args))
        /\ Forall2 (mixed_fold (diabetic_retinopathy_img_paths env)
                      (test_img_paths args env))
             (skf_split env (n_splits args)
                (diabetic_retinopathy_img_paths env)
                (diabetic_retinopathy_labels env)) img_paths
        /\ Forall2 (mixed_fold (diabetic_retinopathy_labels env)
                      (test_labels args env))
             (skf_split env (n_splits args)
                (diabetic_retinopathy_img_paths env)
                (diabetic_retinopathy_labels env)) labels
        /\ forall r x, In r img_paths -> In x (fst r) \/ In x (snd r) ->
             In x (diabetic_retinopathy_img_paths env)
             \/ In x (test_img_paths args env)).
Proof.
  split; intros Hds Hidx.
  - destruct (proj1 (compose_folds_single args env w) Hds Hidx)
      as (ip & lb & Hrun & Hip & Hlb & _).
    destruct (compose_after_folds args env w ip lb _ Hrun) as [aptos Hcomp].
    exists aptos. eexists _, _. split.
    { rewrite Hcomp. unfold messidor_events. rewrite Hds.
      change (contains "messidor" "aptos2019") with false.
      cbn [disk trace]. now rewrite app_nil_r, <- app_assoc. }
    split; [exact (mixed_fold_stack _ [] _ _ _ Hip)|].
    split; [exact (mixed_fold_stack _ [] _ _ _ Hlb)|].
    intros r x. now apply stacked_in with (idx := skf_split env (n_splits args)
      (aptos2019_img_paths env) (aptos2019_labels env)).
  - destruct (proj2 (compose_folds_single args env w) Hds Hidx)
      as (ip & lb & Hrun & Hip & Hlb & _).
    destruct (compose_after_folds args env w ip lb _ Hrun) as [aptos Hcomp].
    exists aptos. eexists _, _. split.
    { rewrite Hcomp. unfold messidor_events. rewrite Hds.
      change (contains "messidor" "diabetic_retinopathy") with false.
      cbn [disk trace]. now rewrite app_nil_r, <- app_assoc. }
    split; [exact (mixed_fold_stack _ [] _ _ _ Hip)|].
    split; [exact (mixed_fold_stack _ [] _ _ _ Hlb)|].
    intros r x. now apply stacked_in with (idx := skf_split env (n_splits args)
      (diabetic_retinopathy_img_paths env) (diabetic_retinopathy_labels env)).
Qed.

(** ** The epoch driver (lines 129-208) *)

Section Driver.
Context {tensor : Type} (tc : Torch tensor) (args : Args) (co : LossCoef)
  (criterion : criterion_kind).

(** X18.  A loader without batches: [train] stops at [print(adj_weight)] and
    [validate] at its [return], each with an [UnboundLocalError] for the
    auxiliary output that no batch has bound. *)
Theorem empty_loader_raises :
  train_epoch tc args co criterion []
  = (Raise (UnboundLocalError "adj_weight"), [EvModelTrain])
  /\ validate_epoch tc args co criterion []
     = (Raise (UnboundLocalError "adj"), [EvModelEval]).
Proof. split; reflexivity. Qed.

Lemma train_loop_events loader m a evs m' a' evs' :
  train_loop tc args co criterion loader m a evs = (Ok (m', a'), evs') ->
  evs' = evs ++ flat_map (fun _ => batch_events) loader
  /\ (loader <> [] -> is_Some a').
Proof.
  revert m a evs. induction loader as [|[input target] loader IH];
    intros m a evs; cbn [train_loop flat_map].
  - intros [= <- <- <-]. rewrite app_nil_r. split; [reflexivity|congruence].
  - destruct (forward tc input) as [[output adj'] x].
    destruct (batch_loss tc args co criterion output target)
      as [[[l|] output']|e]; try discriminate.
    intros H. destruct loader as [|b loader'].
    + cbn [train_loop] in H. injection H as <- <- <-.
      cbn [flat_map]. rewrite app_nil_r. unfold batch_events.
      rewrite <- !app_assoc. split; [reflexivity|]. intros _. now eexists.
    + apply IH in H as [-> Ha]. unfold batch_events at 2.
      rewrite <- !app_assoc. split; [reflexivity|].
      intros _. now apply Ha.
Qed.

Lemma validate_loop_events loader m a evs o evs' :
  validate_loop tc args co criterion loader m a evs = (o, evs') ->
  exists k, evs' = evs ++ repeat EvForward k /\ k <= length loader.
Proof.
  revert m a evs. induction loader as [|[input target] loader IH];
    intros m a evs; cbn [validate_loop].
  - intros [= <- <-]. exists 0. simpl. now rewrite app_nil_r.
  - destruct (forward tc input) as [[output adj'] x].
    destruct (batch_loss tc args co criterion output target)
      as [[[l|] output']|e].
    + intros H. apply IH in H as (k & -> & Hk).
      exists (S k). rewrite <- app_assoc. split; [reflexivity|simpl; lia].
    + intros [= <- <-]. exists 1. split; [reflexivity|simpl; lia].
    + intros [= <- <-]. exists 1. split; [reflexivity|simpl; lia].
Qed.

(** X19.  An epoch of [train] that completes has, for every batch in order, one
    forward pass, then [zero_grad], [backward] and one optimizer step, and
    nothing else.  [validate] never touches the optimizer: however it ends,
    it has put the model in evaluation mode and run forward passes, at most
    one per batch. *)
Theorem driver_event_discipline (loader : list (tensor * tensor)) :
  (forall r evs,
      train_epoch tc args co criterion loader = (Ok r, evs) ->
      evs = EvModelTrain :: flat_map (fun _ => batch_events) loader)
  /\ (forall o evs,
        validate_epoch tc args co criterion loader = (o, evs) ->
        Forall no_update evs /\ length evs <= S (length loader)).
Proof.
  split.
  - intros r evs. unfold train_epoch.
    destruct (train_loop tc args co criterion loader meters_init None
                [EvModelTrain]) as [[[m [a|]]|e] evs0] eqn:H;
      try discriminate.
    intros [= _ <-]. now apply train_loop_events in H as [-> _].
  - intros o evs. unfold validate_epoch.
    destruct (validate_loop tc args co criterion loader meters_init None
                [EvModelEval]) as [o0 evs0] eqn:H.
    apply validate_loop_events in H as (k & -> & Hk).
    intros Heq.
    assert (evs = [EvModelEval] ++ repeat EvForward k) as ->.
    { destruct o0 as [[m [a|]]|e]; now inversion Heq. }
    split.
    + apply Forall_app. split.
      * constructor; [now left|constructor].
      * apply Forall_forall. intros e He. apply list_elem_of_In in He.
        apply repeat_spec in He. now right.
    + rewrite length_app, repeat_length. simpl. lia.
Qed.



End Driver.

(** ** The order of the folds (lines 380-381) *)

Lemma emits_read_csv Q (path : string) :
  Q (EvRead path) -> emits_only Q (read_csv path).
Proof.
  intros He w. exists [EvRead path]. unfold read_csv.
  destruct (disk w !! path) as [[]|]; simpl;
    (split; [reflexivity|now constructor]).
Qed.

Lemma emits_torch_load Q (path : string) :
  Q (EvRead path) -> emits_only Q (torch_load path).
Proof.
  intros He w. exists [EvRead path]. unfold torch_load.
  destruct (disk w !! path); simpl; (split; [reflexivity|now constructor]).
Qed.

Lemma emits_foldM Q {A S} (body : S -> A -> M S) (xs : list A) (st : S) :
  (forall st x, emits_only Q (body st x)) -> emits_only Q (foldM body xs st).
Proof.
  intros Hb. revert st. induction xs as [|x xs IH]; intros st; simpl.
  - apply emits_ret.
  - apply emits_bind; [apply Hb|exact IH].
Qed.

Ltac emits_more :=
  match goal with
  | |- emits_only _ (read_csv _) => apply emits_read_csv; exact I
  | |- emits_only _ (torch_load _) => apply emits_torch_load; exact I
  | |- emits_only _ (foldM _ _ _) => apply emits_foldM; intros ? ?
  | _ => emits_step
  end.

Lemma emits_weaken {A} (P Q : event -> Prop) (c : M A) :
  (forall e, P e -> Q e) -> emits_only P c -> emits_only Q c.
Proof.
  intros HPQ Hc w. destruct (Hc w) as (evs & Ht & Hq).
  exists evs. split; [exact Ht|]. eapply Forall_impl; eauto.
Qed.

Lemma fold_numbers_app evs1 evs2 :
  fold_numbers (evs1 ++ evs2) = fold_numbers evs1 ++ fold_numbers evs2.
Proof. unfold fold_numbers. apply flat_map_app. Qed.

Lemma fold_numbers_no_fold evs : Forall no_fold evs -> fold_numbers evs = [].
Proof.
  induction 1 as [|e evs He _ IH]; [reflexivity|].
  unfold fold_numbers in *. cbn [flat_map]. rewrite IH.
  now destruct e.
Qed.

Lemma emits_train_fold args env num_outputs aptos fold sp s :
  emits_only no_fold (train_fold args env num_outputs aptos fold sp s).
Proof.
  unfold train_fold.
  apply emits_bind.
  { unfold remove_duplicates. repeat emits_more. }
  intros sp'. apply emits_bind.
  { unfold make_loaders. destruct sp' as [[? ?] [? ?]]. repeat emits_more. }
  intros _. apply emits_bind.
  { unfold make_model. repeat emits_more. }
  intros _. apply emits_bind.
  { unfold make_optimizer. repeat emits_more. }
  intros opt. apply emits_bind.
  { unfold make_scheduler. repeat emits_more. }
  intros _. apply emits_bind.
  { unfold run_epochs, epoch_body, scheduler_step. repeat emits_more. }
  intros st. unfold write_results. repeat emits_more.
Qed.

Lemma emits_resume_skip args fold s :
  emits_only no_fold (resume_skip args fold s).
Proof. unfold resume_skip. repeat emits_more. Qed.

(** The body of fold [fold] announces its own number once, first. *)
Lemma fold_body_numbers args env num_outputs aptos fold sp s w :
  exists evs,
    trace (snd (fold_body args env num_outputs aptos fold sp s w))
      = trace w ++ evs
    /\ fold_numbers evs = [fold + 1].
Proof.
  rewrite fold_body_unfold. cbv zeta.
  set (w1 := World (disk w) _).
  assert (exists evs1,
             trace (snd (if bool_decide
                              (is_Some (disk w !! Paths.model_pth
                                          (run_name args) (fold + 1)))
                         then bind (resume_skip args fold s)
                                (fun s' => ret (s', Next)) w1
                         else train_fold args env num_outputs aptos fold
                                sp s w1))
             = trace w1 ++ evs1 /\ Forall no_fold evs1) as (evs1 & Ht & Hq).
  { destruct (bool_decide _).
    - apply (emits_bind no_fold); [apply emits_resume_skip|].
      intros s'. apply emits_ret.
    - apply emits_train_fold. }
  eexists. split.
  - rewrite Ht. subst w1. cbn [trace]. rewrite <- app_assoc. reflexivity.
  - rewrite fold_numbers_app, (fold_numbers_no_fold _ Hq). reflexivity.
Qed.

Lemma fold_loop_numbers args env num_outputs aptos splits :
  forall i s w,
  exists evs m,
    trace (snd (fold_loop (fold_body args env num_outputs aptos) i splits s w))
      = trace w ++ evs
    /\ m <= length splits
    /\ fold_numbers evs = map S (seq i m).
Proof.
  induction splits as [|sp splits IH]; intros i s w; cbn [fold_loop].
  - exists [], 0. simpl. rewrite app_nil_r. auto.
  - destruct (fold_body_numbers args env num_outputs aptos i sp s w)
      as (evs1 & Ht1 & Hn1).
    unfold bind.
    destruct (fold_body args env num_outputs aptos i sp s w)
      as [[[s1 fl]|e] w1]; cbn [snd fst] in *.
    + destruct fl.
      * destruct (IH (S i) s1 w1) as (evs2 & m & Ht2 & Hm & Hn2).
        exists (evs1 ++ evs2), (S m).
        split; [now rewrite Ht2, Ht1, app_assoc|].
        split; [simpl; lia|].
        rewrite fold_numbers_app, Hn1, Hn2. cbn [seq map app].
        now rewrite Nat.add_1_r.
      * exists evs1, 1. split; [exact Ht1|]. split; [simpl; lia|].
        rewrite Hn1. cbn. now rewrite Nat.add_1_r.
    + exists evs1, 1. split; [exact Ht1|]. split; [simpl; lia|].
      rewrite Hn1. cbn. now rewrite Nat.add_1_r.
Qed.

(** X21.  However [main] ends, the folds it has entered are the folds 1, 2, ...,
    m in this order, each once, for some m. *)
Theorem folds_are_entered_in_order (args : Args) (env : Env) (w : world) :
  exists (evs : list event) (m : nat),
    trace (snd (main args env w)) = trace w ++ evs
    /\ fold_numbers evs = seq 1 m.
Proof.
  rewrite main_stages.
  destruct (emits_main_head args env w) as (evs0 & Ht0 & Hq0).
  assert (fold_numbers evs0 = []) as Hn0.
  { apply fold_numbers_no_fold. eapply Forall_impl; [exact Hq0|].
    intros e He. now destruct e. }
  unfold bind at 1.
  destruct (main_head args env w) as [[[aptos splits]|e] w1]; cbn [snd] in *.
  - cbn [fst snd]. unfold bind.
    destruct splits as [sp|]; cbn [use].
    + unfold ret.
      destruct (fold_loop_numbers args env
                  (match select_num_outputs args with
                   | Ok n => n
                   | Raise _ => 0%Z
                   end) aptos (combine (fst sp) (snd sp)) 0 summary_init w1)
        as (evs & m & Ht & _ & Hn).
      exists (evs0 ++ evs), m.
      split; [now rewrite Ht, Ht0, app_assoc|].
      rewrite fold_numbers_app, Hn0, Hn. cbn [app].
      now rewrite <- seq_shift.
    + unfold raise. exists evs0, 0. cbn [snd]. auto.
  - exists evs0, 0. auto.
Qed.

(** ** The further properties on sample runs *)

Lemma resume_without_log_witness :
  disk (checkpoint_world None) !! Paths.log_csv "run" 1 = None
  /\ fst (fold_body demo_args (demo_env rising_val) 5 None 0 demo_fold
            summary_init (checkpoint_world None))
     = Raise (FileNotFoundError "models/run/log_1.csv").
Proof.
  split; [reflexivity|].
  rewrite (resume_without_log_raises demo_args (demo_env rising_val) 5 None 0
             demo_fold summary_init (checkpoint_world None)).
  - reflexivity.
  - exists Blob. vm_compute. reflexivity.
  - vm_compute. reflexivity.
Defined.

Lemma resume_with_empty_log_witness :
  Pandas.column log_init "val_loss" = Ok []
  /\ fst (fold_body demo_args (demo_env rising_val) 5 None 0 demo_fold
            summary_init (checkpoint_world (Some (Csv log_init))))
     = Raise ValueError.
Proof.
  split; [reflexivity|].
  rewrite (resume_with_empty_log_raises demo_args (demo_env rising_val) 5
             None 0 demo_fold summary_init
             (checkpoint_world (Some (Csv log_init))) log_init).
  - reflexivity.
  - exists Blob. vm_compute. reflexivity.
  - vm_compute. reflexivity.
  - reflexivity.
Defined.

Lemma resume_with_missing_column_witness :
  ~ In "val_loss" (Pandas.header [("epoch", [CInt 0])])
  /\ fst (fold_body demo_args (demo_env rising_val) 5 None 0 demo_fold
            summary_init
            (checkpoint_world (Some (Csv [("epoch", [CInt 0])]))))
     = Raise (KeyError "val_loss").
Proof.
  assert (~ In "val_loss" (Pandas.header [("epoch", [CInt 0])])) as Hcol.
  { cbn. intros [H|[]]. discriminate H. }
  split; [exact Hcol|].
  rewrite (resume_with_missing_column_raises demo_args (demo_env rising_val)
             5 None 0 demo_fold summary_init
             (checkpoint_world (Some (Csv [("epoch", [CInt 0])])))
             [("epoch", [CInt 0])]).
  - reflexivity.
  - exists Blob. vm_compute. reflexivity.
  - vm_compute. reflexivity.
  - exact Hcol.
Defined.

Lemma trained_fold_after_skip_witness :
  exists (s0 : summary) (w0 : world) (e : exn) (w1 : world),
    at_fold (fold_body demo_args (demo_env rising_val) 5 None) demo_splits
      (resumed_world [1]) 1 s0 w0
    /\ fold_body demo_args (demo_env rising_val) 5 None 1 demo_fold s0 w0
       = (Raise e, w1)
    /\ disk w1 !! Paths.results_csv "run" = None.
Proof.
  pose (r0 := fold_body demo_args (demo_env rising_val) 5 None 0
                ((["p/a.png"; "p/b.png"], ["p/c.png"]), ([0; 1], [0]))%Z
                summary_init (resumed_world [1])).
  pose (s0 := match fst r0 with
              | Ok (s, _) => s
              | Raise _ => summary_init
              end).
  pose (w0 := snd r0).
  assert (r0 = (Ok (s0, Next), w0)) as H0 by (vm_compute; reflexivity).
  assert (at_fold (fold_body demo_args (demo_env rising_val) 5 None)
            demo_splits (resumed_world [1]) 1 s0 w0) as Hat.
  { eapply at_next; [apply at_first|reflexivity|exact H0]. }
  destruct (trained_fold_after_skip_raises demo_args (demo_env rising_val) 5
              None demo_splits (resumed_world [1]) 1 0 demo_fold s0 w0 Hat)
    as (e & w1 & Hrun & Hres & _).
  - lia.
  - exists Blob. vm_compute. reflexivity.
  - vm_compute. reflexivity.
  - exists s0, w0, e, w1. split; [exact Hat|]. split; [exact Hrun|].
    transitivity (disk w0 !! Paths.results_csv (run_name demo_args));
      [exact Hres|vm_compute; reflexivity].
Defined.

Lemma single_fold_mode_witness :
  cv (demo_args_of "aptos2019" false None) = false
  /\ snd (fold_loop (fold_body (demo_args_of "aptos2019" false None)
                       (demo_env rising_val) 5 None) 0 demo_splits
            summary_init empty_world)
     = snd (fold_body (demo_args_of "aptos2019" false None)
              (demo_env rising_val) 5 None 0 demo_fold summary_init
              empty_world).
Proof.
  split; [reflexivity|].
  apply (single_fold_mode_stops_after_trained_fold
           (demo_args_of "aptos2019" false None) (demo_env rising_val) 5 None
           demo_fold _ summary_init empty_world); reflexivity.
Defined.

Lemma unsupported_kind_witness :
  select_criterion (demo_config "HuberLoss" "SGD" 3 false false false None)
  = Raise NotImplementedError
  /\ fst (main (demo_config "HuberLoss" "SGD" 3 false false false None)
            (demo_env rising_val) empty_world)
     = Raise NotImplementedError.
Proof.
  split; [reflexivity|].
  rewrite (unsupported_kind_fails_fast
             (demo_config "HuberLoss" "SGD" 3 false false false None)
             (demo_env rising_val) empty_world NotImplementedError).
  - reflexivity.
  - left. reflexivity.
Defined.

Lemma accepted_configurations_witness :
  parse_args_accepts demo_args
  /\ exists c, select_criterion demo_args = Ok c.
Proof.
  assert (parse_args_accepts demo_args) as Hacc.
  { unfold parse_args_accepts. cbn. tauto. }
  split; [exact Hacc|].
  exact (proj1 (accepted_configurations demo_args Hacc)).
Defined.


Lemma single_dataset_witness :
  exists (aptos : option dataset) (img_paths : list path_split)
         (labels : list label_split) (w' : world),
    compose (demo_args_of "aptos2019" true (Some "probs"))
      (demo_env rising_val) empty_world
      = (Ok (aptos, Some (img_paths, labels)), w')
    /\ trace w' = [EvPreprocess "aptos2019"; EvPreprocess "test"]
    /\ map (fun r => (length (fst r), length (snd r))) img_paths
       = [(3, 2); (3, 2)].
Proof.
  destruct (proj1 (single_dataset_folds
                     (demo_args_of "aptos2019" true (Some "probs"))
                     (demo_env rising_val) empty_world) eq_refl)
    as (aptos & ip & lb & Hrun & _).
  { unfold valid_indices. cbn. repeat (constructor; try lia). }
  exists aptos, ip, lb. eexists. split; [exact Hrun|].
  split; [reflexivity|].
  revert Hrun. vm_compute. intros [= <- <- <-]. reflexivity.
Defined.

Lemma remove_duplicates_witness :
  remove_duplicate (demo_config "CrossEntropyLoss" "SGD" 3 false true false
                      None) = true
  /\ fst (remove_duplicates
            (demo_config "CrossEntropyLoss" "SGD" 3 false true false None)
            dedup_env
            (Some {| ds_dir := "p"; ds_img_paths := []; ds_labels := [] |})
            ((["p/a.png"; "p/b.png"], ["p/b.png"; "p/c.png"]),
             ([0; 1], [1; 0])%Z) empty_world)
     = Ok ((["p/a.png"], ["p/c.png"]), ([0], [0])%Z).
Proof.
  split; [reflexivity|].
  destruct (remove_duplicates_filters
              (demo_config "CrossEntropyLoss" "SGD" 3 false true false None)
              dedup_env
              {| ds_dir := "p"; ds_img_paths := []; ds_labels := [] |}
              [("p/a.png", 0%Z); ("p/b.png", 1%Z)]
              [("p/b.png", 1%Z); ("p/c.png", 0%Z)] empty_world eq_refl)
    as [Hrun _].
  cbn [map fst snd] in Hrun. rewrite Hrun. reflexivity.
Defined.


Lemma class_aware_witness :
  exists (w' : world),
    train_fold (demo_config "CrossEntropyLoss" "SGD" 3 false false true None)
      (demo_env rising_val) 5 None 0 demo_fold summary_init empty_world
    = (Raise (NameError "sampler"), w').
Proof.
  destruct (class_aware_never_trains
              (demo_config "CrossEntropyLoss" "SGD" 3 false false true None)
              (demo_env rising_val) 5 None 0 demo_fold summary_init
              empty_world eq_refl)
    as (e & evs & Hrun & _).
  eexists. vm_compute. reflexivity.
Defined.

Lemma unknown_optimizer_witness :
  ~ In (optimizer (demo_config "CrossEntropyLoss" "LBFGS" 3 false false false
                     None)) ["Adam"; "AdamW"; "RAdam"; "SGD"]
  /\ fst (train_fold
            (demo_config "CrossEntropyLoss" "LBFGS" 3 false false false None)
            (demo_env rising_val) 5 None 0 demo_fold summary_init
            empty_world)
     = Raise (UnboundLocalError "optimizer").
Proof.
  assert (~ In (optimizer (demo_config "CrossEntropyLoss" "LBFGS" 3 false
                             false false None))
            ["Adam"; "AdamW"; "RAdam"; "SGD"]) as Hopt.
  { cbn. intros [H|[H|[H|[H|[]]]]]; discriminate H. }
  split; [exact Hopt|].
  unfold demo_fold.
  rewrite (unknown_optimizer_raises
             (demo_config "CrossEntropyLoss" "LBFGS" 3 false false false None)
             (demo_env rising_val) 5 None 0 _ _ _ _ summary_init empty_world
             eq_refl eq_refl eq_refl Hopt).
  - reflexivity.
  - cbn. tauto.
Defined.

Lemma missing_pretrained_witness :
  fst (train_fold
         (demo_config "CrossEntropyLoss" "SGD" 3 false false false
            (Some "run"))
         (demo_env rising_val) 5 None 0 demo_fold summary_init empty_world)
  = Raise (FileNotFoundError "models/run/model_1.pth").
Proof.
  unfold demo_fold.
  rewrite (missing_pretrained_checkpoint_raises
             (demo_config "CrossEntropyLoss" "SGD" 3 false false false
                (Some "run"))
             (demo_env rising_val) 5 None 0 _ _ _ _ summary_init empty_world
             "run" eq_refl eq_refl eq_refl eq_refl).
  reflexivity.
Defined.

Lemma no_epoch_witness :
  (epochs (demo_config "CrossEntropyLoss" "SGD" 0 false false false None)
   <= 0)%Z
  /\ run_epochs (demo_config "CrossEntropyLoss" "SGD" 0 false false false None)
       (demo_env rising_val) 0 empty_world
     = (Ok fold_state_init, empty_world).
Proof.
  assert ((epochs (demo_config "CrossEntropyLoss" "SGD" 0 false false false
                     None) <= 0)%Z) as Hep by (cbn; lia).
  split; [exact Hep|].
  exact (proj1 (no_epoch_keeps_initial_state
                  (demo_config "CrossEntropyLoss" "SGD" 0 false false false
                     None)
                  (demo_env rising_val) 0 empty_world summary_init Hep)).
Defined.

Lemma earliest_least_row_witness :
  Forall (fun x => PyFloat.isnan x = false) [0.5; 0.25; 0.25]%float
  /\ best_row tied_log = Ok (0.25, 0.75, 0.5)%float.
Proof.
  assert (Forall (fun x => PyFloat.isnan x = false) [0.5; 0.25; 0.25]%float)
    as Hnan by (repeat constructor).
  split; [exact Hnan|].
  assert ([0.5; 0.25; 0.25]%float <> []) as Hrows by discriminate.
  destruct (resume_takes_earliest_least_row tied_log
              [0.5; 0.25; 0.25]%float [0.5; 0.75; 1]%float
              [0.25; 0.5; 0.75]%float eq_refl eq_refl eq_refl Hrows
              eq_refl eq_refl Hnan)
    as (i & l & sc & ac & _ & _ & _ & Hrow & _).
  rewrite Hrow. revert Hrow. vm_compute. now intros [= <- <- <-].
Defined.


Lemma running_best_witness :
  exists (s1 : summary) (w1 : world) (st : fold_state),
    train_fold demo_args (demo_env rising_val) 5 None 0 demo_fold
      summary_init empty_world = (Ok (s1, Next), w1)
    /\ s1 = summary_append summary_init 0 st
    /\ best_scores s1 = [0.75%float]
    /\ best_epochs s1 = [1]
    /\ best_epochs_1 s1 = [2].
Proof.
  pose (r0 := train_fold demo_args (demo_env rising_val) 5 None 0 demo_fold
                summary_init empty_world).
  pose (s1 := match fst r0 with
              | Ok (s, _) => s
              | Raise _ => summary_init
              end).
  assert (r0 = (Ok (s1, Next), snd r0)) as Hrun by (vm_compute; reflexivity).
  destruct (trackers_hold_running_best demo_args (demo_env rising_val) 5 None
              0 demo_fold summary_init s1 Next empty_world (snd r0) Hrun)
    as (st & Hs1 & _).
  exists s1, (snd r0), st. split; [exact Hrun|]. split; [exact Hs1|].
  repeat split; vm_compute; reflexivity.
Defined.
